(** * DB-vision MCP server: connection core

    A shallow embedding of the connection core of the repository
    (src/database/base.py, src/database/mysql.py and the registry of
    src/tools/connection_tools.py) together with the properties of its
    specification.

    Python values are rendered as follows.  A [str] is a [string] whose
    characters are the code points below 256; a [dict] that is only
    looked up by key is a [gmap]; the process-wide registries, whose key
    order is observable, are insertion-ordered association lists; an
    exception is a value of [Exn]; a method is a state transformer that
    returns either a raised exception or a value, and that keeps every
    effect made before the raise. *)

From Stdlib Require Import ZArith NArith Ascii String List Lia Bool.
From Stdlib Require DecimalString.
From stdpp Require Import base option list strings gmap.

Local Open Scope Z_scope.

(** ** Python string operations *)

Module PyStr.

(** [str.isspace] on one code point below 256: TAB..CR, FS..US, SPACE,
    NEL and NO-BREAK SPACE. *)
Definition isspace (c : ascii) : bool :=
  let n := N_of_ascii c in
  (((9 <=? n) && (n <=? 13)) || ((28 <=? n) && (n <=? 32))
   || (n =? 133) || (n =? 160))%N.

(** [str.lower] on one code point below 256: A..Z and the accented
    capitals U+00C0..U+00DE (the multiplication sign excepted) move up
    by 32. *)
Definition lower_char (c : ascii) : ascii :=
  let n := N_of_ascii c in
  if ((((65 <=? n) && (n <=? 90))
       || ((192 <=? n) && (n <=? 222) && negb (n =? 215))))%N
  then ascii_of_N (n + 32) else c.

Fixpoint lower (s : string) : string :=
  match s with
  | EmptyString => EmptyString
  | String c s' => String (lower_char c) (lower s')
  end.

Fixpoint lstrip (s : string) : string :=
  match s with
  | EmptyString => EmptyString
  | String c s' => if isspace c then lstrip s' else s
  end.

Fixpoint rstrip (s : string) : string :=
  match s with
  | EmptyString => EmptyString
  | String c s' =>
      match rstrip s' with
      | EmptyString => if isspace c then EmptyString else String c EmptyString
      | r => String c r
      end
  end.

(** [s.strip()] *)
Definition strip (s : string) : string := rstrip (lstrip s).

(** [s.startswith(p)] and [s.startswith((p1, ..., pn))] *)
Definition startswith (s p : string) : bool := String.prefix p s.

Definition startswith_any (s : string) (ps : list string) : bool :=
  existsb (startswith s) ps.

(** [needle in s] *)
Fixpoint contains (needle s : string) : bool :=
  String.prefix needle s ||
  match s with
  | EmptyString => false
  | String _ s' => contains needle s'
  end.

(** [s[n:]] and [s[:n]] for [0 <= n] *)
Fixpoint drop (n : nat) (s : string) : string :=
  match n, s with
  | O, _ => s
  | S _, EmptyString => EmptyString
  | S n', String _ s' => drop n' s'
  end.

Fixpoint take (n : nat) (s : string) : string :=
  match n, s with
  | O, _ => EmptyString
  | S _, EmptyString => EmptyString
  | S n', String c s' => String c (take n' s')
  end.

(** [s.split(sep)] for a one-character separator: never empty. *)
Fixpoint split (sep : ascii) (s : string) : list string :=
  match s with
  | EmptyString => [EmptyString]
  | String c s' =>
      if Ascii.eqb c sep then EmptyString :: split sep s'
      else match split sep s' with
           | [] => [String c EmptyString]
           | w :: ws => String c w :: ws
           end
  end.

(** The first whitespace-delimited token, [s.split()[0]]; the empty
    string when [s] holds no token. *)
Fixpoint take_nonspace (s : string) : string :=
  match s with
  | EmptyString => EmptyString
  | String c s' => if isspace c then EmptyString else String c (take_nonspace s')
  end.

Definition first_token (s : string) : string := take_nonspace (lstrip s).

(** [str(n)] for an integer *)
Definition of_Z (z : Z) : string :=
  DecimalString.NilZero.string_of_int (Z.to_int z).

Definition digit (c : ascii) : option Z :=
  let n := N_of_ascii c in
  if ((48 <=? n) && (n <=? 57))%N then Some (Z.of_N n - 48) else None.

(** The digits of an integer literal: decimal digits, single
    underscores allowed between two digits. *)
Fixpoint int_digits (acc : Z) (after_digit : bool) (s : string) : option Z :=
  match s with
  | EmptyString => if after_digit then Some acc else None
  | String c s' =>
      match digit c with
      | Some d => int_digits (10 * acc + d) true s'
      | None =>
          if Ascii.eqb c "_" && after_digit then int_digits acc false s'
          else None
      end
  end.

(** [int(s)]: [None] stands for the ValueError Python raises. *)
Definition to_int (s : string) : option Z :=
  match strip s with
  | String "+" r => int_digits 0 false r
  | String "-" r => Z.opp <$> int_digits 0 false r
  | t => int_digits 0 false t
  end.

End PyStr.

(** ** Statement classification (mysql.py, execute_query and
       async_execute_query) *)

Definition read_keywords : list string :=
  ["select"; "show"; "describe"; "explain"].

(** [query.strip().lower().startswith(('select', 'show', 'describe',
    'explain'))] *)
Definition is_read_query (query : string) : bool :=
  let query_lower := PyStr.lower (PyStr.strip query) in
  PyStr.startswith_any query_lower read_keywords.

(** The classification as the specification words it: the first
    whitespace-delimited token, compared without regard to case, is one
    of the four keywords. *)
Definition token_is_read (query : string) : bool :=
  existsb (String.eqb (PyStr.lower (PyStr.first_token query))) read_keywords.


(** ** Python values, results and exceptions (base.py) *)

(** The scalar values a configuration, a parameter or a row cell holds. *)
Inductive PyVal : Type :=
| VNone
| VBool (b : bool)
| VInt (n : Z)
| VStr (s : string).

(** [bool(v)] *)
Definition truthy (v : PyVal) : bool :=
  match v with
  | VNone => false
  | VBool b => b
  | VInt n => negb (n =? 0)
  | VStr s => negb (String.eqb s "")
  end.

(** [str(v)], as an f-string formats it *)
Definition py_str (v : PyVal) : string :=
  match v with
  | VNone => "None"
  | VBool true => "True"
  | VBool false => "False"
  | VInt n => PyStr.of_Z n
  | VStr s => s
  end.

(** [type(v).__name__] *)
Definition type_name (v : PyVal) : string :=
  match v with
  | VNone => "NoneType"
  | VBool _ => "bool"
  | VInt _ => "int"
  | VStr _ => "str"
  end.

(** The AttributeError of a method call on a value that has no such
    method. *)
Definition no_attribute (v : PyVal) (method : string) : string :=
  "'" +:+ type_name v +:+ "' object has no attribute '" +:+ method +:+ "'".

(** [v == 1]: [True] is equal to [1]. *)
Definition eq_one (v : PyVal) : bool :=
  match v with
  | VInt n => n =? 1
  | VBool b => b
  | _ => false
  end.

(** [v == s] for a string [s] *)
Definition eq_str (v : PyVal) (s : string) : bool :=
  match v with
  | VStr t => String.eqb t s
  | _ => false
  end.

(** [dict(pairs)]: a later pair overrides an earlier one. *)
Definition dict_of_pairs (pairs : list (string * PyVal)) : gmap string PyVal :=
  foldl (fun d kv => <[kv.1 := kv.2]> d) ∅ pairs.

(** [d.get(k)] and [d.get(k, default)] *)
Definition dict_get (d : gmap string PyVal) (k : string) : PyVal :=
  default VNone (d !! k).

Definition dict_get_default (d : gmap string PyVal) (k : string) (dflt : PyVal) : PyVal :=
  default dflt (d !! k).

Inductive DatabaseType : Type := MYSQL | POSTGRESQL | SQLITE | UNKNOWN.

(** Durations are counted in milliseconds of the clock. *)
Record QueryResult : Type := mkQueryResult {
  success : bool;
  data : list (gmap string PyVal);
  columns : list string;
  row_count : Z;
  execution_time : Z;
  error_message : option string;
  sql_query : option string
}.

(** An index descriptor, the only dictionary of the schema that holds a
    list. *)
Record IndexInfo : Type := mkIndexInfo {
  ix_name : PyVal;
  ix_unique : bool;
  ix_type : PyVal;
  ix_columns : list PyVal
}.

Record TableSchema : Type := mkTableSchema {
  ts_name : string;
  ts_columns : list (gmap string PyVal);
  ts_primary_keys : list PyVal;
  ts_foreign_keys : list (gmap string PyVal);
  ts_indexes : list IndexInfo;
  ts_row_count : PyVal;
  ts_create_statement : PyVal
}.

(** The exception classes.  [DatabaseTimeoutError] derives from
    [DatabaseQueryError]; the other three classes of base.py derive from
    [Exception] directly.  [PyMySQLOperationalError] derives from
    [PyMySQLError]; [PyException] is any other [Exception], named by its
    class. *)
Inductive Exn : Type :=
| DatabaseConnectionError (msg : string)
| DatabaseQueryError (msg : string)
| DatabaseConfigError (msg : string)
| DatabaseTimeoutError (msg : string)
| PyMySQLError (msg : string)
| PyMySQLOperationalError (msg : string)
| AsyncioTimeoutError (msg : string)
| PyException (cls msg : string).

(** [str(e)] *)
Definition exn_str (e : Exn) : string :=
  match e with
  | DatabaseConnectionError m | DatabaseQueryError m | DatabaseConfigError m
  | DatabaseTimeoutError m | PyMySQLError m | PyMySQLOperationalError m
  | AsyncioTimeoutError m | PyException _ m => m
  end.

(** [isinstance(e, pymysql.Error)] *)
Definition is_pymysql_error (e : Exn) : bool :=
  match e with
  | PyMySQLError _ | PyMySQLOperationalError _ => true
  | _ => false
  end.

(** [isinstance(e, asyncio.TimeoutError)] *)
Definition is_asyncio_timeout (e : Exn) : bool :=
  match e with
  | AsyncioTimeoutError _ => true
  | _ => false
  end.

(** [isinstance(e, DatabaseConfigError)], [isinstance(e,
    DatabaseQueryError)] and [isinstance(e, DatabaseTimeoutError)] *)
Definition is_config_error (e : Exn) : bool :=
  match e with
  | DatabaseConfigError _ => true
  | _ => false
  end.

Definition is_query_error (e : Exn) : bool :=
  match e with
  | DatabaseQueryError _ | DatabaseTimeoutError _ => true
  | _ => false
  end.

Definition is_timeout_error (e : Exn) : bool :=
  match e with
  | DatabaseTimeoutError _ => true
  | _ => false
  end.

(** [isinstance(e, (ValueError, IndexError))] *)
Definition is_value_or_index_error (e : Exn) : bool :=
  match e with
  | PyException cls _ => String.eqb cls "ValueError" || String.eqb cls "IndexError"
  | _ => false
  end.

(** ** Stateful computations that may raise *)

Definition M (S A : Type) : Type := S -> (Exn + A) * S.

Definition ret {S A : Type} (a : A) : M S A := fun s => (inr a, s).

Definition raise {S A : Type} (e : Exn) : M S A := fun s => (inl e, s).

Definition bind {S A B : Type} (m : M S A) (k : A -> M S B) : M S B :=
  fun s =>
    match m s with
    | (inl e, s') => (inl e, s')
    | (inr a, s') => k a s'
    end.

Declare Scope py_scope.
Delimit Scope py_scope with py.
Notation "x <- m ;; k" := (bind m (fun x => k))
  (at level 100, m at next level, right associativity) : py_scope.
Notation "m ;; k" := (bind m (fun _ => k))
  (at level 100, right associativity) : py_scope.
Local Open Scope py_scope.

(** [try: body except Exception as e: handler e] *)
Definition try_except {S A : Type} (body : M S A) (handler : Exn -> M S A) : M S A :=
  fun s =>
    match body s with
    | (inl e, s') => handler e s'
    | (inr a, s') => (inr a, s')
    end.

(** [try: body finally: fin]: an exception of [fin] replaces the outcome
    of [body]. *)
Definition try_finally {S A : Type} (body : M S A) (fin : M S unit) : M S A :=
  fun s =>
    let '(r, s') := body s in
    match fin s' with
    | (inl e, s'') => (inl e, s'')
    | (inr _, s'') => (r, s'')
    end.

Definition gets {S A : Type} (f : S -> A) : M S A := fun s => (inr (f s), s).

Definition modify {S : Type} (f : S -> S) : M S unit := fun s => (inr tt, f s).

(** [if c: body] *)
Definition when {S : Type} (c : bool) (body : M S unit) : M S unit :=
  if c then body else ret tt.

(** [for x in l: body x] *)
Fixpoint for_each {S A : Type} (l : list A) (body : A -> M S unit) : M S unit :=
  match l with
  | [] => ret tt
  | x :: l' => body x ;; for_each l' body
  end.

(** Run a computation on a component of the state. *)
Definition zoom {S T A : Type} (get : S -> T) (put : T -> S -> S)
    (m : M T A) : M S A :=
  fun s => let '(r, t') := m (get s) in (r, put t' s).

(** ** The engine driver and the process environment *)

(** Handles of the driver: a blocking session (also the session a pool
    lends out) and a session pool. *)
Definition Session : Type := nat.
Definition Pool : Type := nat.

(** Query parameters: a mapping for named placeholders or a sequence
    for positional ones. *)
Inductive Params : Type :=
| PNamed (d : gmap string PyVal)
| PPositional (l : list PyVal).

(** [bool(params)] for [params : Optional[...]] *)
Definition params_truthy (params : option Params) : bool :=
  match params with
  | None => false
  | Some (PNamed d) => negb (bool_decide (d = ∅))
  | Some (PPositional l) => match l with [] => false | _ => true end
  end.

(** A row as the blocking path accepts it: a mapping (dictionary
    cursors) or a tuple. *)
Inductive Row : Type :=
| RowDict (d : gmap string PyVal)
| RowTuple (t : list PyVal).

(** What a cursor holds once a statement has run: the buffered rows, the
    column names of [description] ([None] when the statement yields no
    result set) and [rowcount]. *)
Record CursorState (R : Type) : Type := mkCursorState {
  cs_rows : list R;
  cs_description : option (list string);
  cs_rowcount : Z
}.
Arguments mkCursorState {R} _ _ _.
Arguments cs_rows {R} _.
Arguments cs_description {R} _.
Arguments cs_rowcount {R} _.

(** The outcome of a coroutine awaited under [asyncio.wait_for]. *)
Inductive Awaited (A : Type) : Type :=
| Completed (a : A)
| Failed (e : Exn)
| TimedOut.
Arguments Completed {A} a.
Arguments Failed {A} e.
Arguments TimedOut {A}.

(** The calls made on the driver and on the file system, in the order
    they are issued. *)
Inductive Call : Type :=
| CConnect (conn_params : gmap string PyVal)
| CPing (s : Session) (reconnect : bool)
| CCursor (s : Session)
| CExecute (s : Session) (query : string) (params : option Params)
| CCursorClose (s : Session)
| CCommit (s : Session)
| CClose (s : Session)
| CCreatePool (pool_params : gmap string PyVal)
| CAcquire (p : Pool)
| CAsyncCursor (c : Session)
| CAsyncExecute (c : Session) (query : string) (params : Params) (timeout : Z)
| CAsyncCursorClose (c : Session)
| CRelease (p : Pool) (c : Session)
| CPoolClose (p : Pool)
| CPoolWaitClosed (p : Pool)
| CConfigFile (path : string).

(** The statement a call sends to the server, when it sends one. *)
Definition call_statement (c : Call) : option string :=
  match c with
  | CExecute _ q _ => Some q
  | CAsyncExecute _ q _ _ => Some q
  | _ => None
  end.

Inductive Level : Type := DEBUG | INFO | WARNING | ERROR.

Record LogRecord : Type := mkLog { level : Level; message : string }.

Definition is_info (r : LogRecord) : bool :=
  match level r with
  | INFO => true
  | _ => false
  end.

Section Environment.

Context {World : Type}.

(** The PyMySQL and aiomysql drivers, the clock and the configuration
    directory are not part of the repository; they are taken as
    functions of an arbitrary state [World] of the outside.  A driver
    call either raises or answers.  [cursor_fetchmany] and
    [cursor_fetchone] select from the rows a cursor has buffered; a
    cursor of the pool is a dictionary cursor, so its rows are
    mappings.  [connection_autocommit] is the truth value of the
    attribute [autocommit] of a session.  Leaving an [async with] block
    (closing the cursor, giving the session back to the pool) is taken
    not to raise. *)
Record Driver : Type := mkDriver {
  time_time : World -> Z * World;
  pymysql_connect : gmap string PyVal -> World -> (Exn + Session) * World;
  connection_ping : Session -> bool -> World -> option Exn * World;
  connection_cursor : Session -> World -> option Exn * World;
  cursor_execute : Session -> string -> option Params -> World ->
                   (Exn + CursorState Row) * World;
  cursor_fetchmany : forall R : Type, Z -> list R -> list R;
  cursor_fetchone : forall R : Type, list R -> option R;
  cursor_close : Session -> World -> option Exn * World;
  connection_autocommit : Session -> World -> bool;
  connection_commit : Session -> World -> option Exn * World;
  connection_close : Session -> World -> option Exn * World;
  aiomysql_create_pool : gmap string PyVal -> World -> (Exn + Pool) * World;
  pool_acquire : Pool -> World -> (Exn + Session) * World;
  aconn_cursor : Session -> World -> option Exn * World;
  acursor_execute : Session -> string -> Params -> Z -> World ->
                    Awaited (CursorState (gmap string PyVal)) * World;
  acursor_close : Session -> World -> World;
  pool_release : Pool -> Session -> World -> World;
  pool_close : Pool -> World -> option Exn * World;
  pool_wait_closed : Pool -> World -> option Exn * World;
  config_dir : string;
  config_file : string -> World -> option (Exn + gmap string PyVal) * World
}.

(** The outside of the program: the state of the world, the process
    environment variables, the calls issued so far and the log. *)
Record IO : Type := mkIO {
  world : World;
  environ : gmap string string;
  calls : list Call;
  logs : list LogRecord
}.

Definition set_world (w : World) (io : IO) : IO :=
  mkIO w (environ io) (calls io) (logs io).

Definition add_call (c : Call) (io : IO) : IO :=
  mkIO (world io) (environ io) (calls io ++ [c]) (logs io).

Definition add_log (r : LogRecord) (io : IO) : IO :=
  mkIO (world io) (environ io) (calls io) (logs io ++ [r]).

(** [logger.<level>(message)] *)
Definition log (lv : Level) (msg : string) : M IO unit :=
  modify (add_log (mkLog lv msg)).

(** A call that cannot fail and is not recorded: the clock, an
    attribute of a handle. *)
Definition observe {A : Type} (f : World -> A * World) : M IO A :=
  fun io => let '(a, w) := f (world io) in (inr a, set_world w io).

(** A recorded call that answers or raises. *)
Definition call {A : Type} (c : Call) (f : World -> (Exn + A) * World) : M IO A :=
  fun io => let '(r, w) := f (world io) in (r, set_world w (add_call c io)).

(** A recorded call with no answer. *)
Definition call_ (c : Call) (f : World -> option Exn * World) : M IO unit :=
  call c (fun w => let '(r, w') := f w in
                   (match r with Some e => inl e | None => inr tt end, w')).

(** A recorded call that cannot fail. *)
Definition call_total (c : Call) (f : World -> World) : M IO unit :=
  call c (fun w => (inr tt, f w)).

(** [await asyncio.wait_for(coroutine, timeout)] *)
Definition wait_for {A : Type} (c : Call) (f : World -> Awaited A * World) : M IO A :=
  call c (fun w => let '(r, w') := f w in
                   (match r with
                    | Completed a => inr a
                    | Failed e => inl e
                    | TimedOut => inl (AsyncioTimeoutError "")
                    end, w')).

(** [os.getenv(name, '')] *)
Definition getenv (name : string) : M IO string :=
  gets (fun io => default "" (environ io !! name)).

End Environment.

Arguments Driver World : clear implicits.
Arguments IO World : clear implicits.

(** ** The MySQL connection (mysql.py) *)

(** The attributes of a [MySQLConnection].  [_pool] and
    [_async_connection] are set to [None] by the constructor and never
    touched again; they are left out. *)
Record MySQLConnection : Type := mkConn {
  connection_name : string;
  config : gmap string PyVal;
  _connection : option Session;
  _is_connected : bool;
  _cursor : option Session;
  _mysql_version : PyVal;
  _async_pool : option Pool
}.

(** [MySQLConnection(connection_name)] *)
Definition new_connection (name : string) : MySQLConnection :=
  mkConn name ∅ None false None VNone None.

Definition with_config (v : gmap string PyVal) (o : MySQLConnection) :=
  mkConn (connection_name o) v (_connection o) (_is_connected o) (_cursor o)
         (_mysql_version o) (_async_pool o).
Definition with_connection (v : option Session) (o : MySQLConnection) :=
  mkConn (connection_name o) (config o) v (_is_connected o) (_cursor o)
         (_mysql_version o) (_async_pool o).
Definition with_is_connected (v : bool) (o : MySQLConnection) :=
  mkConn (connection_name o) (config o) (_connection o) v (_cursor o)
         (_mysql_version o) (_async_pool o).
Definition with_cursor (v : option Session) (o : MySQLConnection) :=
  mkConn (connection_name o) (config o) (_connection o) (_is_connected o) v
         (_mysql_version o) (_async_pool o).
Definition with_mysql_version (v : PyVal) (o : MySQLConnection) :=
  mkConn (connection_name o) (config o) (_connection o) (_is_connected o)
         (_cursor o) v (_async_pool o).
Definition with_async_pool (v : option Pool) (o : MySQLConnection) :=
  mkConn (connection_name o) (config o) (_connection o) (_is_connected o)
         (_cursor o) (_mysql_version o) v.

(** The property [db_type] *)
Definition db_type (o : MySQLConnection) : DatabaseType := MYSQL.

(** The property [mysql_version] *)
Definition mysql_version (o : MySQLConnection) : PyVal := _mysql_version o.

Definition required_keys : list string := ["host"; "user"; "database"].

(** MySQL 5.7.4+ or MySQL 8.0+ supports max_execution_time. *)
Definition supports_max_execution_time (major minor patch : Z) : bool :=
  (major >? 5) || ((major =? 5) && (minor >? 7))
  || ((major =? 5) && (minor =? 7) && (patch >=? 4)).

Definition timeout_directive (timeout : Z) : string :=
  "SET SESSION max_execution_time = " +:+ PyStr.of_Z (timeout * 1000).

(** The [except] clauses of [execute_query]. *)
Definition translate_query_error (timeout : Z) (e : Exn) : Exn :=
  match e with
  | PyMySQLOperationalError msg =>
      if PyStr.contains "max_execution_time" (PyStr.lower msg)
      then DatabaseTimeoutError
             ("Query exceeded " +:+ PyStr.of_Z timeout +:+ " second timeout")
      else DatabaseQueryError ("MySQL operational error: " +:+ msg)
  | PyMySQLError msg => DatabaseQueryError ("MySQL error: " +:+ msg)
  | _ => DatabaseQueryError ("Unexpected error: " +:+ exn_str e)
  end.

(** One row of the blocking path as a mapping: a mapping is kept, a
    tuple is zipped with the column names, and dropped when the cursor
    has no description. *)
Definition row_to_dict (description : option (list string)) (row : Row)
    : option (gmap string PyVal) :=
  match row with
  | RowDict d => Some d
  | RowTuple t =>
      match description with
      | Some (c :: cols) => Some (dict_of_pairs (zip (c :: cols) t))
      | _ => None
      end
  end.

(** [[desc[0] for desc in cursor.description] if cursor.description else []] *)
Definition column_names (description : option (list string)) : list string :=
  default [] description.

Definition truncation_warning (max_rows : Z) : string :=
  "Results may be truncated (returned " +:+ PyStr.of_Z max_rows
  +:+ " rows, max_rows limit)".

(** [f"{ms / 1000:.3f}"] for a duration in milliseconds *)
Definition fmt_seconds (ms : Z) : string :=
  let frac := Z.abs ms mod 1000 in
  (if ms <? 0 then "-" else "") +:+ PyStr.of_Z (Z.abs ms / 1000) +:+ "."
  +:+ (if frac <? 10 then "00" else if frac <? 100 then "0" else "")
  +:+ PyStr.of_Z frac.

Definition newline : string := String (ascii_of_nat 10) "".

Section Connection.

Context {World : Type} (drv : Driver World).

(** The state a method of a connection works on: the outside and the
    attributes of [self]. *)
Record MState : Type := mkMState { io : IO World; self : MySQLConnection }.

Definition Meth (A : Type) : Type := M MState A.

(** An effect on the outside, an attribute read, an attribute write. *)
Definition io_ {A : Type} (m : M (IO World) A) : Meth A :=
  zoom io (fun i s => mkMState i (self s)) m.

Definition attr {A : Type} (f : MySQLConnection -> A) : Meth A :=
  gets (fun s => f (self s)).

Definition assign (f : MySQLConnection -> MySQLConnection) : Meth unit :=
  modify (fun s => mkMState (io s) (f (self s))).

Definition clock : Meth Z := io_ (observe (time_time drv)).

(** [d[k]] *)
Definition getitem (d : gmap string PyVal) (k : string) : Meth PyVal :=
  match d !! k with
  | Some v => ret v
  | None => raise (PyException "KeyError" ("'" +:+ k +:+ "'"))
  end.

(** [int(s)] *)
Definition py_int (s : string) : Meth Z :=
  match PyStr.to_int s with
  | Some n => ret n
  | None => raise (PyException "ValueError"
                     ("invalid literal for int() with base 10: '" +:+ s +:+ "'"))
  end.

(** *** Connection management *)

Definition _get_password (config : gmap string PyVal) : Meth PyVal :=
  let password := dict_get_default config "password" (VStr "") in
  match password with
  | VStr s =>
      if PyStr.startswith s "env:" then
        let env_var := PyStr.drop 4 s in
        password <- io_ (getenv env_var) ;;
        if String.eqb password ""
        then raise (DatabaseConfigError
                      ("Environment variable " +:+ env_var +:+ " not set"))
        else ret (VStr password)
      else ret password
  | _ => ret password
  end.

(** The dictionary [conn_params]; the cursor class is named by a
    string and the nested [{'ssl': True}] is rendered as [True]. *)
Definition conn_params (config : gmap string PyVal) (host user password database : PyVal)
    : gmap string PyVal :=
  let base : gmap string PyVal :=
    <["autocommit" := dict_get_default config "autocommit" (VBool true)]>
    (<["cursorclass" := VStr "DictCursor"]>
    (<["charset" := dict_get_default config "charset" (VStr "utf8mb4")]>
    (<["port" := dict_get_default config "port" (VInt 3306)]>
    (<["database" := database]>
    (<["password" := password]>
    (<["user" := user]>
    (<["host" := host]> ∅))))))) in
  let with_ssl :=
    if truthy (dict_get_default config "ssl" (VBool false))
    then <["ssl" := VBool true]> base else base in
  match config !! "connect_timeout" with
  | Some t => <["connect_timeout" := t]> with_ssl
  | None => with_ssl
  end.

(** [result.get('version') if result else "Unknown"] *)
Definition version_of_row (result : option Row) : Meth PyVal :=
  match result with
  | None => ret (VStr "Unknown")
  | Some (RowDict d) =>
      if bool_decide (d = ∅) then ret (VStr "Unknown")
      else ret (dict_get d "version")
  | Some (RowTuple []) => ret (VStr "Unknown")
  | Some (RowTuple (_ :: _)) =>
      raise (PyException "AttributeError" "'tuple' object has no attribute 'get'")
  end.

Definition connect (config : gmap string PyVal) : Meth bool :=
  try_except
    (for_each required_keys (fun key =>
       match config !! key with
       | None => raise (DatabaseConfigError ("Missing required config key: " +:+ key))
       | Some _ => ret tt
       end) ;;
     password <- _get_password config ;;
     host <- getitem config "host" ;;
     user <- getitem config "user" ;;
     database <- getitem config "database" ;;
     let params := conn_params config host user password database in
     assign (with_config config) ;;
     io_ (log INFO ("Connecting to MySQL: " +:+ py_str host +:+ ":"
                    +:+ py_str (dict_get params "port") +:+ "/" +:+ py_str database)) ;;
     c <- io_ (call (CConnect params) (pymysql_connect drv params)) ;;
     assign (with_connection (Some c)) ;;
     io_ (call_ (CPing c true) (connection_ping drv c true)) ;;
     io_ (call_ (CCursor c) (connection_cursor drv c)) ;;
     result <- try_finally
                 (cs <- io_ (call (CExecute c "SELECT VERSION() as version" None)
                               (cursor_execute drv c "SELECT VERSION() as version" None)) ;;
                  ret (cursor_fetchone drv Row (cs_rows cs)))
                 (io_ (call_ (CCursorClose c) (cursor_close drv c))) ;;
     version <- version_of_row result ;;
     assign (with_mysql_version version) ;;
     assign (with_is_connected true) ;;
     io_ (log INFO ("Successfully connected to MySQL (version: "
                    +:+ py_str version +:+ ")")) ;;
     ret true)
    (fun e =>
       let error_msg :=
         (if is_pymysql_error e then "MySQL connection failed: "
          else "Unexpected connection error: ") +:+ exn_str e in
       io_ (log ERROR error_msg) ;;
       assign (with_is_connected false) ;;
       raise (DatabaseConnectionError error_msg)).

Definition disconnect : Meth unit :=
  try_finally
    (try_except
       (cur <- attr _cursor ;;
        match cur with
        | Some c => io_ (call_ (CCursorClose c) (cursor_close drv c)) ;;
                    assign (with_cursor None)
        | None => ret tt
        end ;;
        conn <- attr _connection ;;
        match conn with
        | Some c => io_ (call_ (CClose c) (connection_close drv c)) ;;
                    assign (with_connection None)
        | None => ret tt
        end ;;
        assign (with_is_connected false) ;;
        name <- attr connection_name ;;
        io_ (log INFO ("Disconnected from MySQL: " +:+ name)))
       (fun e => io_ (log WARNING ("Error during disconnect: " +:+ exn_str e))))
    (assign (with_is_connected false)).

Definition pool_params (config : gmap string PyVal) (host user password database : PyVal)
    : gmap string PyVal :=
  <["maxsize" := VInt 10]>
  (<["minsize" := VInt 1]>
  (<["autocommit" := dict_get_default config "autocommit" (VBool true)]>
  (<["charset" := dict_get_default config "charset" (VStr "utf8mb4")]>
  (<["db" := database]>
  (<["password" := password]>
  (<["user" := user]>
  (<["port" := dict_get_default config "port" (VInt 3306)]>
  (<["host" := host]> ∅)))))))).

Definition async_connect (config : gmap string PyVal) : Meth bool :=
  try_except
    (for_each required_keys (fun key =>
       match config !! key with
       | None => raise (DatabaseConfigError ("Missing required config key: " +:+ key))
       | Some _ => ret tt
       end) ;;
     password <- _get_password config ;;
     host <- getitem config "host" ;;
     user <- getitem config "user" ;;
     database <- getitem config "database" ;;
     let params := pool_params config host user password database in
     p <- io_ (call (CCreatePool params) (aiomysql_create_pool drv params)) ;;
     assign (with_async_pool (Some p)) ;;
     assign (with_config config) ;;
     assign (with_is_connected true) ;;
     io_ (log INFO ("Async connected to MySQL: " +:+ py_str host +:+ ":"
                    +:+ py_str (dict_get_default config "port" (VInt 3306))
                    +:+ "/" +:+ py_str database)) ;;
     ret true)
    (fun e =>
       let error_msg := "Async MySQL connection failed: " +:+ exn_str e in
       io_ (log ERROR error_msg) ;;
       assign (with_is_connected false) ;;
       raise (DatabaseConnectionError error_msg)).

Definition async_disconnect : Meth unit :=
  try_finally
    (try_except
       (pool <- attr _async_pool ;;
        match pool with
        | Some p => io_ (call_ (CPoolClose p) (pool_close drv p)) ;;
                    io_ (call_ (CPoolWaitClosed p) (pool_wait_closed drv p)) ;;
                    assign (with_async_pool None)
        | None => ret tt
        end ;;
        assign (with_is_connected false) ;;
        name <- attr connection_name ;;
        io_ (log INFO ("Async disconnected from MySQL: " +:+ name)))
       (fun e => io_ (log WARNING ("Error during async disconnect: " +:+ exn_str e))))
    (assign (with_is_connected false)).

(** The property [is_connected]: the blocking session answers a ping. *)
Definition is_connected : Meth bool :=
  conn <- attr _connection ;;
  match conn with
  | None => ret false
  | Some c =>
      try_except
        (io_ (call_ (CPing c false) (connection_ping drv c false)) ;; ret true)
        (fun _ => assign (with_is_connected false) ;; ret false)
  end.

End Connection.

Section Queries.

Context {World : Type} (drv : Driver World).

Local Abbreviation Meth := (@Meth World).

(** [try: body except (ValueError, IndexError): handler] *)
Definition try_except_value_error {A : Type} (body : Meth A) (handler : Meth A) : Meth A :=
  try_except body
    (fun e => if is_value_or_index_error e then handler else raise e).

(** The session timeout of [execute_query], requested when the server
    version is known and recent enough. *)
Definition set_session_timeout (c : Session) (timeout : Z) : Meth unit :=
  v <- attr _mysql_version ;;
  if truthy v && negb (eq_str v "Unknown") then
    match v with
    | VStr version =>
        try_except_value_error
          (let version_parts := PyStr.split "." (hd "" (PyStr.split "-" version)) in
           if (3 <=? length version_parts)%nat then
             major <- py_int (nth 0 version_parts "") ;;
             minor <- py_int (nth 1 version_parts "") ;;
             patch <- py_int (nth 2 version_parts "") ;;
             if supports_max_execution_time major minor patch then
               io_ (call (CExecute c (timeout_directive timeout) None)
                      (cursor_execute drv c (timeout_directive timeout) None)) ;;
               ret tt
             else ret tt
           else ret tt)
          (io_ (log WARNING ("Could not parse MySQL version: " +:+ version)))
    | _ => raise (PyException "AttributeError" (no_attribute v "split"))
    end
  else ret tt.

(** The result of a read in the blocking path. *)
Definition read_result (query : string) (max_rows execution_time : Z)
    (cs : CursorState Row) : Meth QueryResult :=
  let rows := cursor_fetchmany drv Row max_rows (cs_rows cs) in
  when (Z.of_nat (length rows) =? max_rows)
       (io_ (log INFO (truncation_warning max_rows))) ;;
  let data := omap (row_to_dict (cs_description cs)) rows in
  let columns := column_names (cs_description cs) in
  let row_count := Z.of_nat (length data) in
  ret (mkQueryResult true data columns row_count execution_time None (Some query)).

(** The result of a write, in both paths. *)
Definition write_result {R : Type} (query : string) (execution_time : Z)
    (cs : CursorState R) : QueryResult :=
  let affected_rows := cs_rowcount cs in
  mkQueryResult true [ {[ "affected_rows" := VInt affected_rows ]} ]
                ["affected_rows"] 1 execution_time None (Some query).

(** The arguments of [cursor.execute]: the parameters are passed only
    when they are truthy. *)
Definition sync_args (params : option Params) : option Params :=
  if params_truthy params then params else None.

(** The [except] clauses of [execute_query] as a handler. *)
Definition query_handlers {A : Type} (timeout : Z) (e : Exn) : Meth A :=
  raise (translate_query_error timeout e).

Definition execute_query (query : string) (params : option Params)
    (max_rows timeout : Z) : Meth QueryResult :=
  start_time <- clock drv ;;
  let query_lower := PyStr.lower (PyStr.strip query) in
  conn <- attr _connection ;;
  match conn with
  | None => raise (DatabaseConnectionError "Not connected to database")
  | Some c =>
      (* [cursor] is still [None] if creating it raises: the [finally]
         clause then closes nothing. *)
      try_except (io_ (call_ (CCursor c) (connection_cursor drv c)))
                 (query_handlers timeout) ;;
      try_finally
        (try_except
           (set_session_timeout c timeout ;;
            execute_start <- clock drv ;;
            let args := sync_args params in
            cs <- io_ (call (CExecute c query args) (cursor_execute drv c query args)) ;;
            now <- clock drv ;;
            let execution_time := now - execute_start in
            result <- (if PyStr.startswith_any query_lower read_keywords
                       then read_result query max_rows execution_time cs
                       else ret (write_result query execution_time cs)) ;;
            autocommit <- io_ (gets (fun i => connection_autocommit drv c (world i))) ;;
            when (negb autocommit)
                 (io_ (call_ (CCommit c) (connection_commit drv c))) ;;
            now <- clock drv ;;
            let total_time := now - start_time in
            io_ (log DEBUG ("Query executed in " +:+ fmt_seconds total_time +:+ "s: "
                            +:+ PyStr.take 100 query +:+ "...")) ;;
            ret result)
           (query_handlers timeout))
        (io_ (call_ (CCursorClose c) (cursor_close drv c)))
  end.

(** [params or ()] *)
Definition async_args (params : option Params) : Params :=
  if params_truthy params then default (PPositional []) params
  else PPositional [].

(** The result of a read in the non-blocking path. *)
Definition async_read_result (query : string) (max_rows start_time : Z)
    (cs : CursorState (gmap string PyVal)) : Meth QueryResult :=
  let rows := cursor_fetchmany drv (gmap string PyVal) max_rows (cs_rows cs) in
  let data := rows in
  let columns := column_names (cs_description cs) in
  let row_count := Z.of_nat (length data) in
  when (Z.of_nat (length data) =? max_rows)
       (io_ (log INFO (truncation_warning max_rows))) ;;
  now <- clock drv ;;
  let execution_time := now - start_time in
  ret (mkQueryResult true data columns row_count execution_time None (Some query)).

Definition async_execute_query (query : string) (params : option Params)
    (max_rows timeout : Z) : Meth QueryResult :=
  start_time <- clock drv ;;
  let query_lower := PyStr.lower (PyStr.strip query) in
  pool <- attr _async_pool ;;
  match pool with
  | None => raise (DatabaseConnectionError
                     "Not connected to database (async pool not initialized)")
  | Some p =>
      conn <- io_ (call (CAcquire p) (pool_acquire drv p)) ;;
      try_finally
        (io_ (call_ (CAsyncCursor conn) (aconn_cursor drv conn)) ;;
         try_finally
           (try_except
              (let args := async_args params in
               cs <- io_ (wait_for (CAsyncExecute conn query args timeout)
                            (acursor_execute drv conn query args timeout)) ;;
               if PyStr.startswith_any query_lower read_keywords
               then async_read_result query max_rows start_time cs
               else
                 now <- clock drv ;;
                 let execution_time := now - start_time in
                 ret (write_result query execution_time cs))
              (fun e =>
                 if is_asyncio_timeout e then
                   now <- clock drv ;;
                   let error_msg := "Query timeout after " +:+ PyStr.of_Z timeout
                                    +:+ " seconds" in
                   io_ (log ERROR ("Query timed out: " +:+ PyStr.take 100 query)) ;;
                   raise (DatabaseTimeoutError error_msg)
                 else
                   now <- clock drv ;;
                   let execution_time := now - start_time in
                   let error_msg := "Query execution failed: " +:+ exn_str e in
                   io_ (log ERROR ("Async query error: " +:+ error_msg +:+ newline
                                   +:+ "Query: " +:+ PyStr.take 200 query)) ;;
                   ret (mkQueryResult false [] [] 0 execution_time
                                      (Some error_msg) (Some query))))
           (io_ (call_total (CAsyncCursorClose conn) (acursor_close drv conn))))
        (io_ (call_total (CRelease p conn) (pool_release drv p conn)))
  end.

(** *** Liveness test *)

(** [result.success and result.data and result.data[0].get('test') == 1] *)
Definition test_row_ok (result : QueryResult) : bool :=
  success result &&
  match data result with
  | [] => false
  | row :: _ => eq_one (dict_get row "test")
  end.

Definition test_connection : Meth (bool * string) :=
  try_except
    (alive <- is_connected drv ;;
     if negb alive then ret (false, "Not connected to database")
     else
       result <- execute_query "SELECT 1 as test" None 1 30 ;;
       if test_row_ok result then
         version <- attr _mysql_version ;;
         ret (true, "Connection successful (MySQL " +:+ py_str version +:+ ")")
       else ret (false, "Connection test query failed"))
    (fun e => ret (false, "Connection test failed: " +:+ exn_str e)).

Definition async_test_connection : Meth (bool * string) :=
  try_except
    (alive <- is_connected drv ;;
     if negb alive then ret (false, "Not connected to database")
     else
       result <- async_execute_query "SELECT 1 as test" None 1 30 ;;
       if test_row_ok result then
         version <- attr _mysql_version ;;
         ret (true, "Async connection successful (MySQL " +:+ py_str version +:+ ")")
       else ret (false, "Async connection test query failed"))
    (fun e => ret (false, "Async connection test failed: " +:+ exn_str e)).

End Queries.

(** ** Configurations the specification calls invalid *)

(** A required key is missing, or the password is the indirection
    [env:VAR] and [VAR] is not set in the environment. *)
Definition invalid_config (env : gmap string string) (config : gmap string PyVal) : Prop :=
  (exists key, In key required_keys /\ config !! key = None)
  \/ (exists var, config !! "password" = Some (VStr ("env:" +:+ var))
                  /\ env !! var = None).

(** ** A small server for worked examples *)

(** A server that accepts every connection, reports version 8.0.33,
    answers [SELECT 1 as test] with its single row and any other
    statement with three rows and a row count of three; its clock
    advances by one millisecond per reading.  [fetchmany] returns the
    first [size] buffered rows. *)
Definition demo_rows : list (gmap string PyVal) :=
  [ {[ "id" := VInt 1 ]}; {[ "id" := VInt 2 ]}; {[ "id" := VInt 3 ]} ].

Definition demo_answer {R : Type} (wrap : gmap string PyVal -> R) (query : string)
    : CursorState R :=
  if String.eqb query "SELECT 1 as test"
  then mkCursorState [wrap {[ "test" := VInt 1 ]}] (Some ["test"]) 1
  else if String.eqb query "SELECT VERSION() as version"
  then mkCursorState [wrap {[ "version" := VStr "8.0.33" ]}] (Some ["version"]) 1
  else mkCursorState (map wrap demo_rows) (Some ["id"]) 3.

(** The servers of the examples differ in four answers: the cursor
    state a blocking statement yields, the outcome of a pooled
    statement, and what closing a session and closing a pool raise. *)
Definition make_driver
    (sync_answer : string -> CursorState Row)
    (async_answer : string -> Awaited (CursorState (gmap string PyVal)))
    (close_answer pool_close_answer : option Exn) : Driver Z :=
  {| time_time := fun w => (w, w + 1);
     pymysql_connect := fun _ w => (inr 1%nat, w);
     connection_ping := fun _ _ w => (None, w);
     connection_cursor := fun _ w => (None, w);
     cursor_execute := fun _ q _ w => (inr (sync_answer q), w);
     cursor_fetchmany := fun _ size rows => take (Z.to_nat size) rows;
     cursor_fetchone := fun _ rows => head rows;
     cursor_close := fun _ w => (None, w);
     connection_autocommit := fun _ _ => true;
     connection_commit := fun _ w => (None, w);
     connection_close := fun _ w => (close_answer, w);
     aiomysql_create_pool := fun _ w => (inr 2%nat, w);
     pool_acquire := fun _ w => (inr 3%nat, w);
     aconn_cursor := fun _ w => (None, w);
     acursor_execute := fun _ q _ _ w => (async_answer q, w);
     acursor_close := fun _ w => w;
     pool_release := fun _ _ w => w;
     pool_close := fun _ w => (pool_close_answer, w);
     pool_wait_closed := fun _ w => (None, w);
     config_dir := "config/connections";
     config_file := fun _ w => (None, w) |}.

Definition demo_driver : Driver Z :=
  make_driver (demo_answer RowDict) (fun q => Completed (demo_answer id q)) None None.

Definition demo_io : IO Z := mkIO 0 ∅ [] [].

Definition demo_config : gmap string PyVal :=
  <["database" := VStr "d"]>
  (<["password" := VStr "env:PW"]>
  (<["user" := VStr "u"]>
  (<["host" := VStr "localhost"]>
  (<["type" := VStr "mysql"]> ∅)))).

(** ** Teardown outcomes *)

Section Teardown.

Context {World : Type} (drv : Driver World).



End Teardown.


(** A server like [demo_driver] whose pooled cursors answer every
    statement with [answer]. *)
Definition driver_answering (answer : Awaited (CursorState (gmap string PyVal)))
    : Driver Z :=
  make_driver (demo_answer RowDict) (fun _ => answer) None None.

(** A server whose catalog is empty: every statement yields no row. *)
Definition empty_driver : Driver Z :=
  make_driver (fun _ => mkCursorState [] (Some ["TABLE_NAME"]) 0)
              (fun _ => Completed (mkCursorState [] (Some ["TABLE_NAME"]) 0))
              None None.

(** A connection object that holds an open blocking session and an
    open pool. *)
Definition literal_config : gmap string PyVal :=
  <["password" := VStr "pw"]> demo_config.

Definition open_connection : MySQLConnection :=
  mkConn "c" literal_config (Some 1%nat) true None (VStr "8.0.33") (Some 2%nat).

(** The outside at rest and the open connection, as the state of a
    method call. *)
Definition open_state : @MState Z := mkMState demo_io open_connection.

(** ** What a computation leaves in place *)

(** A computation preserves a relation between the state before and
    the state after, whatever its outcome. *)
Definition preserves {S A : Type} (R : S -> S -> Prop) (m : M S A) : Prop :=
  forall s r s', m s = (r, s') -> R s s'.

(** Between two states of a method call: the attributes of the
    connection and the environment variables are the same, the calls
    issued in between all satisfy [ok], and the log has only grown. *)
Definition grows {World : Type} (ok : Call -> Prop) (s s' : @MState World) : Prop :=
  self s' = self s
  /\ environ (io s') = environ (io s)
  /\ (exists cl, calls (io s') = calls (io s) ++ cl /\ Forall ok cl)
  /\ (exists ll, logs (io s') = logs (io s) ++ ll).

(** The calls [execute_query] may issue for a statement: calls that
    carry no statement, the statement itself and the session timeout
    directive. *)
Definition statement_call (query : string) (timeout : Z) (c : Call) : Prop :=
  call_statement c = None
  \/ call_statement c = Some query
  \/ call_statement c = Some (timeout_directive timeout).

(** The contract of [fetchmany] for a positive size: at most [size]
    rows are returned. *)
Definition fetchmany_capped {World : Type} (drv : Driver World) : Prop :=
  forall (R : Type) (size : Z) (rows : list R),
    0 < size -> Z.of_nat (length (cursor_fetchmany drv R size rows)) <= size.

(** The rows [demo_driver] answers any other statement with, cut at
    two, as the result of a read that ran for one millisecond. *)
Definition demo_read_two : QueryResult :=
  mkQueryResult true [ {[ "id" := VInt 1 ]}; {[ "id" := VInt 2 ]} ] ["id"] 2 1
                None (Some "SELECT id FROM t").


(** ** Schema introspection (mysql.py) *)

(** The lines of a multi-line string literal, joined by line feeds. *)
Fixpoint unlines (ls : list string) : string :=
  match ls with
  | [] => ""
  | [l] => l
  | l :: ls' => l +:+ newline +:+ unlines ls'
  end.

(** The catalog query of [get_table_schema] and [async_get_table_schema]. *)
Definition check_query : string :=
  unlines [
    "";
    "                SELECT TABLE_NAME ";
    "                FROM INFORMATION_SCHEMA.TABLES ";
    "                WHERE TABLE_SCHEMA = %(database)s ";
    "                AND TABLE_NAME = %(table)s";
    "            "
  ].

(** The three catalog queries of [_get_table_details]. *)
Definition columns_query : string :=
  unlines [
    "";
    "            SELECT ";
    "                COLUMN_NAME,";
    "                DATA_TYPE,";
    "                CHARACTER_MAXIMUM_LENGTH,";
    "                IS_NULLABLE,";
    "                COLUMN_DEFAULT,";
    "                COLUMN_TYPE,";
    "                COLUMN_KEY,";
    "                EXTRA";
    "            FROM INFORMATION_SCHEMA.COLUMNS ";
    "            WHERE TABLE_SCHEMA = %(database)s AND TABLE_NAME = %(table)s";
    "            ORDER BY ORDINAL_POSITION";
    "        "
  ].

(** Foreign keys. *)
Definition fk_query : string :=
  unlines [
    "";
    "            SELECT ";
    "                COLUMN_NAME,";
    "                REFERENCED_TABLE_NAME,";
    "                REFERENCED_COLUMN_NAME,";
    "                CONSTRAINT_NAME";
    "            FROM INFORMATION_SCHEMA.KEY_COLUMN_USAGE";
    "            WHERE TABLE_SCHEMA = %(database)s ";
    "            AND TABLE_NAME = %(table)s";
    "            AND REFERENCED_TABLE_NAME IS NOT NULL";
    "        "
  ].

(** Indexes other than the primary key. *)
Definition index_query : string :=
  unlines [
    "";
    "            SELECT ";
    "                INDEX_NAME,";
    "                COLUMN_NAME,";
    "                NON_UNIQUE,";
    "                INDEX_TYPE";
    "            FROM INFORMATION_SCHEMA.STATISTICS";
    "            WHERE TABLE_SCHEMA = %(database)s ";
    "            AND TABLE_NAME = %(table)s";
    "            AND INDEX_NAME != 'PRIMARY'";
    "            ORDER BY INDEX_NAME, SEQ_IN_INDEX";
    "        "
  ].

Definition count_query (table_name : string) : string :=
  "SELECT COUNT(*) as count FROM `" +:+ table_name +:+ "`".

Definition show_create_query (table_name : string) : string :=
  "SHOW CREATE TABLE `" +:+ table_name +:+ "`".

(** The statements that read the details of a table: columns, foreign
    keys, indexes, row count and DDL. *)
Definition detail_queries (table_name : string) : list string :=
  [columns_query; fk_query; index_query;
   count_query table_name; show_create_query table_name].

(** [a == b] on scalars: [True] and [False] are equal to [1] and [0]. *)
Definition py_eq (a b : PyVal) : bool :=
  match a, b with
  | VNone, VNone => true
  | VStr s, VStr t => String.eqb s t
  | VInt m, VInt n => m =? n
  | VBool x, VBool y => Bool.eqb x y
  | VBool x, VInt n | VInt n, VBool x => (if x then 1 else 0) =? n
  | _, _ => false
  end.

(** The dictionary [table_details]. *)
Record TableDetails : Type := mkTableDetails {
  td_name : string;
  td_columns : list (gmap string PyVal);
  td_primary_keys : list PyVal;
  td_foreign_keys : list (gmap string PyVal);
  td_indexes : list IndexInfo
}.

Definition column_info (col : gmap string PyVal) : gmap string PyVal :=
  dict_of_pairs
    [ ("name", dict_get_default col "COLUMN_NAME" (VStr ""));
      ("type", dict_get_default col "DATA_TYPE" (VStr ""));
      ("max_length", dict_get col "CHARACTER_MAXIMUM_LENGTH");
      ("nullable", VBool (eq_str (dict_get col "IS_NULLABLE") "YES"));
      ("default", dict_get col "COLUMN_DEFAULT");
      ("column_type", dict_get_default col "COLUMN_TYPE" (VStr ""));
      ("key", dict_get_default col "COLUMN_KEY" (VStr ""));
      ("extra", dict_get_default col "EXTRA" (VStr "")) ].

(** The name a column contributes to [primary_keys], if any. *)
Definition primary_key_of (col : gmap string PyVal) : option PyVal :=
  if eq_str (dict_get col "COLUMN_KEY") "PRI" then
    let pk_name := dict_get col "COLUMN_NAME" in
    if truthy pk_name then Some pk_name else None
  else None.

(** The foreign key a catalog row describes; it is kept only when all
    four of its values are truthy. *)
Definition fk_info (fk : gmap string PyVal) : option (gmap string PyVal) :=
  let column := dict_get fk "COLUMN_NAME" in
  let referenced_table := dict_get fk "REFERENCED_TABLE_NAME" in
  let referenced_column := dict_get fk "REFERENCED_COLUMN_NAME" in
  let constraint_name := dict_get fk "CONSTRAINT_NAME" in
  if truthy column && truthy referenced_table && truthy referenced_column
     && truthy constraint_name
  then Some (dict_of_pairs [ ("column", column);
                             ("referenced_table", referenced_table);
                             ("referenced_column", referenced_column);
                             ("constraint_name", constraint_name) ])
  else None.

(** [indexes[-1]['columns'].append(column)] *)
Fixpoint append_to_last (column : PyVal) (indexes : list IndexInfo) : list IndexInfo :=
  match indexes with
  | [] => []
  | [ix] => [mkIndexInfo (ix_name ix) (ix_unique ix) (ix_type ix)
                         (ix_columns ix ++ [column])]
  | ix :: rest => ix :: append_to_last column rest
  end.

(** One turn of the loop over the index rows; the state is
    [current_index] and the indexes collected so far. *)
Definition index_step (acc : PyVal * list IndexInfo) (idx : gmap string PyVal)
    : PyVal * list IndexInfo :=
  let '(current_index, indexes) := acc in
  let idx_name := dict_get idx "INDEX_NAME" in
  if truthy idx_name && negb (py_eq idx_name current_index) then
    (idx_name,
     indexes ++ [mkIndexInfo idx_name
                   (py_eq (dict_get_default idx "NON_UNIQUE" (VInt 1)) (VInt 0))
                   (dict_get_default idx "INDEX_TYPE" (VStr ""))
                   [dict_get_default idx "COLUMN_NAME" (VStr "")]])
  else if truthy current_index && truthy (dict_get idx "COLUMN_NAME") then
    (current_index,
     append_to_last (dict_get_default idx "COLUMN_NAME" (VStr "")) indexes)
  else acc.

Section Schema.

Context {World : Type} (drv : Driver World).

Local Abbreviation Meth := (@Meth World).

(** The parameters [{"database": self.config['database'], "table":
    table_name}] *)
Definition table_params (table_name : string) : Meth (option Params) :=
  cfg <- attr config ;;
  database <- getitem cfg "database" ;;
  ret (Some (PNamed (<["table" := VStr table_name]> {[ "database" := database ]}))).

Definition _get_table_details (table_name : string) : Meth TableDetails :=
  params <- table_params table_name ;;
  columns_result <- execute_query drv columns_query params 1000 30 ;;
  let columns := map column_info (data columns_result) in
  let primary_keys := omap primary_key_of (data columns_result) in
  params <- table_params table_name ;;
  fk_result <- execute_query drv fk_query params 1000 30 ;;
  let foreign_keys := omap fk_info (data fk_result) in
  params <- table_params table_name ;;
  index_result <- execute_query drv index_query params 1000 30 ;;
  let indexes := snd (foldl index_step (VNone, []) (data index_result)) in
  ret (mkTableDetails table_name columns primary_keys foreign_keys indexes).

(** [result.data[0].get(key, default) if result.data else otherwise] *)
Definition first_row_get (result : QueryResult) (key : string) (dflt otherwise : PyVal)
    : PyVal :=
  match data result with
  | row :: _ => dict_get_default row key dflt
  | [] => otherwise
  end.

Definition get_table_schema (table_name : string) : Meth (option TableSchema) :=
  try_except
    (params <- table_params table_name ;;
     check_result <- execute_query drv check_query params 1000 30 ;;
     match data check_result with
     | [] => ret None
     | _ :: _ =>
         table_details <- _get_table_details table_name ;;
         row_count_result <- execute_query drv (count_query table_name) None 1 30 ;;
         let row_count := first_row_get row_count_result "count" (VInt 0) (VInt 0) in
         create_result <- execute_query drv (show_create_query table_name) None 1 30 ;;
         let create_statement := first_row_get create_result "Create Table" VNone VNone in
         ret (Some (mkTableSchema table_name (td_columns table_details)
                      (td_primary_keys table_details)
                      (td_foreign_keys table_details)
                      (td_indexes table_details) row_count create_statement))
     end)
    (fun e =>
       io_ (log ERROR ("Error getting table schema for " +:+ table_name +:+ ": "
                       +:+ exn_str e)) ;;
       raise (DatabaseQueryError ("Failed to get table schema: " +:+ exn_str e))).

Definition async_get_table_schema (table_name : string) : Meth (option TableSchema) :=
  try_except
    (params <- table_params table_name ;;
     check_result <- async_execute_query drv check_query params 1000 30 ;;
     match data check_result with
     | [] => ret None
     | _ :: _ =>
         table_info <- _get_table_details table_name ;;
         ret (Some (mkTableSchema table_name (td_columns table_info)
                      (td_primary_keys table_info)
                      (td_foreign_keys table_info)
                      (td_indexes table_info) (VInt 0) VNone))
     end)
    (fun e =>
       io_ (log ERROR ("Error async getting table schema: " +:+ exn_str e)) ;;
       raise (DatabaseQueryError ("Failed to async get table schema: " +:+ exn_str e))).

End Schema.

(** A call that sends none of the detail queries of a table. *)
Definition no_detail_query (table_name : string) (c : Call) : Prop :=
  forall q, call_statement c = Some q -> ~ In q (detail_queries table_name).

(** The parameters of the catalog check. *)
Definition check_params (database : PyVal) (table_name : string) : option Params :=
  Some (PNamed (<["table" := VStr table_name]> {[ "database" := database ]})).

(** What the catalog check returns on [empty_driver]. *)
Definition no_such_table : QueryResult :=
  mkQueryResult true [] ["TABLE_NAME"] 0 1 None (Some check_query).

(** ** The connection registry (connection_tools.py) *)

(** A Python [dict] with string keys whose key order is observed:
    insertion-ordered, one entry per key. *)
Module PyDict.

Definition t (V : Type) : Type := list (string * V).

Fixpoint get {V : Type} (k : string) (d : t V) : option V :=
  match d with
  | [] => None
  | (k', v) :: d' => if String.eqb k k' then Some v else get k d'
  end.

(** [k in d] *)
Definition mem {V : Type} (k : string) (d : t V) : bool :=
  match get k d with
  | Some _ => true
  | None => false
  end.

(** [d[k] = v]: an existing key keeps its place. *)
Fixpoint set {V : Type} (k : string) (v : V) (d : t V) : t V :=
  match d with
  | [] => [(k, v)]
  | (k', v') :: d' =>
      if String.eqb k k' then (k, v) :: d' else (k', v') :: set k v d'
  end.

(** [del d[k]] *)
Fixpoint del {V : Type} (k : string) (d : t V) : t V :=
  match d with
  | [] => []
  | (k', v') :: d' => if String.eqb k k' then d' else (k', v') :: del k d'
  end.

(** [list(d.keys())] *)
Definition keys {V : Type} (d : t V) : list string := map fst d.

End PyDict.

(** A value of a status dictionary: a scalar or a list of names. *)
Inductive StatusVal : Type :=
| SVal (v : PyVal)
| SNames (names : list string).

Definition status (fields : list (string * StatusVal)) : gmap string StatusVal :=
  list_to_map fields.

Definition s_bool (b : bool) : StatusVal := SVal (VBool b).
Definition s_str (s : string) : StatusVal := SVal (VStr s).

Section Store.

Context {World : Type} (drv : Driver World).

(** The state of the process: the outside, the connection objects by
    reference, and the two module-level registries, which map a name to
    a reference. *)
Record RState : Type := mkRState {
  r_io : IO World;
  heap : gmap nat MySQLConnection;
  next_ref : nat;
  _active_connections : PyDict.t nat;
  _async_active_connections : PyDict.t nat
}.

Definition Reg (A : Type) : Type := M RState A.

Definition rio {A : Type} (m : M (IO World) A) : Reg A :=
  zoom r_io (fun i s => mkRState i (heap s) (next_ref s) (_active_connections s)
                                 (_async_active_connections s)) m.

Definition set_active (f : PyDict.t nat -> PyDict.t nat) : Reg unit :=
  modify (fun s => mkRState (r_io s) (heap s) (next_ref s)
                            (f (_active_connections s))
                            (_async_active_connections s)).

Definition set_async_active (f : PyDict.t nat -> PyDict.t nat) : Reg unit :=
  modify (fun s => mkRState (r_io s) (heap s) (next_ref s)
                            (_active_connections s)
                            (f (_async_active_connections s))).

(** A method call on the object behind a reference: the method works on
    the object in place. *)
Definition on_object {A : Type} (ref : nat) (m : @Meth World A) : Reg A :=
  fun s =>
    match heap s !! ref with
    | Some o =>
        let '(r, ms) := m (mkMState (r_io s) o) in
        (r, mkRState (io ms) (<[ref := self ms]> (heap s)) (next_ref s)
                     (_active_connections s) (_async_active_connections s))
    | None => (inl (PyException "ReferenceError" "no such object"), s)
    end.

(** [MySQLConnection(connection_name)]: a new object. *)
Definition new_object (connection_name : string) : Reg nat :=
  fun s =>
    (inr (next_ref s),
     mkRState (r_io s) (<[next_ref s := new_connection connection_name]> (heap s))
              (S (next_ref s)) (_active_connections s)
              (_async_active_connections s)).

(** mysql.py, [create_mysql_connection] *)
Definition create_mysql_connection (connection_name : string)
    (config : gmap string PyVal) : Reg nat :=
  conn <- new_object connection_name ;;
  on_object conn (connect drv config) ;;
  ret conn.

End Store.

Module ConnectionTools.

Section Tools.

Context {World : Type} (drv : Driver World).

Local Abbreviation Reg := (@Reg World).

Definition get_connection (connection_name : string) : Reg (option nat) :=
  gets (fun s => PyDict.get connection_name (_active_connections s)).

(** [CONFIG_DIR / f"{connection_name}.json"] *)
Definition config_path (connection_name : string) : string :=
  config_dir drv +:+ "/" +:+ connection_name +:+ ".json".

(** The configuration of a call: the one given, or the one loaded from
    the configuration file of the name; [None] when there is no such
    file. *)
Definition load_config (connection_name : string)
    (config : option (gmap string PyVal)) : Reg (option (gmap string PyVal)) :=
  match config with
  | Some connection_config => ret (Some connection_config)
  | None =>
      let config_file_path := config_path connection_name in
      file <- rio (call (CConfigFile config_file_path)
                     (fun w => let '(r, w') := config_file drv config_file_path w in
                               (inr r, w'))) ;;
      match file with
      | None => ret None
      | Some (inl e) => raise e
      | Some (inr connection_config) => ret (Some connection_config)
      end
  end.

(** [connection_config.get("type", "mysql").lower()] *)
Definition db_type_of (connection_config : gmap string PyVal) : Reg string :=
  match dict_get_default connection_config "type" (VStr "mysql") with
  | VStr s => ret (PyStr.lower s)
  | v => raise (PyException "AttributeError" (no_attribute v "lower"))
  end.

Definition already_active (connection_name : string) : gmap string StatusVal :=
  status [ ("success", s_bool false);
           ("error", s_str ("Connection '" +:+ connection_name
                            +:+ "' is already active"));
           ("suggestion", s_str "Use disconnect() first or use a different name") ].

Definition connect (connection_name : string) (config : option (gmap string PyVal))
    : Reg (gmap string StatusVal) :=
  try_except
    (active <- gets _active_connections ;;
     if PyDict.mem connection_name active then ret (already_active connection_name)
     else
       loaded <- load_config connection_name config ;;
       match loaded with
       | None =>
           ret (status
                  [ ("success", s_bool false);
                    ("error", s_str ("Config file not found: "
                                     +:+ config_path connection_name));
                    ("suggestion", s_str ("Create " +:+ config_path connection_name
                                          +:+ " or provide config parameter")) ])
       | Some connection_config =>
           db_type <- db_type_of connection_config ;;
           if String.eqb db_type "mysql" then
             db <- create_mysql_connection drv connection_name connection_config ;;
             set_active (PyDict.set connection_name db) ;;
             tested <- on_object db (test_connection drv) ;;
             let '(success, message) := tested in
             version <- on_object db (attr mysql_version) ;;
             active <- gets _active_connections ;;
             ret (status
                    [ ("success", s_bool success);
                      ("message", s_str message);
                      ("connection_name", s_str connection_name);
                      ("database", SVal (dict_get connection_config "database"));
                      ("host", SVal (dict_get connection_config "host"));
                      ("mysql_version", SVal version);
                      ("active_connections", SNames (PyDict.keys active)) ])
           else
             ret (status
                    [ ("success", s_bool false);
                      ("error", s_str ("Unsupported database type: " +:+ db_type));
                      ("supported_types", SNames ["mysql"]) ])
       end)
    (fun e =>
       rio (log ERROR ("Connection failed: " +:+ exn_str e)) ;;
       ret (status [ ("success", s_bool false);
                     ("error", s_str ("Connection failed: " +:+ exn_str e));
                     ("connection_name", s_str connection_name) ])).

Definition disconnect (connection_name : string) : Reg (gmap string StatusVal) :=
  try_except
    (active <- gets _active_connections ;;
     match PyDict.get connection_name active with
     | None =>
         ret (status
                [ ("success", s_bool false);
                  ("error", s_str ("No active connection named '"
                                   +:+ connection_name +:+ "'"));
                  ("active_connections", SNames (PyDict.keys active)) ])
     | Some db =>
         on_object db (disconnect drv) ;;
         set_active (PyDict.del connection_name) ;;
         active <- gets _active_connections ;;
         ret (status
                [ ("success", s_bool true);
                  ("message", s_str ("Disconnected from '" +:+ connection_name +:+ "'"));
                  ("active_connections", SNames (PyDict.keys active)) ])
     end)
    (fun e =>
       rio (log ERROR ("Disconnection failed: " +:+ exn_str e)) ;;
       ret (status [ ("success", s_bool false);
                     ("error", s_str ("Disconnection failed: " +:+ exn_str e)) ])).

Definition async_already_active (connection_name : string) : gmap string StatusVal :=
  status [ ("success", s_bool false);
           ("error", s_str ("Async connection '" +:+ connection_name
                            +:+ "' is already active"));
           ("suggestion", s_str "Use async_disconnect() first") ].

Definition async_connect (connection_name : string)
    (config : option (gmap string PyVal)) : Reg (gmap string StatusVal) :=
  try_except
    (active <- gets _async_active_connections ;;
     if PyDict.mem connection_name active then ret (async_already_active connection_name)
     else
       loaded <- load_config connection_name config ;;
       match loaded with
       | None =>
           ret (status
                  [ ("success", s_bool false);
                    ("error", s_str ("Config file not found: "
                                     +:+ config_path connection_name)) ])
       | Some connection_config =>
           db_type <- db_type_of connection_config ;;
           if String.eqb db_type "mysql" then
             db <- create_mysql_connection drv connection_name connection_config ;;
             on_object db (async_connect drv connection_config) ;;
             set_async_active (PyDict.set connection_name db) ;;
             tested <- on_object db (async_test_connection drv) ;;
             let '(success, message) := tested in
             active <- gets _async_active_connections ;;
             ret (status
                    [ ("success", s_bool success);
                      ("message", s_str message);
                      ("connection_name", s_str connection_name);
                      ("database", SVal (dict_get connection_config "database"));
                      ("host", SVal (dict_get connection_config "host"));
                      ("async_active_connections", SNames (PyDict.keys active)) ])
           else
             ret (status
                    [ ("success", s_bool false);
                      ("error", s_str ("Unsupported database type: " +:+ db_type)) ])
       end)
    (fun e =>
       rio (log ERROR ("Async connection failed: " +:+ exn_str e)) ;;
       ret (status [ ("success", s_bool false);
                     ("error", s_str ("Async connection failed: " +:+ exn_str e)) ])).

End Tools.

End ConnectionTools.

(** The state once [name] has been bound to the reference [db] in the
    registry of blocking connections. *)
Definition registered {World : Type} (name : string) (db : nat)
    (s : @RState World) : @RState World :=
  mkRState (r_io s) (heap s) (next_ref s)
           (PyDict.set name db (_active_connections s))
           (_async_active_connections s).

(** A process in which the name [main] is active in both registries. *)
Definition demo_registry : @RState Z :=
  mkRState demo_io {[ 0%nat := open_connection ]} 1 [("main", 0%nat)] [("main", 0%nat)].

(** A process with no connection yet. *)
Definition fresh_registry : @RState Z := mkRState demo_io ∅ 0 [] [].

(** On [empty_driver] the handshake of a connect call succeeds and the
    liveness test that follows finds no row: the states after the one
    and after the other. *)
Definition after_handshake : @RState Z :=
  snd (create_mysql_connection empty_driver "db1" literal_config fresh_registry).

Definition after_failed_test : @RState Z :=
  snd (on_object 0 (test_connection empty_driver)
         (registered "db1" 0 after_handshake)).

(** ** Further servers for worked examples *)

(** A server like [demo_driver] with a chosen answer to the handshake,
    to the liveness ping and to the statements of the blocking
    session. *)
Definition make_server (connect_answer : Exn + Session)
    (ping_answer : bool -> option Exn)
    (sync_answer : string -> Exn + CursorState Row) : Driver Z :=
  {| time_time := fun w => (w, w + 1);
     pymysql_connect := fun _ w => (connect_answer, w);
     connection_ping := fun _ reconnect w => (ping_answer reconnect, w);
     connection_cursor := fun _ w => (None, w);
     cursor_execute := fun _ q _ w => (sync_answer q, w);
     cursor_fetchmany := fun _ size rows => take (Z.to_nat size) rows;
     cursor_fetchone := fun _ rows => head rows;
     cursor_close := fun _ w => (None, w);
     connection_autocommit := fun _ _ => true;
     connection_commit := fun _ w => (None, w);
     connection_close := fun _ w => (None, w);
     aiomysql_create_pool := fun _ w => (inr 2%nat, w);
     pool_acquire := fun _ w => (inr 3%nat, w);
     aconn_cursor := fun _ w => (None, w);
     acursor_execute := fun _ q _ _ w => (Completed (demo_answer id q), w);
     acursor_close := fun _ w => w;
     pool_release := fun _ _ w => w;
     pool_close := fun _ w => (None, w);
     pool_wait_closed := fun _ w => (None, w);
     config_dir := "config/connections";
     config_file := fun _ w => (None, w) |}.

(** A server that rejects the credentials of every handshake. *)
Definition refusing_driver : Driver Z :=
  make_server (inl (PyMySQLOperationalError "(1045, Access denied)"))
              (fun _ => None) (fun q => inr (demo_answer RowDict q)).

(** A server on which every statement runs into the execution time
    limit. *)
Definition slow_driver : Driver Z :=
  make_server (inr 1%nat) (fun _ => None)
    (fun _ => inl (PyMySQLOperationalError
                     "(3024, Query execution was interrupted, max_execution_time exceeded)")).

(** A connection object that has not connected yet. *)
Definition fresh_state : @MState Z := mkMState demo_io (new_connection "c").

(** The open connection with another reported server version. *)
Definition state_with_version (version : PyVal) : @MState Z :=
  mkMState demo_io (with_mysql_version version open_connection).

(** The open connection without its blocking session: only the pool is
    at hand. *)
Definition pool_only_state : @MState Z :=
  mkMState demo_io (with_connection None open_connection).

(** The calls that tear down the blocking session, and those that tear
    down the pool. *)
Definition is_session_teardown (c : Call) : bool :=
  match c with
  | CCursorClose _ | CClose _ => true
  | _ => false
  end.

Definition is_pool_teardown (c : Call) : bool :=
  match c with
  | CPoolClose _ | CPoolWaitClosed _ => true
  | _ => false
  end.

(** A registry is a Python dictionary: no key occurs twice. *)
Definition registry_ok {V : Type} (d : PyDict.t V) : Prop := NoDup (PyDict.keys d).

(** A process in which [main] and [replica] are active, each with an
    open connection of its own. *)
Definition two_registry : @RState Z :=
  mkRState demo_io {[ 0%nat := open_connection; 1%nat := open_connection ]} 2
           [("main", 0%nat); ("replica", 1%nat)] [].

(** The two catalog queries of [get_schema]: one table, all tables. *)
Definition table_query_one : string :=
  unlines [
    "";
    "                    SELECT TABLE_NAME ";
    "                    FROM INFORMATION_SCHEMA.TABLES ";
    "                    WHERE TABLE_SCHEMA = %(database)s ";
    "                    AND TABLE_NAME = %(table)s";
    "                    AND TABLE_TYPE = 'BASE TABLE'";
    "                "
  ].

Definition table_query_all : string :=
  unlines [
    "";
    "                    SELECT TABLE_NAME ";
    "                    FROM INFORMATION_SCHEMA.TABLES ";
    "                    WHERE TABLE_SCHEMA = %(database)s ";
    "                    AND TABLE_TYPE = 'BASE TABLE'";
    "                    ORDER BY TABLE_NAME";
    "                "
  ].

(** ** A catalog for worked examples *)

(** The catalog rows of a table [orders] with the primary key [id], a
    foreign key from [owner] to [users.id] and one index over two
    columns. *)
Definition orders_columns : list (gmap string PyVal) :=
  [ dict_of_pairs [ ("COLUMN_NAME", VStr "id"); ("DATA_TYPE", VStr "int");
                    ("IS_NULLABLE", VStr "NO"); ("COLUMN_TYPE", VStr "int");
                    ("COLUMN_KEY", VStr "PRI"); ("EXTRA", VStr "auto_increment") ];
    dict_of_pairs [ ("COLUMN_NAME", VStr "owner"); ("DATA_TYPE", VStr "int");
                    ("IS_NULLABLE", VStr "YES"); ("COLUMN_TYPE", VStr "int");
                    ("COLUMN_KEY", VStr "MUL"); ("EXTRA", VStr "") ] ].

Definition orders_foreign_keys : list (gmap string PyVal) :=
  [ dict_of_pairs [ ("COLUMN_NAME", VStr "owner");
                    ("REFERENCED_TABLE_NAME", VStr "users");
                    ("REFERENCED_COLUMN_NAME", VStr "id");
                    ("CONSTRAINT_NAME", VStr "fk_owner") ] ].

Definition orders_index_rows : list (gmap string PyVal) :=
  [ dict_of_pairs [ ("INDEX_NAME", VStr "ix_owner"); ("COLUMN_NAME", VStr "owner");
                    ("NON_UNIQUE", VInt 1); ("INDEX_TYPE", VStr "BTREE") ];
    dict_of_pairs [ ("INDEX_NAME", VStr "ix_owner"); ("COLUMN_NAME", VStr "id");
                    ("NON_UNIQUE", VInt 1); ("INDEX_TYPE", VStr "BTREE") ] ].

Definition catalog_answer {R : Type} (wrap : gmap string PyVal -> R) (query : string)
    : CursorState R :=
  if String.eqb query check_query || String.eqb query table_query_one
     || String.eqb query table_query_all
  then mkCursorState [wrap {[ "TABLE_NAME" := VStr "orders" ]}] (Some ["TABLE_NAME"]) 1
  else if String.eqb query columns_query
  then mkCursorState (map wrap orders_columns) (Some ["COLUMN_NAME"]) 2
  else if String.eqb query fk_query
  then mkCursorState (map wrap orders_foreign_keys) (Some ["COLUMN_NAME"]) 1
  else if String.eqb query index_query
  then mkCursorState (map wrap orders_index_rows) (Some ["INDEX_NAME"]) 2
  else demo_answer wrap query.

(** A server that holds the table [orders]. *)
Definition catalog_driver : Driver Z :=
  make_driver (catalog_answer RowDict) (fun q => Completed (catalog_answer id q))
              None None.

(** ** Well-formed table details *)

(** A primary key names a column that the catalog marks as [PRI]. *)
Definition names_primary_column (columns : list (gmap string PyVal)) (pk : PyVal) : Prop :=
  truthy pk = true
  /\ exists col, In col columns /\ col !! "name" = Some pk
                 /\ col !! "key" = Some (VStr "PRI").

(** A foreign key with its four values, none of them empty. *)
Definition complete_foreign_key (fk : gmap string PyVal) : Prop :=
  forall k, In k ["column"; "referenced_table"; "referenced_column"; "constraint_name"] ->
            exists v, fk !! k = Some v /\ truthy v = true.

(** An index with a name and at least one column. *)
Definition named_index (ix : IndexInfo) : Prop :=
  truthy (ix_name ix) = true /\ ix_columns ix <> [].

(** The column an index row contributes. *)
Definition index_column (idx : gmap string PyVal) : PyVal :=
  dict_get_default idx "COLUMN_NAME" (VStr "").

(** The details of [orders] as [catalog_driver] delivers them. *)
Definition orders_details : TableDetails :=
  match fst (_get_table_details catalog_driver "orders" open_state) with
  | inr td => td
  | inl _ => mkTableDetails "" [] [] [] []
  end.

(** A server on which the pooled statements fail with a permission
    error. *)
Definition denying_driver : Driver Z :=
  driver_answering (Failed (PyMySQLOperationalError "(1142, SELECT command denied)")).

(** ** Teardown of a non-blocking connection (connection_tools.py) *)

Module AsyncConnectionTools.

Section Tools.

Context {World : Type} (drv : Driver World).

Local Abbreviation Reg := (@Reg World).

Definition async_disconnect (connection_name : string) : Reg (gmap string StatusVal) :=
  try_except
    (active <- gets _async_active_connections ;;
     match PyDict.get connection_name active with
     | None =>
         ret (status
                [ ("success", s_bool false);
                  ("error", s_str ("No async active connection named '"
                                   +:+ connection_name +:+ "'"));
                  ("async_active_connections", SNames (PyDict.keys active)) ])
     | Some db =>
         on_object db (async_disconnect drv) ;;
         set_async_active (PyDict.del connection_name) ;;
         active <- gets _async_active_connections ;;
         ret (status
                [ ("success", s_bool true);
                  ("message", s_str ("Async disconnected from '"
                                     +:+ connection_name +:+ "'"));
                  ("async_active_connections", SNames (PyDict.keys active)) ])
     end)
    (fun e =>
       rio (log ERROR ("Async disconnection failed: " +:+ exn_str e)) ;;
       ret (status [ ("success", s_bool false);
                     ("error", s_str ("Async disconnection failed: " +:+ exn_str e)) ])).

End Tools.

End AsyncConnectionTools.

(** ** Running a statement by connection name (query_tools.py) *)

(** The dictionary [formatted_table] of the schema tool; the note is
    present for a table of more than five columns. *)
Record FormattedTable : Type := mkFormattedTable {
  ft_name : PyVal;
  ft_column_count : Z;
  ft_primary_keys : list PyVal;
  ft_sample_columns : list (gmap string PyVal);
  ft_note : option string
}.

(** A value of the dictionary a query or schema tool returns: a scalar,
    a list of names, a list of scalars, a list of flat dictionaries (the
    rows of a result, the columns of a table), a duration, a list of
    index descriptors, or a list of formatted tables. *)
Inductive ReplyVal : Type :=
| RVal (v : PyVal)
| RNames (names : list string)
| RList (values : list PyVal)
| RRows (rows : list (gmap string PyVal))
| RDuration (t : Z)
| RIndexes (indexes : list IndexInfo)
| RTables (tables : list FormattedTable).

Definition reply (fields : list (string * ReplyVal)) : gmap string ReplyVal :=
  list_to_map fields.

Definition r_bool (b : bool) : ReplyVal := RVal (VBool b).
Definition r_str (s : string) : ReplyVal := RVal (VStr s).

(** An optional string as a scalar. *)
Definition r_opt (s : option string) : ReplyVal :=
  match s with
  | Some t => RVal (VStr t)
  | None => RVal VNone
  end.

(** [f"Returned {len(result.data)} of {result.row_count} rows"] *)
Definition returned_note (result : QueryResult) : string :=
  "Returned " +:+ PyStr.of_Z (Z.of_nat (length (data result))) +:+ " of "
  +:+ PyStr.of_Z (row_count result) +:+ " rows".

(** [result.sql_query] *)
Definition echoed_query (result : QueryResult) : option string := sql_query result.

Module QueryTools.

Section Tools.

Context {World : Type} (drv : Driver World).

Local Abbreviation Reg := (@Reg World).

Definition get_connection (connection_name : string) : Reg (option nat) :=
  gets (fun s => PyDict.get connection_name (_active_connections s)).

Definition execute_sql_query (connection_name sql_query : string)
    (max_rows timeout : Z) : Reg (gmap string ReplyVal) :=
  try_except
    (db <- get_connection connection_name ;;
     match db with
     | None =>
         active <- gets _active_connections ;;
         ret (reply
                [ ("success", r_bool false);
                  ("error", r_str ("No active connection named '"
                                   +:+ connection_name +:+ "'"));
                  ("available_connections", RNames (PyDict.keys active)) ])
     | Some db =>
         result <- on_object db (execute_query drv sql_query None max_rows timeout) ;;
         ret (reply
                [ ("success", r_bool (success result));
                  ("data", RRows (data result));
                  ("columns", RNames (columns result));
                  ("row_count", RVal (VInt (row_count result)));
                  ("execution_time", RDuration (execution_time result));
                  ("sql_query", r_opt (echoed_query result));
                  ("note", r_str (returned_note result)) ])
     end)
    (fun e =>
       rio (log ERROR ("SQL query execution failed: " +:+ exn_str e)) ;;
       ret (reply [ ("success", r_bool false);
                    ("error", r_str ("Query execution failed: " +:+ exn_str e));
                    ("sql_query", r_str sql_query) ])).

End Tools.

End QueryTools.

(** A process in which [main] is active in the non-blocking registry
    only. *)
Definition async_only_registry : @RState Z :=
  mkRState demo_io {[ 0%nat := open_connection ]} 1 [] [("main", 0%nat)].

(** Between two states of a method call: the handle of the blocking
    session is the same. *)
Definition session_kept {World : Type} (s s' : @MState World) : Prop :=
  _connection (self s') = _connection (self s).

(** A server like [demo_driver] on which no pool can be created. *)
Definition poolless_driver : Driver Z :=
  {| time_time := time_time demo_driver;
     pymysql_connect := pymysql_connect demo_driver;
     connection_ping := connection_ping demo_driver;
     connection_cursor := connection_cursor demo_driver;
     cursor_execute := cursor_execute demo_driver;
     cursor_fetchmany := cursor_fetchmany demo_driver;
     cursor_fetchone := cursor_fetchone demo_driver;
     cursor_close := cursor_close demo_driver;
     connection_autocommit := connection_autocommit demo_driver;
     connection_commit := connection_commit demo_driver;
     connection_close := connection_close demo_driver;
     aiomysql_create_pool :=
       fun _ w => (inl (PyMySQLOperationalError "(2003, Cannot connect to server)"), w);
     pool_acquire := pool_acquire demo_driver;
     aconn_cursor := aconn_cursor demo_driver;
     acursor_execute := acursor_execute demo_driver;
     acursor_close := acursor_close demo_driver;
     pool_release := pool_release demo_driver;
     pool_close := pool_close demo_driver;
     pool_wait_closed := pool_wait_closed demo_driver;
     config_dir := config_dir demo_driver;
     config_file := config_file demo_driver |}.

(** The states of a non-blocking connect on [poolless_driver]: after
    the connection was created and after the pool failed. *)
Definition after_blocking_handshake : @RState Z :=
  snd (create_mysql_connection poolless_driver "db1" literal_config fresh_registry).

Definition after_failed_pool : @RState Z :=
  snd (on_object 0 (async_connect poolless_driver literal_config)
         after_blocking_handshake).

(** ** Describing a table by connection name (schema_tools.py) *)

(** [d[k]] in any computation. *)
Definition dict_item {S : Type} (d : gmap string PyVal) (k : string) : M S PyVal :=
  match d !! k with
  | Some v => ret v
  | None => raise (PyException "KeyError" ("'" +:+ k +:+ "'"))
  end.

(** [[f x for x in l]] where [f] may raise. *)
Fixpoint map_m {S A B : Type} (f : A -> M S B) (l : list A) : M S (list B) :=
  match l with
  | [] => ret []
  | x :: l' => y <- f x ;; ys <- map_m f l' ;; ret (y :: ys)
  end.

(** [v in l] on a list of scalars *)
Definition py_in (v : PyVal) (l : list PyVal) : bool := existsb (py_eq v) l.

(** [v is not None] *)
Definition is_not_none (v : PyVal) : bool :=
  match v with
  | VNone => false
  | _ => true
  end.

Module SchemaTools.

Section Tools.

Context {World : Type} (drv : Driver World).

Local Abbreviation Reg := (@Reg World).

Definition get_connection (connection_name : string) : Reg (option nat) :=
  gets (fun s => PyDict.get connection_name (_active_connections s)).

(** The dictionary [column_info] of one column. *)
Definition format_column (primary_keys : list PyVal) (col : gmap string PyVal)
    : Reg (gmap string PyVal) :=
  name <- dict_item col "name" ;;
  type <- dict_item col "type" ;;
  name' <- dict_item col "name" ;;
  ret (dict_of_pairs
         [ ("name", name);
           ("type", type);
           ("nullable", dict_get_default col "nullable" (VBool false));
           ("default", dict_get col "default");
           ("is_primary", VBool (py_in name' primary_keys));
           ("extra", dict_get col "extra") ]).

(** The dictionary [fk_info] of one foreign key. *)
Definition format_foreign_key (fk : gmap string PyVal) : gmap string PyVal :=
  dict_of_pairs
    [ ("column", dict_get fk "column");
      ("references", VStr (py_str (dict_get fk "referenced_table") +:+ "."
                           +:+ py_str (dict_get fk "referenced_column")));
      ("constraint", dict_get fk "constraint_name") ].

Definition get_table_info (connection_name table_name : string)
    : Reg (gmap string ReplyVal) :=
  try_except
    (db <- get_connection connection_name ;;
     match db with
     | None =>
         ret (reply [ ("success", r_bool false);
                      ("error", r_str ("No active connection named '"
                                       +:+ connection_name +:+ "'")) ])
     | Some db =>
         table_schema <- on_object db (get_table_schema drv table_name) ;;
         match table_schema with
         | None =>
             ret (reply [ ("success", r_bool false);
                          ("error", r_str ("Table '" +:+ table_name
                                           +:+ "' not found")) ])
         | Some table_schema =>
             formatted_columns <-
               map_m (format_column (ts_primary_keys table_schema))
                     (ts_columns table_schema) ;;
             let formatted_foreign_keys :=
               map format_foreign_key (ts_foreign_keys table_schema) in
             let formatted_indexes := ts_indexes table_schema in
             ret (reply
                    [ ("success", r_bool true);
                      ("table_name", r_str (ts_name table_schema));
                      ("row_count", RVal (ts_row_count table_schema));
                      ("columns", RRows formatted_columns);
                      ("primary_keys", RList (ts_primary_keys table_schema));
                      ("foreign_keys", RRows formatted_foreign_keys);
                      ("indexes", RIndexes formatted_indexes);
                      ("has_create_statement",
                       r_bool (is_not_none (ts_create_statement table_schema)));
                      ("note", r_str "Use execute_sql_query() to query this table") ])
         end
     end)
    (fun e =>
       rio (log ERROR ("Table info retrieval failed: " +:+ exn_str e)) ;;
       ret (reply [ ("success", r_bool false);
                    ("error", r_str ("Table info retrieval failed: "
                                     +:+ exn_str e)) ])).

End Tools.

End SchemaTools.

(** A column of a reply that is flagged as primary and carries the
    name [pk]. *)
Definition flagged_primary (cols : list (gmap string PyVal)) (pk : PyVal) : Prop :=
  exists col, In col cols /\ col !! "name" = Some pk
              /\ col !! "is_primary" = Some (VBool true).

(** A process in which [main] is an open connection to the server that
    holds [orders]. *)
Definition catalog_registry : @RState Z :=
  mkRState demo_io {[ 0%nat := open_connection ]} 1 [("main", 0%nat)] [].

(** What [format_column] returns for a column that has a name and a
    type. *)
Definition formatted_column (primary_keys : list PyVal) (col : gmap string PyVal)
    : gmap string PyVal :=
  dict_of_pairs
    [ ("name", dict_get col "name");
      ("type", dict_get col "type");
      ("nullable", dict_get_default col "nullable" (VBool false));
      ("default", dict_get col "default");
      ("is_primary", VBool (py_in (dict_get col "name") primary_keys));
      ("extra", dict_get col "extra") ].

(** A field of the reply of a tool, when the tool returned one. *)
Definition reply_field {S : Type} (run : (Exn + gmap string ReplyVal) * S) (k : string)
    : option ReplyVal :=
  match fst run with
  | inr answer => answer !! k
  | inl _ => None
  end.

(** ** The schema of a database (mysql.py, [get_schema]) *)

(** The dictionary [table_details] for a table name as a catalog row
    holds it: any scalar. *)
Record SchemaTable : Type := mkSchemaTable {
  tbl_name : PyVal;
  tbl_columns : list (gmap string PyVal);
  tbl_primary_keys : list PyVal;
  tbl_foreign_keys : list (gmap string PyVal);
  tbl_indexes : list IndexInfo
}.

(** The dictionary [schema_info]. *)
Record SchemaInfo : Type := mkSchemaInfo {
  si_database : PyVal;
  si_db_type : string;
  si_mysql_version : PyVal;
  si_tables : list SchemaTable
}.

(** [bool(table_name)] for [table_name : Optional[str]] *)
Definition name_given (table_name : option string) : bool :=
  match table_name with
  | Some s => negb (String.eqb s "")
  | None => false
  end.

Section DatabaseSchema.

Context {World : Type} (drv : Driver World).

Local Abbreviation Meth := (@Meth World).

(** [_get_table_details] on the name of a catalog row. *)
Definition table_params_of (table_name : PyVal) : Meth (option Params) :=
  cfg <- attr config ;;
  database <- getitem cfg "database" ;;
  ret (Some (PNamed (<["table" := table_name]> {[ "database" := database ]}))).

Definition table_details_of (table_name : PyVal) : Meth SchemaTable :=
  params <- table_params_of table_name ;;
  columns_result <- execute_query drv columns_query params 1000 30 ;;
  let columns := map column_info (data columns_result) in
  let primary_keys := omap primary_key_of (data columns_result) in
  params <- table_params_of table_name ;;
  fk_result <- execute_query drv fk_query params 1000 30 ;;
  let foreign_keys := omap fk_info (data fk_result) in
  params <- table_params_of table_name ;;
  index_result <- execute_query drv index_query params 1000 30 ;;
  let indexes := snd (foldl index_step (VNone, []) (data index_result)) in
  ret (mkSchemaTable table_name columns primary_keys foreign_keys indexes).

(** The loop over the rows of the table query. *)
Fixpoint collect_tables (rows : list (gmap string PyVal)) : Meth (list SchemaTable) :=
  match rows with
  | [] => ret []
  | table_row :: rest =>
      let table_name_val := dict_get table_row "TABLE_NAME" in
      if truthy table_name_val then
        table_info <- table_details_of table_name_val ;;
        tables <- collect_tables rest ;;
        ret (table_info :: tables)
      else collect_tables rest
  end.

(** The table query and its parameters. *)
Definition table_query_for (table_name : option string)
    : Meth (string * option Params) :=
  cfg <- attr config ;;
  database <- getitem cfg "database" ;;
  match table_name with
  | Some s =>
      if name_given table_name
      then ret (table_query_one,
                Some (PNamed (<["table" := VStr s]> {[ "database" := database ]})))
      else ret (table_query_all, Some (PNamed {[ "database" := database ]}))
  | None => ret (table_query_all, Some (PNamed {[ "database" := database ]}))
  end.

Definition get_schema (table_name : option string) : Meth SchemaInfo :=
  try_except
    (alive <- is_connected drv ;;
     if negb alive then raise (DatabaseConnectionError "Not connected to database")
     else
       cfg <- attr config ;;
       let database := dict_get_default cfg "database" (VStr "unknown") in
       version <- attr _mysql_version ;;
       query <- table_query_for table_name ;;
       let '(table_query, table_params) := query in
       tables_result <- execute_query drv table_query table_params 1000 30 ;;
       tables <- collect_tables (data tables_result) ;;
       ret (mkSchemaInfo database "mysql" version tables))
    (fun e =>
       io_ (log ERROR ("Error getting schema: " +:+ exn_str e)) ;;
       raise (DatabaseQueryError ("Failed to get schema: " +:+ exn_str e))).

End DatabaseSchema.

(** A table of a schema is well formed as the details of a table are,
    and has a name. *)
Definition well_formed_table (t : SchemaTable) : Prop :=
  truthy (tbl_name t) = true
  /\ (exists rows, tbl_columns t = map column_info rows
                   /\ tbl_primary_keys t = omap primary_key_of rows)
  /\ Forall (names_primary_column (tbl_columns t)) (tbl_primary_keys t)
  /\ Forall complete_foreign_key (tbl_foreign_keys t)
  /\ Forall named_index (tbl_indexes t).

(** ** The schema by connection name (schema_tools.py, [get_schema]) *)

Module SchemaOverview.

Section Tools.

Context {World : Type} (drv : Driver World).

Local Abbreviation Reg := (@Reg World).

(** [{"name": col["name"], "type": col["type"]}] *)
Definition sample_column (col : gmap string PyVal) : Reg (gmap string PyVal) :=
  name <- dict_item col "name" ;;
  type <- dict_item col "type" ;;
  ret (dict_of_pairs [ ("name", name); ("type", type) ]).

Definition format_table (table : SchemaTable) : Reg FormattedTable :=
  let column_count := Z.of_nat (length (tbl_columns table)) in
  sample_columns <- map_m sample_column (take 5 (tbl_columns table)) ;;
  let note :=
    if 5 <? column_count
    then Some ("... and " +:+ PyStr.of_Z (column_count - 5) +:+ " more columns")
    else None in
  ret (mkFormattedTable (tbl_name table) column_count (tbl_primary_keys table)
                        sample_columns note).

Definition get_schema (connection_name : string) (table_name : option string)
    : Reg (gmap string ReplyVal) :=
  try_except
    (db <- SchemaTools.get_connection connection_name ;;
     match db with
     | None =>
         ret (reply [ ("success", r_bool false);
                      ("error", r_str ("No active connection named '"
                                       +:+ connection_name +:+ "'")) ])
     | Some db =>
         schema <- on_object db (get_schema drv table_name) ;;
         formatted_tables <- map_m format_table (si_tables schema) ;;
         ret (reply
                [ ("success", r_bool true);
                  ("database", RVal (si_database schema));
                  ("db_type", r_str (si_db_type schema));
                  ("mysql_version", RVal (si_mysql_version schema));
                  ("tables", RTables formatted_tables);
                  ("table_count",
                   RVal (VInt (Z.of_nat (length formatted_tables))));
                  ("note",
                   r_str ("Showing schema for "
                          +:+ (if name_given table_name
                               then default "" table_name
                               else "all tables"))) ])
     end)
    (fun e =>
       rio (log ERROR ("Schema retrieval failed: " +:+ exn_str e)) ;;
       ret (reply [ ("success", r_bool false);
                    ("error", r_str ("Schema retrieval failed: " +:+ exn_str e)) ])).

End Tools.

End SchemaOverview.

(** The sample of a formatted table: the first five columns, and a note
    that counts the others when there are more. *)
Definition sample_of_five (t : FormattedTable) : Prop :=
  Z.of_nat (length (ft_sample_columns t)) = Z.min 5 (ft_column_count t)
  /\ (ft_column_count t <= 5 -> ft_note t = None)
  /\ (5 < ft_column_count t ->
      ft_note t = Some ("... and " +:+ PyStr.of_Z (ft_column_count t - 5)
                        +:+ " more columns"))
  /\ Forall (fun col => exists n ty, col = dict_of_pairs [ ("name", n); ("type", ty) ])
            (ft_sample_columns t).

(** The schema of [orders] as [catalog_driver] delivers it. *)
Definition orders_schema_info : SchemaInfo :=
  match fst (get_schema catalog_driver (Some "orders") open_state) with
  | inr info => info
  | inl _ => mkSchemaInfo VNone "" VNone []
  end.

(** ** A row cap that is not positive *)

(** [rows[0:stop]], the slice of a Python list from its start: a
    negative [stop] counts from the end. *)
Definition py_slice_to {A : Type} (stop : Z) (rows : list A) : list A :=
  if 0 <=? stop then take (Z.to_nat stop) rows
  else take (length rows - Z.to_nat (- stop)) rows.

(** [fetchmany] as the cursors of PyMySQL and aiomysql implement it on
    a cursor that has just executed its statement:
    [end = rownumber + (size or arraysize)] and
    [rows[rownumber:end]], with [rownumber] 0 and [arraysize] 1. *)
Definition pymysql_fetchmany (R : Type) (size : Z) (rows : list R) : list R :=
  let arraysize := 1 in
  py_slice_to (if size =? 0 then arraysize else size) rows.

(** The server of [demo_driver] behind cursors that fetch in this
    way. *)
Definition pymysql_driver : Driver Z :=
  {| time_time := time_time demo_driver;
     pymysql_connect := pymysql_connect demo_driver;
     connection_ping := connection_ping demo_driver;
     connection_cursor := connection_cursor demo_driver;
     cursor_execute := cursor_execute demo_driver;
     cursor_fetchmany := pymysql_fetchmany;
     cursor_fetchone := cursor_fetchone demo_driver;
     cursor_close := cursor_close demo_driver;
     connection_autocommit := connection_autocommit demo_driver;
     connection_commit := connection_commit demo_driver;
     connection_close := connection_close demo_driver;
     aiomysql_create_pool := aiomysql_create_pool demo_driver;
     pool_acquire := pool_acquire demo_driver;
     aconn_cursor := aconn_cursor demo_driver;
     acursor_execute := acursor_execute demo_driver;
     acursor_close := acursor_close demo_driver;
     pool_release := pool_release demo_driver;
     pool_close := pool_close demo_driver;
     pool_wait_closed := pool_wait_closed demo_driver;
     config_dir := config_dir demo_driver;
     config_file := config_file demo_driver |}.

(** The number of rows in the result of a run, when the run returned a
    successful result. *)
Definition rows_returned {S : Type} (run : (Exn + QueryResult) * S) : option Z :=
  match fst run with
  | inr r => if success r then Some (Z.of_nat (length (data r))) else None
  | inl _ => None
  end.

(** ** Teardown failures *)

Section TeardownFailure.

Context {World : Type} (drv : Driver World).



End TeardownFailure.


(** * Properties *)

(** ** Worked examples of the string operations *)

Example is_read_select : is_read_query "  SeLeCt * FROM t " = true.
Proof. reflexivity. Qed.

Example is_read_insert : is_read_query "INSERT INTO t VALUES (1)" = false.
Proof. reflexivity. Qed.

Example split_version : PyStr.split "." "8.0.33" = ["8"; "0"; "33"].
Proof. reflexivity. Qed.

Example of_Z_30000 : PyStr.of_Z 30000 = "30000".
Proof. reflexivity. Qed.

Example to_int_33 : PyStr.to_int "33" = Some 33.
Proof. reflexivity. Qed.

Example to_int_bad : PyStr.to_int "4a" = None.
Proof. reflexivity. Qed.

Example to_int_underscore : PyStr.to_int " -1_0 " = Some (-10).
Proof. reflexivity. Qed.

(** ** Reasoning about stateful computations *)

Section MonadFacts.

Context {S : Type}.

Lemma bind_inr {A B : Type} (m : M S A) (k : A -> M S B) s b s' :
  bind m k s = (inr b, s') ->
  exists a s1, m s = (inr a, s1) /\ k a s1 = (inr b, s').
Proof.
  unfold bind. destruct (m s) as [[e|a] s1]; [discriminate|].
  intros H. now exists a, s1.
Qed.

Lemma try_except_inr {A : Type} (body : M S A) (handler : Exn -> M S A) s a s' :
  try_except body handler s = (inr a, s') ->
  body s = (inr a, s')
  \/ exists e s1, body s = (inl e, s1) /\ handler e s1 = (inr a, s').
Proof.
  unfold try_except. destruct (body s) as [[e|a0] s1]; intros H.
  - right. now exists e, s1.
  - now left.
Qed.

Lemma try_finally_inr {A : Type} (body : M S A) (fin : M S unit) s a s' :
  try_finally body fin s = (inr a, s') ->
  exists s1, body s = (inr a, s1) /\ fin s1 = (inr tt, s').
Proof.
  unfold try_finally. destruct (body s) as [r s1] eqn:E.
  destruct (fin s1) as [[e|[]] s2] eqn:F; [discriminate|].
  intros H. inversion H; subst. exists s1. split; [reflexivity | exact F].
Qed.

(** A [try] whose handler returns never raises. *)
Lemma try_except_returns {A : Type} (body : M S A) (handler : Exn -> M S A) :
  (forall e s, exists a s', handler e s = (inr a, s')) ->
  forall s, exists a s', try_except body handler s = (inr a, s').
Proof.
  intros Hh s. unfold try_except. destruct (body s) as [[e|a] s1].
  - apply Hh.
  - now exists a, s1.
Qed.

Context (R : S -> S -> Prop).
Hypothesis R_refl : forall s, R s s.
Hypothesis R_trans : forall s1 s2 s3, R s1 s2 -> R s2 s3 -> R s1 s3.

Lemma preserves_ret {A : Type} (a : A) : preserves R (ret a).
Proof. intros s r s' H. inversion H; subst. apply R_refl. Qed.

Lemma preserves_raise {A : Type} (e : Exn) : preserves R (@raise S A e).
Proof. intros s r s' H. inversion H; subst. apply R_refl. Qed.

Lemma preserves_gets {A : Type} (f : S -> A) : preserves R (gets f).
Proof. intros s r s' H. inversion H; subst. apply R_refl. Qed.

Lemma preserves_bind {A B : Type} (m : M S A) (k : A -> M S B) :
  preserves R m -> (forall a, preserves R (k a)) -> preserves R (bind m k).
Proof.
  intros Hm Hk s r s'. unfold bind.
  destruct (m s) as [[e|a] s1] eqn:E; intros H.
  - inversion H; subst. eapply Hm, E.
  - eapply R_trans; [eapply Hm, E | eapply Hk, H].
Qed.

Lemma preserves_try_except {A : Type} (body : M S A) (handler : Exn -> M S A) :
  preserves R body -> (forall e, preserves R (handler e)) ->
  preserves R (try_except body handler).
Proof.
  intros Hb Hh s r s'. unfold try_except.
  destruct (body s) as [[e|a] s1] eqn:E; intros H.
  - eapply R_trans; [eapply Hb, E | eapply Hh, H].
  - inversion H; subst. eapply Hb, E.
Qed.

Lemma preserves_try_finally {A : Type} (body : M S A) (fin : M S unit) :
  preserves R body -> preserves R fin -> preserves R (try_finally body fin).
Proof.
  intros Hb Hf s r s'. unfold try_finally.
  destruct (body s) as [r1 s1] eqn:E.
  destruct (fin s1) as [[e|u] s2] eqn:F; intros H; inversion H; subst;
    (eapply R_trans; [eapply Hb, E | eapply Hf, F]).
Qed.

Lemma preserves_when (c : bool) (body : M S unit) :
  preserves R body -> preserves R (when c body).
Proof. intros H. destruct c; [exact H | apply preserves_ret]. Qed.

End MonadFacts.

Section GrowsFacts.

Context {World : Type} (drv : Driver World) (ok : Call -> Prop).

Local Abbreviation grows_ok := (@grows World ok).

Lemma grows_refl (s : @MState World) : grows ok s s.
Proof.
  repeat split; try reflexivity.
  - exists []. split; [now rewrite app_nil_r | constructor].
  - exists []. now rewrite app_nil_r.
Qed.

Lemma grows_trans (s1 s2 s3 : @MState World) :
  grows ok s1 s2 -> grows ok s2 s3 -> grows ok s1 s3.
Proof.
  intros (Hs & He & (cl & Hc & Hok) & (ll & Hl))
         (Hs' & He' & (cl' & Hc' & Hok') & (ll' & Hl')).
  repeat split; try congruence.
  - exists (cl ++ cl'). split.
    + rewrite Hc', Hc. now rewrite app_assoc.
    + apply Forall_app; now split.
  - exists (ll ++ ll'). rewrite Hl', Hl. now rewrite app_assoc.
Qed.

Lemma grows_ret {A : Type} (a : A) : preserves grows_ok (ret a).
Proof. apply preserves_ret, grows_refl. Qed.

Lemma grows_raise {A : Type} (e : Exn) : preserves grows_ok (@raise _ A e).
Proof. apply preserves_raise, grows_refl. Qed.

Lemma grows_bind {A B : Type} (m : Meth A) (k : A -> Meth B) :
  preserves grows_ok m -> (forall a, preserves grows_ok (k a)) ->
  preserves grows_ok (bind m k).
Proof. apply preserves_bind, grows_trans. Qed.

Lemma grows_try_except {A : Type} (body : Meth A) (handler : Exn -> Meth A) :
  preserves grows_ok body -> (forall e, preserves grows_ok (handler e)) ->
  preserves grows_ok (try_except body handler).
Proof. apply preserves_try_except, grows_trans. Qed.

Lemma grows_try_finally {A : Type} (body : Meth A) (fin : Meth unit) :
  preserves grows_ok body -> preserves grows_ok fin ->
  preserves grows_ok (try_finally body fin).
Proof. apply preserves_try_finally, grows_trans. Qed.

Lemma grows_when (c : bool) (body : Meth unit) :
  preserves grows_ok body -> preserves grows_ok (when c body).
Proof. apply preserves_when, grows_refl. Qed.

Lemma grows_attr {A : Type} (f : MySQLConnection -> A) : preserves grows_ok (attr f).
Proof. apply preserves_gets, grows_refl. Qed.

Lemma grows_log lv msg : preserves grows_ok (io_ (log lv msg)).
Proof.
  intros [i o] r s' H. inversion H; subst. repeat split; cbn.
  - exists []. split; [now rewrite app_nil_r | constructor].
  - now eexists.
Qed.

Lemma grows_io_gets {A : Type} (f : IO World -> A) : preserves grows_ok (io_ (gets f)).
Proof. intros [i o] r s' H. inversion H; subst. apply grows_refl. Qed.

Lemma grows_observe {A : Type} (f : World -> A * World) :
  preserves grows_ok (io_ (observe f)).
Proof.
  intros [i o] r s'. unfold io_, zoom, observe. cbn.
  destruct (f (world i)) as [a w]. intros H. inversion H; subst.
  repeat split; cbn.
  - exists []. split; [now rewrite app_nil_r | constructor].
  - exists []. now rewrite app_nil_r.
Qed.

Lemma grows_clock : preserves grows_ok (clock drv).
Proof. apply grows_observe. Qed.

Lemma grows_call {A : Type} (c : Call) (f : World -> (Exn + A) * World) :
  ok c -> preserves grows_ok (io_ (call c f)).
Proof.
  intros Hc [i o] r s'. unfold io_, zoom, call. cbn.
  destruct (f (world i)) as [a w]. intros H. inversion H; subst.
  repeat split; cbn.
  - exists [c]. split; [reflexivity | now constructor].
  - exists []. now rewrite app_nil_r.
Qed.

Lemma grows_call_ (c : Call) (f : World -> option Exn * World) :
  ok c -> preserves grows_ok (io_ (call_ c f)).
Proof. apply grows_call. Qed.

Lemma grows_call_total (c : Call) (f : World -> World) :
  ok c -> preserves grows_ok (io_ (call_total c f)).
Proof. apply grows_call. Qed.

Lemma grows_wait_for {A : Type} (c : Call) (f : World -> Awaited A * World) :
  ok c -> preserves grows_ok (io_ (wait_for c f)).
Proof. apply grows_call. Qed.

Lemma grows_py_int (s : string) : preserves grows_ok (@py_int World s).
Proof. unfold py_int. destruct (PyStr.to_int s); [apply grows_ret | apply grows_raise]. Qed.

End GrowsFacts.

(** Decomposition of a computation into steps that each preserve
    [grows]. *)
Ltac frame_step :=
  first
    [ apply grows_ret | apply grows_raise | apply grows_attr | apply grows_log
    | apply grows_io_gets | apply grows_clock | apply grows_observe
    | apply grows_py_int
    | apply grows_bind; [|intros ?]
    | apply grows_try_except; [|intros ?]
    | apply grows_try_finally
    | apply grows_when
    | apply grows_call_ | apply grows_call_total | apply grows_wait_for
    | apply grows_call
    | match goal with
      | |- preserves _ (match ?x with _ => _ end) => destruct x
      end ].

(** Unfolding of the combinators of stateful computations. *)
Ltac unfold_monad :=
  unfold clock, getitem, py_int, query_handlers, try_except_value_error in *;
  unfold try_finally, try_except, bind, ret, raise, gets, modify, when,
         io_, attr, assign, zoom, call_, call_total, wait_for, observe, log in *;
  unfold call, modify in *.

(** One step of symbolic execution: split on the next driver answer or
    attribute the computation inspects. *)
Ltac step :=
  cbn in *;
  match goal with
  | |- context [match ?x with _ => _ end] =>
      lazymatch x with
      | context [match _ with _ => _ end] => fail
      | _ => destruct x eqn:?
      end
  end.

(** ** Connecting with an invalid configuration *)

Section ConnectFacts.

Context {World : Type} (drv : Driver World).

Lemma get_password_unset config var (st : @MState World) :
  config !! "password" = Some (VStr ("env:" +:+ var)) ->
  environ (io st) !! var = None ->
  _get_password config st =
    (inl (DatabaseConfigError ("Environment variable " +:+ var +:+ " not set")), st).
Proof.
  intros Hpw Henv. unfold _get_password, dict_get_default. rewrite Hpw.
  change ("env:" +:+ var) with (String "e" (String "n" (String "v" (String ":" var)))).
  destruct st as [i o]. cbn in *.
  unfold bind, io_, zoom, getenv, gets. cbn.
  replace (String.prefix "" var) with true by (now destruct var).
  cbn. rewrite Henv. reflexivity.
Qed.

(** The validation that opens [connect] raises a configuration error
    on an invalid configuration, and changes nothing. *)
Lemma validation_rejects config (st : @MState World) {A} (k : PyVal -> Meth A) :
  invalid_config (environ (io st)) config ->
  exists msg,
    (for_each required_keys (fun key =>
       match config !! key with
       | None => raise (DatabaseConfigError ("Missing required config key: " +:+ key))
       | Some _ => ret tt
       end) ;;
     password <- _get_password config ;; k password)%py st
    = (inl (DatabaseConfigError msg), st).
Proof.
  intros Hbad. unfold required_keys. simpl. unfold bind at 1 2 3.
  destruct (config !! "host") eqn:Hh; [|eexists; reflexivity].
  destruct (config !! "user") eqn:Hu; [|eexists; reflexivity].
  destruct (config !! "database") eqn:Hd; [|eexists; reflexivity].
  simpl. destruct Hbad as [(key & Hin & Hk) | (var & Hpw & Henv)].
  - simpl in Hin. destruct Hin as [<-|[<-|[<-|[]]]]; congruence.
  - unfold bind. rewrite (get_password_unset _ _ _ Hpw Henv). eexists; reflexivity.
Qed.

End ConnectFacts.

(** C1: on an invalid configuration the blocking [connect] fails before
    any call reaches the driver, but the error it raises is a
    [DatabaseConnectionError]: the [DatabaseConfigError] of the
    validation is caught by the [except Exception] clause of [connect]
    and wrapped. *)
Theorem C1_invalid_config_raises_connection_error :
  forall (World : Type) (drv : Driver World) (cfg : gmap string PyVal)
         (st : @MState World),
    invalid_config (environ (io st)) cfg ->
    exists msg st',
      connect drv cfg st =
        (inl (DatabaseConnectionError ("Unexpected connection error: " +:+ msg)), st')
      /\ is_config_error
           (DatabaseConnectionError ("Unexpected connection error: " +:+ msg)) = false
      /\ calls (io st') = calls (io st)
      /\ world (io st') = world (io st).
Proof.
  intros World drv cfg st Hbad. unfold connect, try_except.
  match goal with
  | |- context [ (for_each _ _ ;; password <- _get_password cfg ;; @?k password)%py ] =>
      destruct (validation_rejects cfg st k Hbad) as [msg Hmsg]
  end.
  rewrite Hmsg. exists msg. eexists. split; [reflexivity|].
  split; [reflexivity|]. destruct st as [i o]. split; reflexivity.
Qed.

Lemma C1_unset_password_witness :
  exists msg st',
    connect demo_driver demo_config (mkMState demo_io (new_connection "c")) =
      (inl (DatabaseConnectionError ("Unexpected connection error: " +:+ msg)), st')
    /\ is_config_error
         (DatabaseConnectionError ("Unexpected connection error: " +:+ msg)) = false
    /\ calls (io st') = calls demo_io
    /\ world (io st') = world demo_io.
Proof.
  apply (C1_invalid_config_raises_connection_error Z demo_driver demo_config
           (mkMState demo_io (new_connection "c"))).
  right. exists "PW". split; reflexivity.
Defined.

(** The scenario of the specification, evaluated: host, user and
    database are given, the password refers to the unset variable PW. *)
Example connect_unset_password :
  fst (connect demo_driver demo_config (mkMState demo_io (new_connection "c")))
  = inl (DatabaseConnectionError
           "Unexpected connection error: Environment variable PW not set").
Proof. vm_compute. reflexivity. Qed.

Example connect_missing_host :
  fst (connect demo_driver (delete "host" demo_config)
         (mkMState demo_io (new_connection "c")))
  = inl (DatabaseConnectionError
           "Unexpected connection error: Missing required config key: host").
Proof. vm_compute. reflexivity. Qed.

(** ** Query execution *)

Section QueryFacts.

Context {World : Type} (drv : Driver World).

Ltac solve_statement_call := unfold statement_call; cbn; auto.

(** [execute_query] leaves the connection object alone and sends no
    statement but its own and the timeout directive. *)
Lemma execute_query_grows query params max_rows timeout :
  preserves (grows (statement_call query timeout))
            (execute_query drv query params max_rows timeout).
Proof.
  unfold execute_query, set_session_timeout, read_result, query_handlers,
         try_except_value_error.
  repeat frame_step; solve_statement_call.
Qed.

Lemma async_execute_query_grows query params max_rows timeout :
  preserves (grows (statement_call query timeout))
            (async_execute_query drv query params max_rows timeout).
Proof.
  unfold async_execute_query, async_read_result.
  repeat frame_step; solve_statement_call.
Qed.

Ltac invert_bind H :=
  let a := fresh "a" in
  let s := fresh "s" in
  let E := fresh "E" in
  apply bind_inr in H as (a & s & E & H).

Lemma io_call_answer {A : Type} (c : Call) (f : World -> (Exn + A) * World)
    (s s' : @MState World) (a : A) :
  io_ (call c f) s = (inr a, s') ->
  f (world (io s)) = (inr a, world (io s')) /\ In c (calls (io s')).
Proof.
  destruct s as [i o]. unfold io_, zoom, call. cbn.
  destruct (f (world i)) as [r w]. intros H. inversion H; subst. cbn.
  split; [reflexivity|]. apply in_app_iff. right. now left.
Qed.

Lemma grows_logs ok (s s' : @MState World) (r : LogRecord) :
  grows ok s s' -> In r (logs (io s)) -> In r (logs (io s')).
Proof.
  intros (_ & _ & _ & (ll & Hl)) Hin. rewrite Hl. apply in_app_iff. now left.
Qed.

(** What [read_result] returns, and what it logs. *)
Lemma read_result_inr query max_rows t cs (s s' : @MState World) r :
  read_result drv query max_rows t cs s = (inr r, s') ->
  let rows := cursor_fetchmany drv Row max_rows (cs_rows cs) in
  let data := omap (row_to_dict (cs_description cs)) rows in
  r = mkQueryResult true data (column_names (cs_description cs))
                    (Z.of_nat (length data)) t None (Some query)
  /\ (Z.of_nat (length rows) = max_rows ->
      In (mkLog INFO (truncation_warning max_rows)) (logs (io s'))).
Proof.
  unfold read_result. intros H. invert_bind H. inversion H; subst. cbn.
  split; [reflexivity|]. intros Hcap. apply Z.eqb_eq in Hcap.
  rewrite Hcap in E. destruct s as [i o]. inversion E; subst. cbn.
  apply in_app_iff. right. now left.
Qed.

Lemma async_read_result_inr query max_rows start cs (s s' : @MState World) r :
  async_read_result drv query max_rows start cs s = (inr r, s') ->
  let data := cursor_fetchmany drv (gmap string PyVal) max_rows (cs_rows cs) in
  (exists t, r = mkQueryResult true data (column_names (cs_description cs))
                               (Z.of_nat (length data)) t None (Some query))
  /\ (Z.of_nat (length data) = max_rows ->
      In (mkLog INFO (truncation_warning max_rows)) (logs (io s'))).
Proof.
  unfold async_read_result. intros H. invert_bind H. invert_bind H.
  inversion H; subst. cbn. split; [eexists; reflexivity|].
  intros Hcap. apply Z.eqb_eq in Hcap. rewrite Hcap in E.
  eapply (grows_logs (fun _ => True)); [eapply grows_clock, E0|].
  destruct s as [i o]. inversion E; subst. cbn.
  apply in_app_iff. right. now left.
Qed.

(** A call of [execute_query] that returns has run its statement on the
    blocking session, and returns the result built from the answer of
    the driver. *)
Lemma execute_query_inr query params max_rows timeout (st st' : @MState World) r :
  execute_query drv query params max_rows timeout st = (inr r, st') ->
  exists c cs t s1 s2,
    _connection (self st) = Some c
    /\ cursor_execute drv c query (sync_args params) (world (io s1))
       = (inr cs, world (io s2))
    /\ (exists s3 s4,
          (if is_read_query query
           then read_result drv query max_rows t cs s3 = (inr r, s4)
           else r = write_result query t cs)
          /\ (is_read_query query = true -> grows (fun _ => True) s4 st')).
Proof.
  intros H. unfold execute_query in H.
  invert_bind H. invert_bind H.
  pose proof (grows_clock drv (fun _ => True) _ _ _ E) as (Hself & _).
  inversion E0; subst. rewrite Hself in H.
  destruct (_connection (self st)) as [c|]; [|discriminate H].
  apply bind_inr in H as (u0 & sa & _ & H).
  apply try_finally_inr in H as (sz & H & Hclose).
  apply try_except_inr in H as [H | (e & sb & _ & Hh)]; [|discriminate Hh].
  apply bind_inr in H as (u1 & sb & _ & H).
  apply bind_inr in H as (execute_start & sc & _ & H).
  apply bind_inr in H as (cs & sd & Hexec & H).
  apply bind_inr in H as (now & se & _ & H).
  apply bind_inr in H as (result & sf & Hres & H).
  apply bind_inr in H as (autocommit & sg & Hauto & H).
  apply bind_inr in H as (u2 & sh & Hcommit & H).
  apply bind_inr in H as (now' & si & Hclock & H).
  apply bind_inr in H as (u3 & sj & Hlog & H).
  inversion H; subst. clear H.
  apply io_call_answer in Hexec as [Hans _].
  exists c, cs, (now - execute_start), sc, sd.
  split; [reflexivity|]. split; [exact Hans|].
  unfold is_read_query.
  destruct (PyStr.startswith_any (PyStr.lower (PyStr.strip query)) read_keywords).
  - exists se, sf. split; [exact Hres|]. intros _.
    eapply grows_trans; [eapply grows_io_gets, Hauto|].
    eapply grows_trans; [eapply grows_when; [|exact Hcommit]; now apply grows_call_|].
    eapply grows_trans; [eapply grows_clock, Hclock|].
    eapply grows_trans; [eapply grows_log, Hlog|].
    eapply grows_call_; [|exact Hclose]. exact I.
  - inversion Hres; subst. exists sf, sf. split; [reflexivity | discriminate].
Qed.

Lemma io_wait_for_answer {A : Type} (c : Call) (f : World -> Awaited A * World)
    (s s' : @MState World) (a : A) :
  io_ (wait_for c f) s = (inr a, s') ->
  f (world (io s)) = (Completed a, world (io s')).
Proof.
  destruct s as [i o]. unfold io_, zoom, wait_for, call. cbn.
  destruct (f (world i)) as [[a'|e|] w]; intros H; inversion H; subst; reflexivity.
Qed.

(** A call of [async_execute_query] that returns a successful result
    has run its statement on a pooled session. *)
Lemma async_execute_query_success query params max_rows timeout
    (st st' : @MState World) r :
  async_execute_query drv query params max_rows timeout st = (inr r, st') ->
  success r = true ->
  exists conn cs start s1 s2,
    acursor_execute drv conn query (async_args params) timeout (world (io s1))
    = (Completed cs, world (io s2))
    /\ (exists s3 s4,
          (if is_read_query query
           then async_read_result drv query max_rows start cs s3 = (inr r, s4)
           else exists t, r = write_result query t cs)
          /\ (is_read_query query = true -> grows (fun _ => True) s4 st')).
Proof.
  intros H Hsucc. unfold async_execute_query in H.
  apply bind_inr in H as (start & sa & _ & H).
  apply bind_inr in H as (pool & sb & _ & H).
  destruct pool as [p|]; [|discriminate H].
  apply bind_inr in H as (conn & sc & _ & H).
  apply try_finally_inr in H as (sy & H & Hrelease).
  apply bind_inr in H as (u0 & sd & _ & H).
  apply try_finally_inr in H as (sx & H & Hclose).
  apply try_except_inr in H as [H | (e & se & _ & Hh)].
  - apply bind_inr in H as (cs & se & Hexec & H).
    apply io_wait_for_answer in Hexec.
    exists conn, cs, start, sd, se. split; [exact Hexec|].
    unfold is_read_query.
    destruct (PyStr.startswith_any (PyStr.lower (PyStr.strip query)) read_keywords).
    + exists se, sx. split; [exact H|]. intros _.
      eapply grows_trans; [eapply grows_call_total; [|exact Hclose]; exact I|].
      eapply grows_call_total; [|exact Hrelease]. exact I.
    + apply bind_inr in H as (now & sf & _ & H). inversion H; subst.
      exists sx, sx. split; [now eexists | discriminate].
  - destruct (is_asyncio_timeout e).
    + apply bind_inr in Hh as (now & sf & _ & Hh).
      apply bind_inr in Hh as (u1 & sg & _ & Hh). discriminate Hh.
    + apply bind_inr in Hh as (now & sf & _ & Hh).
      apply bind_inr in Hh as (u1 & sg & _ & Hh). inversion Hh; subst.
      discriminate Hsucc.
Qed.

Lemma length_omap_le {A B : Type} (f : A -> option B) (l : list A) :
  (length (omap f l) <= length l)%nat.
Proof.
  induction l as [|x l IH]; cbn; [lia|]. destruct (f x); cbn; lia.
Qed.

End QueryFacts.

Lemma demo_driver_capped : fetchmany_capped demo_driver.
Proof.
  intros R size rows Hpos. cbn. rewrite length_take. lia.
Qed.

Example demo_read_two_sync :
  fst (execute_query demo_driver "SELECT id FROM t" None 2 30 open_state)
  = inr demo_read_two.
Proof. vm_compute. reflexivity. Qed.


(** The two runs differ in the log alone: the warning is there under
    the cap of three and absent under the cap of one thousand. *)
Example truncation_shows_in_the_log :
  List.filter is_info
         (logs (io (snd (execute_query demo_driver "SELECT id FROM t" None 3 30
                           open_state))))
  = [mkLog INFO (truncation_warning 3)]
  /\ List.filter is_info
            (logs (io (snd (execute_query demo_driver "SELECT id FROM t" None 1000 30
                              open_state))))
     = [].
Proof. split; vm_compute; reflexivity. Qed.



(** C3: in the non-blocking model, once a pooled session and its cursor
    are at hand, a statement that exceeds the timeout makes
    [async_execute_query] raise [DatabaseTimeoutError], a
    [DatabaseQueryError] of its own class; a statement that fails for
    another reason makes it return, without raising, a result with
    [success] false, no data, a row count of zero and a non-empty error
    message. *)
Theorem C3_async_timeout_raises_failure_returns :
  forall (World : Type) (drv : Driver World) (st : @MState World)
         (query : string) (params : option Params) (max_rows timeout : Z)
         (p : Pool) (t0 : Z) (w1 : World) (conn : Session) (w2 w3 : World)
         (answer : Awaited (CursorState (gmap string PyVal))) (w4 : World),
    _async_pool (self st) = Some p ->
    time_time drv (world (io st)) = (t0, w1) ->
    pool_acquire drv p w1 = (inr conn, w2) ->
    aconn_cursor drv conn w2 = (None, w3) ->
    acursor_execute drv conn query (async_args params) timeout w3 = (answer, w4) ->
    (answer = TimedOut ->
     exists e st',
       async_execute_query drv query params max_rows timeout st = (inl e, st')
       /\ e = DatabaseTimeoutError
                ("Query timeout after " +:+ PyStr.of_Z timeout +:+ " seconds")
       /\ is_timeout_error e = true /\ is_query_error e = true)
    /\ (forall e, answer = Failed e -> is_asyncio_timeout e = false ->
        exists r st',
          async_execute_query drv query params max_rows timeout st = (inr r, st')
          /\ success r = false /\ data r = [] /\ row_count r = 0
          /\ error_message r = Some ("Query execution failed: " +:+ exn_str e)
          /\ "Query execution failed: " +:+ exn_str e <> "").
Proof.
  intros World drv [i o] query params max_rows timeout p t0 w1 conn w2 w3
         answer w4 Hpool Hclock Hacq Hcur Hexec.
  cbn in Hpool, Hclock. split.
  - intros ->. unfold async_execute_query. unfold_monad. cbn.
    rewrite Hclock. cbn. rewrite Hpool. cbn. rewrite Hacq. cbn. rewrite Hcur. cbn.
    rewrite Hexec. cbn. destruct (time_time drv w4) as [t4 w5].
    do 2 eexists. repeat split; reflexivity.
  - intros e -> Hnot. unfold async_execute_query. unfold_monad. cbn.
    rewrite Hclock. cbn. rewrite Hpool. cbn. rewrite Hacq. cbn. rewrite Hcur. cbn.
    rewrite Hexec. cbn. rewrite Hnot. cbn. destruct (time_time drv w4) as [t4 w5].
    do 2 eexists. repeat (split; [reflexivity|]). intros H. cbv in H. discriminate H.
Qed.

Lemma C3_async_timeout_witness :
  exists e st',
    async_execute_query (driver_answering TimedOut) "SELECT SLEEP(60)" None 1000 30
                        open_state = (inl e, st')
    /\ e = DatabaseTimeoutError ("Query timeout after " +:+ PyStr.of_Z 30 +:+ " seconds")
    /\ is_timeout_error e = true /\ is_query_error e = true.
Proof.
  apply (proj1 (C3_async_timeout_raises_failure_returns Z (driver_answering TimedOut)
                  open_state "SELECT SLEEP(60)" None 1000 30
                  2%nat 0 1 3%nat 1 1 TimedOut 1
                  eq_refl eq_refl eq_refl eq_refl eq_refl)).
  reflexivity.
Defined.

Example async_failure_is_returned :
  fst (async_execute_query (driver_answering (Failed (PyMySQLError "(1064, syntax)")))
         "SELEC 1" None 1000 30 open_state)
  = inr (mkQueryResult false [] [] 0 1
           (Some "Query execution failed: (1064, syntax)") (Some "SELEC 1")).
Proof. vm_compute. reflexivity. Qed.

(** ** Statement classification *)

Module ClassifyFacts.

Import PyStr.

Lemma isspace_lower_char c : isspace (lower_char c) = isspace c.
Proof. destruct c as [[] [] [] [] [] [] [] []]; reflexivity. Qed.

Lemma lower_app s t : lower (s +:+ t) = lower s +:+ lower t.
Proof. induction s as [|c s IH]; simpl; [reflexivity | now rewrite IH]. Qed.

Lemma lower_empty s : lower s = "" <-> s = "".
Proof. destruct s; simpl; split; intros H; congruence. Qed.

Lemma lower_lstrip s : lower (lstrip s) = lstrip (lower s).
Proof.
  induction s as [|c s IH]; simpl; [reflexivity|].
  rewrite isspace_lower_char. destruct (isspace c); [exact IH | reflexivity].
Qed.

Lemma lower_rstrip s : lower (rstrip s) = rstrip (lower s).
Proof.
  induction s as [|c s IH]; simpl; [reflexivity|].
  rewrite <- IH, isspace_lower_char.
  destruct (rstrip s) as [|d r]; simpl; [|reflexivity].
  destruct (isspace c); reflexivity.
Qed.

Lemma lower_strip s : lower (strip s) = strip (lower s).
Proof. unfold strip. now rewrite lower_rstrip, lower_lstrip. Qed.

Lemma prefix_iff p s : String.prefix p s = true <-> exists r, s = p +:+ r.
Proof.
  revert s; induction p as [|c p IH]; intros s.
  - split; [intros _; now exists s | intros _; now destruct s].
  - destruct s as [|d s]; simpl.
    + split; [discriminate | intros [r Hr]; discriminate Hr].
    + destruct (ascii_dec c d) as [->|Hne].
      * rewrite IH. split; intros [r Hr]; exists r.
        -- now rewrite Hr.
        -- now injection Hr.
      * split; [discriminate | intros [r Hr]; injection Hr; congruence].
Qed.

Lemma startswith_any_iff s ps :
  startswith_any s ps = true <-> exists p r, In p ps /\ s = p +:+ r.
Proof.
  unfold startswith_any, startswith. rewrite existsb_exists. split.
  - intros (p & Hin & Hp). apply prefix_iff in Hp as [r Hr]. now exists p, r.
  - intros (p & r & Hin & Hr). exists p. split; [exact Hin|].
    apply prefix_iff. now exists r.
Qed.

(** The first token of a string opens its right-stripped form. *)
Lemma take_nonspace_rstrip s : exists r, rstrip s = take_nonspace s +:+ r.
Proof.
  induction s as [|c s [r IH]]; simpl; [now exists ""|].
  destruct (isspace c) eqn:Hc.
  - eexists; reflexivity.
  - rewrite IH. destruct (take_nonspace s +:+ r) as [|d t] eqn:E.
    + destruct (take_nonspace s); [|discriminate E]. now exists "".
    + exists r. now rewrite <- E.
Qed.

Lemma first_token_strip q : exists r, strip q = first_token q +:+ r.
Proof. apply take_nonspace_rstrip. Qed.

End ClassifyFacts.

(** C4 (as stated): a statement is a read exactly when its first
    whitespace-delimited token is one of the four keywords.  The code
    tests a prefix of the trimmed statement instead, so the statement
    [showcase], whose first token is no keyword, is classified as a
    read. *)
Lemma C4_showcase_counterexample :
  token_is_read "showcase" = false /\ is_read_query "showcase" = true.
Proof. split; reflexivity. Qed.

(** C4 (amended): the classification looks only at the trimmed,
    lower-cased statement and makes it a read exactly when that text
    starts with one of [select], [show], [describe], [explain]; it is
    therefore insensitive to case, and every statement whose first token
    is a keyword is a read. *)
Theorem C4_classification_by_prefix :
  (forall q, is_read_query q = true <->
             exists kw rest, In kw read_keywords /\
                             PyStr.lower (PyStr.strip q) = kw +:+ rest)
  /\ (forall q1 q2, PyStr.lower q1 = PyStr.lower q2 ->
                    is_read_query q1 = is_read_query q2)
  /\ (forall q, token_is_read q = true -> is_read_query q = true).
Proof.
  split; [|split].
  - intros q. unfold is_read_query. apply ClassifyFacts.startswith_any_iff.
  - intros q1 q2 H. unfold is_read_query.
    now rewrite !ClassifyFacts.lower_strip, H.
  - intros q H. unfold token_is_read in H.
    apply existsb_exists in H as (kw & Hin & Hkw).
    apply String.eqb_eq in Hkw.
    unfold is_read_query. apply ClassifyFacts.startswith_any_iff.
    destruct (ClassifyFacts.first_token_strip q) as [r Hr].
    exists kw, (PyStr.lower r). split; [exact Hin|].
    now rewrite Hr, ClassifyFacts.lower_app, Hkw.
Qed.

Lemma C4_classification_witness :
  is_read_query "  SeLeCt 1" = is_read_query "  select 1"
  /\ is_read_query "Show Tables" = true.
Proof.
  split.
  - apply (proj1 (proj2 C4_classification_by_prefix)). reflexivity.
  - apply (proj2 (proj2 C4_classification_by_prefix)). reflexivity.
Defined.

Lemma pymysql_driver_capped : fetchmany_capped pymysql_driver.
Proof.
  intros R size rows Hpos. cbn. unfold pymysql_fetchmany, py_slice_to.
  destruct (size =? 0) eqn:E; [apply Z.eqb_eq in E; lia|].
  destruct (0 <=? size) eqn:F; [|apply Z.leb_gt in F; lia].
  rewrite length_take. lia.
Qed.

(** C5 (as stated): every read returns at most [max_rows] rows.  The
    cap is handed to [fetchmany] as it comes.  On cursors that fetch as
    those of PyMySQL and aiomysql do, a read over three rows with a cap
    of zero returns one row, and with a cap of minus one it returns two,
    in both execution models. *)
Lemma C5_zero_cap_counterexample :
  fetchmany_capped pymysql_driver
  /\ is_read_query "SELECT id FROM t" = true
  /\ rows_returned (execute_query pymysql_driver "SELECT id FROM t" None 0 30
                      open_state) = Some 1
  /\ rows_returned (async_execute_query pymysql_driver "SELECT id FROM t" None 0 30
                      open_state) = Some 1
  /\ rows_returned (execute_query pymysql_driver "SELECT id FROM t" None (-1) 30
                      open_state) = Some 2
  /\ rows_returned (async_execute_query pymysql_driver "SELECT id FROM t" None (-1) 30
                      open_state) = Some 2
  /\ ~ (1 <= 0) /\ ~ (2 <= -1).
Proof.
  split; [exact pymysql_driver_capped|].
  repeat split; try (vm_compute; reflexivity); lia.
Qed.

(** C5 (what the code does): a read that executes successfully, in
    either execution model, returns a result whose row count is the
    number of its rows.  That number is at most [max_rows] for a
    positive [max_rows], given that the driver's [fetchmany] returns at
    most the number of rows it is asked for.  With a cap of zero, on
    cursors that fetch as those of PyMySQL and aiomysql do, the result
    holds the first row of the cursor the statement was executed on:
    one row, wherever the server returned any. *)
Theorem C5_read_rows_capped_and_counted :
  forall (World : Type) (drv : Driver World) (query : string)
         (params : option Params) (max_rows timeout : Z)
         (st st' : @MState World) (r : QueryResult),
    is_read_query query = true ->
    (execute_query drv query params max_rows timeout st = (inr r, st')
     \/ (async_execute_query drv query params max_rows timeout st = (inr r, st')
         /\ success r = true)) ->
    row_count r = Z.of_nat (length (data r))
    /\ (fetchmany_capped drv -> 0 < max_rows ->
        Z.of_nat (length (data r)) <= max_rows)
    /\ ((forall (R : Type) (size : Z) (rows : list R),
           cursor_fetchmany drv R size rows = pymysql_fetchmany R size rows) ->
        max_rows = 0 ->
        (execute_query drv query params max_rows timeout st = (inr r, st') ->
         exists c cs w w',
           cursor_execute drv c query (sync_args params) w = (inr cs, w')
           /\ data r = omap (row_to_dict (cs_description cs)) (take 1 (cs_rows cs)))
        /\ (async_execute_query drv query params max_rows timeout st = (inr r, st') ->
            success r = true ->
            exists conn cs w w',
              acursor_execute drv conn query (async_args params) timeout w
              = (Completed cs, w')
              /\ data r = take 1 (cs_rows cs))).
Proof.
  intros World drv query params max_rows timeout st st' r Hread Hrun.
  split; [|split].
  - destruct Hrun as [H | [H Hs]].
    + apply execute_query_inr in H
        as (c & cs & t & s1 & s2 & _ & _ & (s3 & s4 & Hres & _)).
      rewrite Hread in Hres. apply read_result_inr in Hres as [-> _]. reflexivity.
    + apply async_execute_query_success in H
        as (conn & cs & start & s1 & s2 & _ & (s3 & s4 & Hres & _)); [|exact Hs].
      rewrite Hread in Hres. apply async_read_result_inr in Hres as [[t ->] _].
      reflexivity.
  - intros Hcap Hpos. destruct Hrun as [H | [H Hs]].
    + apply execute_query_inr in H
        as (c & cs & t & s1 & s2 & _ & _ & (s3 & s4 & Hres & _)).
      rewrite Hread in Hres. apply read_result_inr in Hres as [-> _]. cbn.
      pose proof (length_omap_le (row_to_dict (cs_description cs))
                    (cursor_fetchmany drv Row max_rows (cs_rows cs))).
      pose proof (Hcap Row max_rows (cs_rows cs) Hpos). lia.
    + apply async_execute_query_success in H
        as (conn & cs & start & s1 & s2 & _ & (s3 & s4 & Hres & _)); [|exact Hs].
      rewrite Hread in Hres. apply async_read_result_inr in Hres as [[t ->] _]. cbn.
      now apply Hcap.
  - intros Hfetch Hzero. subst max_rows. split.
    + intros H. apply execute_query_inr in H
        as (c & cs & t & s1 & s2 & _ & Hans & (s3 & s4 & Hres & _)).
      rewrite Hread in Hres. apply read_result_inr in Hres as [-> _]. cbn.
      exists c, cs, (world (io s1)), (world (io s2)).
      split; [exact Hans|]. now rewrite Hfetch.
    + intros H Hs. apply async_execute_query_success in H
        as (conn & cs & start & s1 & s2 & Hans & (s3 & s4 & Hres & _)); [|exact Hs].
      rewrite Hread in Hres. apply async_read_result_inr in Hres as [[t ->] _]. cbn.
      exists conn, cs, (world (io s1)), (world (io s2)).
      split; [exact Hans|]. now rewrite Hfetch.
Qed.

Lemma C5_read_rows_witness :
  (row_count demo_read_two = Z.of_nat (length (data demo_read_two))
   /\ Z.of_nat (length (data demo_read_two)) <= 2)
  /\ exists c cs w w',
       cursor_execute pymysql_driver c "SELECT id FROM t" (sync_args None) w
       = (inr cs, w')
       /\ [ {[ "id" := VInt 1 ]} ]
          = omap (row_to_dict (cs_description cs)) (take 1 (cs_rows cs)).
Proof.
  split.
  - destruct (C5_read_rows_capped_and_counted Z demo_driver "SELECT id FROM t" None
                2 30 open_state
                (snd (execute_query demo_driver "SELECT id FROM t" None 2 30
                        open_state))
                demo_read_two) as (Hcount & Hcap & _).
    + reflexivity.
    + left. vm_compute. reflexivity.
    + split; [exact Hcount|]. apply Hcap; [exact demo_driver_capped | lia].
  - destruct (C5_read_rows_capped_and_counted Z pymysql_driver "SELECT id FROM t" None
                0 30 open_state
                (snd (execute_query pymysql_driver "SELECT id FROM t" None 0 30
                        open_state))
                (mkQueryResult true [ {[ "id" := VInt 1 ]} ] ["id"] 1 1 None
                               (Some "SELECT id FROM t")))
      as (_ & _ & Hzero).
    + reflexivity.
    + left. vm_compute. reflexivity.
    + destruct (Hzero (fun _ _ _ => eq_refl) eq_refl) as [Hsync _].
      apply Hsync. vm_compute. reflexivity.
Defined.



(** ** The connection registry *)

Section RegistryFacts.

Context {World : Type} (drv : Driver World).

Lemma get_set_same {V : Type} (k : string) (v : V) (d : PyDict.t V) :
  PyDict.get k (PyDict.set k v d) = Some v.
Proof.
  induction d as [|[k' v'] d IH]; cbn.
  - now rewrite String.eqb_refl.
  - destruct (String.eqb k k') eqn:E; cbn; rewrite ?String.eqb_refl, ?E; auto.
Qed.

Lemma on_object_registries {A : Type} (ref : nat) (m : @Meth World A) s r s' :
  on_object ref m s = (r, s') ->
  _active_connections s' = _active_connections s
  /\ _async_active_connections s' = _async_active_connections s.
Proof.
  unfold on_object. destruct (heap s !! ref) as [o|].
  - destruct (m _) as [r0 ms]. intros H. inversion H; subst. now split.
  - intros H. inversion H; subst. now split.
Qed.

Lemma on_object_inr_heap {A : Type} (ref : nat) (m : @Meth World A) s a s' :
  on_object ref m s = (inr a, s') -> is_Some (heap s' !! ref).
Proof.
  unfold on_object. destruct (heap s !! ref) as [o|]; [|discriminate].
  destruct (m _) as [r0 ms]. intros H. inversion H; subst. cbn.
  rewrite lookup_insert_eq. now eexists.
Qed.

Lemma on_object_attr {A : Type} (ref : nat) (f : MySQLConnection -> A)
    (s : @RState World) o :
  heap s !! ref = Some o -> on_object ref (attr f) s = (inr (f o), s).
Proof.
  intros H. unfold on_object, attr, gets. rewrite H. cbn.
  rewrite (insert_id _ _ _ H). now destruct s.
Qed.

(** The liveness test always reports: it returns a verdict and a
    message, whatever the driver does. *)
Lemma test_connection_reports (st : @MState World) :
  exists verdict st', test_connection drv st = (inr verdict, st').
Proof.
  apply try_except_returns. intros e s. now do 2 eexists.
Qed.

(** The registry operations report failures in their status and never
    raise. *)
Lemma connect_returns name config (st : @RState World) :
  exists status st', ConnectionTools.connect drv name config st = (inr status, st').
Proof.
  apply try_except_returns. intros e [i h n a b]. now do 2 eexists.
Qed.

Lemma disconnect_returns name (st : @RState World) :
  exists status st', ConnectionTools.disconnect drv name st = (inr status, st').
Proof.
  apply try_except_returns. intros e [i h n a b]. now do 2 eexists.
Qed.

Lemma connect_active name config (st : @RState World) :
  PyDict.mem name (_active_connections st) = true ->
  ConnectionTools.connect drv name config st
  = (inr (ConnectionTools.already_active name), st).
Proof.
  intros H. unfold ConnectionTools.connect, try_except, bind, gets.
  rewrite H. reflexivity.
Qed.

Lemma async_connect_active name config (st : @RState World) :
  PyDict.mem name (_async_active_connections st) = true ->
  ConnectionTools.async_connect drv name config st
  = (inr (ConnectionTools.async_already_active name), st).
Proof.
  intros H. unfold ConnectionTools.async_connect, try_except, bind, gets.
  rewrite H. reflexivity.
Qed.

End RegistryFacts.

(** C7: a connect call for a name that already has an active entry
    returns a failure status and leaves the whole state as it is: the
    registry, the connection objects and the outside are unchanged, so
    no call reaches the driver and no object is created.  The same
    holds for the registry of non-blocking connections. *)
Theorem C7_connect_active_name_fails :
  forall (World : Type) (drv : Driver World) (name : string)
         (config : option (gmap string PyVal)) (st : @RState World),
    (PyDict.mem name (_active_connections st) = true ->
     exists status,
       ConnectionTools.connect drv name config st = (inr status, st)
       /\ status !! "success" = Some (s_bool false))
    /\ (PyDict.mem name (_async_active_connections st) = true ->
        exists status,
          ConnectionTools.async_connect drv name config st = (inr status, st)
          /\ status !! "success" = Some (s_bool false)).
Proof.
  intros World drv name config st. split; intros H.
  - exists (ConnectionTools.already_active name).
    split; [now apply connect_active | reflexivity].
  - exists (ConnectionTools.async_already_active name).
    split; [now apply async_connect_active | reflexivity].
Qed.

Lemma C7_connect_active_witness :
  (exists status,
     ConnectionTools.connect demo_driver "main" (Some demo_config) demo_registry
     = (inr status, demo_registry)
     /\ status !! "success" = Some (s_bool false))
  /\ (exists status,
        ConnectionTools.async_connect demo_driver "main" None demo_registry
        = (inr status, demo_registry)
        /\ status !! "success" = Some (s_bool false)).
Proof.
  split.
  - apply (proj1 (C7_connect_active_name_fails Z demo_driver "main"
                    (Some demo_config) demo_registry)).
    reflexivity.
  - apply (proj2 (C7_connect_active_name_fails Z demo_driver "main" None
                    demo_registry)).
    reflexivity.
Defined.

(** ** Disconnecting *)

Section DisconnectFacts.

Context {World : Type} (drv : Driver World).

Lemma disconnect_never_raises (st : @MState World) :
  exists st', disconnect drv st = (inr tt, st')
              /\ _is_connected (self st') = false.
Proof.
  destruct st as [i o]. unfold disconnect. unfold_monad.
  repeat step; cbn; eexists; split; reflexivity.
Qed.

Lemma async_disconnect_never_raises (st : @MState World) :
  exists st', async_disconnect drv st = (inr tt, st')
              /\ _is_connected (self st') = false.
Proof.
  destruct st as [i o]. unfold async_disconnect. unfold_monad.
  repeat step; cbn; eexists; split; reflexivity.
Qed.





Lemma is_connected_released (st : @MState World) :
  _connection (self st) = None -> is_connected drv st = (inr false, st).
Proof.
  destruct st as [i [name cfg conn flag cur ver pool]]. cbn. intros ->.
  reflexivity.
Qed.






End DisconnectFacts.




(** ** Looking up a table that does not exist *)

Lemma check_is_no_detail_query table_name c :
  statement_call check_query 30 c -> no_detail_query table_name c.
Proof.
  intros Hc q Hq Hin. unfold statement_call in Hc. rewrite Hq in Hc.
  destruct Hc as [Hc | [Hc | Hc]]; [discriminate Hc | |];
    injection Hc as ->; unfold detail_queries in Hin; cbn [In] in Hin;
    repeat (destruct Hin as [Hin | Hin]; [cbv in Hin; discriminate Hin|]);
    exact Hin.
Qed.

Lemma table_params_ok {World : Type} (table_name : string) (database : PyVal)
    (st : @MState World) :
  config (self st) !! "database" = Some database ->
  table_params table_name st = (inr (check_params database table_name), st).
Proof.
  destruct st as [i o]. unfold table_params, bind, attr, gets, getitem. cbn.
  intros ->. reflexivity.
Qed.

(** C9: when the catalog check for a table name yields no row,
    [get_table_schema] and [async_get_table_schema] return [None]
    without raising, and the calls they have issued send none of the
    detail queries (columns, foreign keys, indexes, row count, DDL). *)
Theorem C9_absent_table_returns_none :
  forall (World : Type) (drv : Driver World) (table_name : string)
         (database : PyVal) (st st1 : @MState World) (check_result : QueryResult),
    config (self st) !! "database" = Some database ->
    data check_result = [] ->
    (execute_query drv check_query (check_params database table_name) 1000 30 st
     = (inr check_result, st1) ->
     get_table_schema drv table_name st = (inr None, st1)
     /\ exists cl, calls (io st1) = calls (io st) ++ cl
                   /\ Forall (no_detail_query table_name) cl)
    /\ (async_execute_query drv check_query (check_params database table_name)
          1000 30 st = (inr check_result, st1) ->
        async_get_table_schema drv table_name st = (inr None, st1)
        /\ exists cl, calls (io st1) = calls (io st) ++ cl
                      /\ Forall (no_detail_query table_name) cl).
Proof.
  intros World drv table_name database st st1 check_result Hdb Hempty.
  split; intros Hrun.
  - split.
    + unfold get_table_schema, try_except, bind.
      rewrite (table_params_ok table_name database st Hdb), Hrun, Hempty.
      reflexivity.
    + apply execute_query_grows in Hrun as (_ & _ & (cl & Hcl & Hok) & _).
      exists cl. split; [exact Hcl|].
      eapply Forall_impl; [exact Hok|]. intros c. apply check_is_no_detail_query.
  - split.
    + unfold async_get_table_schema, try_except, bind.
      rewrite (table_params_ok table_name database st Hdb), Hrun, Hempty.
      reflexivity.
    + apply async_execute_query_grows in Hrun as (_ & _ & (cl & Hcl & Hok) & _).
      exists cl. split; [exact Hcl|].
      eapply Forall_impl; [exact Hok|]. intros c. apply check_is_no_detail_query.
Qed.

Lemma C9_absent_table_witness :
  get_table_schema empty_driver "ghost" open_state
  = (inr None,
     snd (execute_query empty_driver check_query (check_params (VStr "d") "ghost")
            1000 30 open_state))
  /\ exists cl,
       calls (io (snd (execute_query empty_driver check_query
                         (check_params (VStr "d") "ghost") 1000 30 open_state)))
       = calls (io open_state) ++ cl
       /\ Forall (no_detail_query "ghost") cl.
Proof.
  apply (proj1 (C9_absent_table_returns_none Z empty_driver "ghost" (VStr "d")
                  open_state
                  (snd (execute_query empty_driver check_query
                          (check_params (VStr "d") "ghost") 1000 30 open_state))
                  no_such_table eq_refl eq_refl)).
  vm_compute. reflexivity.
Defined.

(** ** A failed liveness test *)

(** C10: when a registry connect call for an inactive name gets its
    connection from the engine but the liveness test that follows
    reports failure, the returned status has [success] false, and yet
    the name is bound in the registry: a lookup returns the connection,
    and every later connect call for the name fails as already
    active. *)
Theorem C10_failed_liveness_test_stays_registered :
  forall (World : Type) (drv : Driver World) (name : string)
         (config : option (gmap string PyVal)) (cfg : gmap string PyVal)
         (st st0 st1 st2 : @RState World) (db : nat) (message : string),
    PyDict.mem name (_active_connections st) = false ->
    ConnectionTools.load_config drv name config st = (inr (Some cfg), st0) ->
    ConnectionTools.db_type_of cfg st0 = (inr "mysql", st0) ->
    create_mysql_connection drv name cfg st0 = (inr db, st1) ->
    on_object db (test_connection drv) (registered name db st1)
    = (inr (false, message), st2) ->
    exists status,
      ConnectionTools.connect drv name config st = (inr status, st2)
      /\ status !! "success" = Some (s_bool false)
      /\ ConnectionTools.get_connection name st2 = (inr (Some db), st2)
      /\ forall config',
           ConnectionTools.connect drv name config' st2
           = (inr (ConnectionTools.already_active name), st2).
Proof.
  intros World drv name config cfg st st0 st1 st2 db message
         Hfree Hload Htype Hcreate Htest.
  assert (Hget : PyDict.get name (_active_connections st2) = Some db).
  { apply on_object_registries in Htest as [-> _]. cbn. apply get_set_same. }
  destruct (on_object_inr_heap _ _ _ _ _ Htest) as [o Ho].
  eexists. split; [|split; [|split]].
  - unfold ConnectionTools.connect, try_except.
    unfold bind at 1. cbn [gets]. rewrite Hfree.
    unfold bind at 1. rewrite Hload.
    unfold bind at 1. rewrite Htype. cbn [String.eqb Ascii.eqb Bool.eqb].
    unfold bind at 1. rewrite Hcreate.
    unfold bind at 1. unfold set_active at 1, modify at 1.
    fold (registered name db st1).
    unfold bind at 1. rewrite Htest.
    unfold bind at 1. rewrite (on_object_attr db mysql_version st2 o Ho).
    unfold bind at 1. cbn [gets]. reflexivity.
  - reflexivity.
  - unfold ConnectionTools.get_connection, gets. now rewrite Hget.
  - intros config'. apply connect_active. unfold PyDict.mem. now rewrite Hget.
Qed.

Lemma C10_failed_liveness_witness :
  exists status,
    ConnectionTools.connect empty_driver "db1" (Some literal_config) fresh_registry
    = (inr status, after_failed_test)
    /\ status !! "success" = Some (s_bool false)
    /\ ConnectionTools.get_connection "db1" after_failed_test
       = (inr (Some 0%nat), after_failed_test)
    /\ forall config',
         ConnectionTools.connect empty_driver "db1" config' after_failed_test
         = (inr (ConnectionTools.already_active "db1"), after_failed_test).
Proof.
  apply (C10_failed_liveness_test_stays_registered Z empty_driver "db1"
           (Some literal_config) literal_config fresh_registry fresh_registry
           after_handshake after_failed_test 0%nat "Connection test query failed").
  - reflexivity.
  - reflexivity.
  - reflexivity.
  - vm_compute. reflexivity.
  - vm_compute. reflexivity.
Defined.

Example handshake_registers_before_test :
  PyDict.keys (_active_connections after_failed_test) = ["db1"]
  /\ _is_connected <$> (heap after_failed_test !! 0%nat) = Some true.
Proof. split; vm_compute; reflexivity. Qed.

(** * Further properties of the code *)

(** ** Password resolution (mysql.py, [_get_password]) *)

Lemma startswith_env var : PyStr.startswith ("env:" +:+ var) "env:" = true.
Proof.
  change ("env:" +:+ var) with (String "e" (String "n" (String "v" (String ":" var)))).
  unfold PyStr.startswith. cbn. now destruct var.
Qed.

(** X1: a configuration without password yields the empty password; a
    password that is not a string, or a string that does not start with
    [env:], is returned as it is; the indirection [env:VAR] yields the
    value of VAR when VAR is set to a non-empty string.  In all three
    cases nothing else happens. *)
Theorem X1_password_resolution :
  forall (World : Type) (cfg : gmap string PyVal) (st : @MState World),
    (cfg !! "password" = None ->
     _get_password cfg st = (inr (VStr ""), st))
    /\ (forall pw,
          cfg !! "password" = Some pw ->
          (forall s, pw = VStr s -> PyStr.startswith s "env:" = false) ->
          _get_password cfg st = (inr pw, st))
    /\ (forall var value,
          cfg !! "password" = Some (VStr ("env:" +:+ var)) ->
          environ (io st) !! var = Some value -> value <> "" ->
          _get_password cfg st = (inr (VStr value), st)).
Proof.
  intros World cfg [i o]. split; [|split].
  - intros H. unfold _get_password, dict_get_default. rewrite H. reflexivity.
  - intros pw H Hlit. unfold _get_password, dict_get_default. rewrite H. cbn.
    destruct pw as [|b|n|s]; try reflexivity.
    now rewrite (Hlit s eq_refl).
  - intros var value H Henv Hne. cbn in Henv. unfold _get_password, dict_get_default.
    rewrite H. cbn [default from_option id]. rewrite startswith_env.
    change (PyStr.drop 4 ("env:" +:+ var)) with var.
    unfold bind, io_, zoom, getenv, gets. cbn. rewrite Henv. cbn.
    destruct (String.eqb value "") eqn:E; [|reflexivity].
    apply String.eqb_eq in E. contradiction.
Qed.

Lemma X1_password_resolution_witness :
  _get_password literal_config (mkMState demo_io (new_connection "c"))
  = (inr (VStr "pw"), mkMState demo_io (new_connection "c"))
  /\ _get_password demo_config
       (mkMState (mkIO 0 {[ "PW" := "secret" ]} [] []) (new_connection "c"))
     = (inr (VStr "secret"),
        mkMState (mkIO 0 {[ "PW" := "secret" ]} [] []) (new_connection "c")).
Proof.
  split.
  - apply (proj1 (proj2 (X1_password_resolution Z literal_config
                           (mkMState demo_io (new_connection "c"))))).
    + reflexivity.
    + intros s Hs. injection Hs as <-. reflexivity.
  - apply (proj2 (proj2 (X1_password_resolution Z demo_config
                           (mkMState (mkIO 0 {[ "PW" := "secret" ]} [] [])
                                     (new_connection "c")))) "PW" "secret").
    + reflexivity.
    + reflexivity.
    + discriminate.
Defined.

(** X2: an environment variable that is set to the empty string counts
    as unset: the indirection [env:VAR] then raises the configuration
    error, exactly as when VAR is missing. *)
Theorem X2_empty_variable_counts_as_unset :
  forall (World : Type) (cfg : gmap string PyVal) (st : @MState World) (var : string),
    cfg !! "password" = Some (VStr ("env:" +:+ var)) ->
    environ (io st) !! var = Some "" ->
    _get_password cfg st
    = (inl (DatabaseConfigError ("Environment variable " +:+ var +:+ " not set")), st).
Proof.
  intros World cfg [i o] var H Henv. cbn in Henv.
  unfold _get_password, dict_get_default.
  rewrite H. cbn [default from_option id]. rewrite startswith_env.
  change (PyStr.drop 4 ("env:" +:+ var)) with var.
  unfold bind, io_, zoom, getenv, gets. cbn. rewrite Henv. reflexivity.
Qed.

Lemma X2_empty_variable_witness :
  _get_password demo_config
    (mkMState (mkIO 0 {[ "PW" := "" ]} [] []) (new_connection "c"))
  = (inl (DatabaseConfigError ("Environment variable " +:+ "PW" +:+ " not set")),
     mkMState (mkIO 0 {[ "PW" := "" ]} [] []) (new_connection "c")).
Proof.
  apply (X2_empty_variable_counts_as_unset Z demo_config
           (mkMState (mkIO 0 {[ "PW" := "" ]} [] []) (new_connection "c")) "PW");
    reflexivity.
Defined.

(** ** The blocking handshake (mysql.py, [connect]) *)

(** X3: whatever the configuration and the driver do, [connect] either
    returns [True] and leaves the connected flag set, or raises a
    [DatabaseConnectionError] and leaves the flag cleared; it raises no
    other kind of error and never returns [False]. *)
Theorem X3_connect_returns_true_or_raises_connection_error :
  forall (World : Type) (drv : Driver World) (cfg : gmap string PyVal)
         (st st' : @MState World) (r : Exn + bool),
    connect drv cfg st = (r, st') ->
    (r = inr true /\ _is_connected (self st') = true)
    \/ (exists msg, r = inl (DatabaseConnectionError msg)
                    /\ _is_connected (self st') = false).
Proof.
  intros World drv cfg st st' r H. unfold connect, try_except in H.
  match type of H with
  | context [match ?body st with _ => _ end] => destruct (body st) as [[e|b] s1] eqn:E
  end.
  - right. unfold bind, io_, zoom, log, modify, assign, raise in H. cbn in H.
    inversion H; subst. eexists. split; reflexivity.
  - left. inversion H; subst. clear H.
    repeat (let a := fresh "a" in let s := fresh "s" in let F := fresh "F" in
            apply bind_inr in E as (a & s & F & E)).
    inversion E; subst.
    match goal with
    | Ha : assign (with_is_connected true) _ = (_, ?s),
      Hl : io_ (log _ _) ?s = (_, _) |- _ =>
        inversion Ha; inversion Hl; subst
    end.
    split; reflexivity.
Qed.

Lemma X3_connect_witness :
  (fst (connect refusing_driver literal_config fresh_state) = inr true
   /\ _is_connected (self (snd (connect refusing_driver literal_config fresh_state)))
      = true)
  \/ (exists msg,
        fst (connect refusing_driver literal_config fresh_state)
        = inl (DatabaseConnectionError msg)
        /\ _is_connected (self (snd (connect refusing_driver literal_config fresh_state)))
           = false).
Proof.
  apply (X3_connect_returns_true_or_raises_connection_error Z refusing_driver
           literal_config fresh_state
           (snd (connect refusing_driver literal_config fresh_state))
           (fst (connect refusing_driver literal_config fresh_state))).
  vm_compute. reflexivity.
Defined.

(** X4: when the configuration is valid and the driver refuses the
    handshake, [connect] raises a [DatabaseConnectionError] that carries
    the driver's message; the handshake is the only call issued, the
    configuration has already been stored in the object, and no session
    is kept. *)
Theorem X4_refused_handshake_is_reported :
  forall (World : Type) (drv : Driver World) (cfg : gmap string PyVal)
         (st : @MState World) (host user database pw : PyVal) (e : Exn) (w' : World),
    cfg !! "host" = Some host -> cfg !! "user" = Some user ->
    cfg !! "database" = Some database ->
    _get_password cfg st = (inr pw, st) ->
    pymysql_connect drv (conn_params cfg host user pw database) (world (io st))
    = (inl e, w') ->
    exists st',
      connect drv cfg st
      = (inl (DatabaseConnectionError
                ((if is_pymysql_error e then "MySQL connection failed: "
                  else "Unexpected connection error: ") +:+ exn_str e)), st')
      /\ config (self st') = cfg
      /\ _connection (self st') = _connection (self st)
      /\ _is_connected (self st') = false
      /\ calls (io st') = calls (io st) ++ [CConnect (conn_params cfg host user pw database)].
Proof.
  intros World drv cfg [i o] host user database pw e w' Hh Hu Hd Hpw Hconn.
  cbn in Hconn. unfold connect, try_except, required_keys. cbn [for_each].
  rewrite Hh, Hu, Hd. unfold getitem. rewrite Hh, Hu, Hd.
  unfold bind at 1 2 3 4. cbn [ret].
  unfold bind at 1. rewrite Hpw.
  unfold bind, ret, assign, modify, io_, zoom, log, call. cbn.
  rewrite Hconn. cbn. eexists. repeat split.
Qed.

Lemma X4_refused_handshake_witness :
  exists st',
    connect refusing_driver literal_config fresh_state
    = (inl (DatabaseConnectionError
              ((if is_pymysql_error (PyMySQLOperationalError "(1045, Access denied)")
                then "MySQL connection failed: "
                else "Unexpected connection error: ")
               +:+ exn_str (PyMySQLOperationalError "(1045, Access denied)"))), st')
    /\ config (self st') = literal_config
    /\ _connection (self st') = _connection (self fresh_state)
    /\ _is_connected (self st') = false
    /\ calls (io st')
       = calls (io fresh_state)
         ++ [CConnect (conn_params literal_config (VStr "localhost") (VStr "u")
                         (VStr "pw") (VStr "d"))].
Proof.
  apply (X4_refused_handshake_is_reported Z refusing_driver literal_config fresh_state
           (VStr "localhost") (VStr "u") (VStr "d") (VStr "pw")
           (PyMySQLOperationalError "(1045, Access denied)") 0);
    reflexivity.
Defined.

(** X5: when the configuration is valid and the driver answers every
    step, [connect] returns [True] after exactly five calls: the
    handshake, a ping that may reconnect, the opening of a cursor, the
    version query and the closing of that cursor.  The object then holds
    the session, the configuration, the reported version and the
    connected flag. *)
Theorem X5_connect_handshake_protocol :
  forall (World : Type) (drv : Driver World) (cfg : gmap string PyVal)
         (st : @MState World) (host user database pw version : PyVal)
         (c : Session) (cs : CursorState Row) (w1 w2 w3 w4 w5 : World),
    cfg !! "host" = Some host -> cfg !! "user" = Some user ->
    cfg !! "database" = Some database ->
    _get_password cfg st = (inr pw, st) ->
    pymysql_connect drv (conn_params cfg host user pw database) (world (io st))
    = (inr c, w1) ->
    connection_ping drv c true w1 = (None, w2) ->
    connection_cursor drv c w2 = (None, w3) ->
    cursor_execute drv c "SELECT VERSION() as version" None w3 = (inr cs, w4) ->
    cursor_close drv c w4 = (None, w5) ->
    (forall s : @MState World,
        version_of_row (cursor_fetchone drv Row (cs_rows cs)) s = (inr version, s)) ->
    exists st',
      connect drv cfg st = (inr true, st')
      /\ _connection (self st') = Some c
      /\ _is_connected (self st') = true
      /\ config (self st') = cfg
      /\ _mysql_version (self st') = version
      /\ world (io st') = w5
      /\ calls (io st')
         = calls (io st)
           ++ [CConnect (conn_params cfg host user pw database); CPing c true;
               CCursor c; CExecute c "SELECT VERSION() as version" None;
               CCursorClose c].
Proof.
  intros World drv cfg [i o] host user database pw version c cs w1 w2 w3 w4 w5
         Hh Hu Hd Hpw Hconn Hping Hcur Hexec Hclose Hver.
  cbn in Hconn. unfold connect, try_except, required_keys. cbn [for_each].
  rewrite Hh, Hu, Hd. unfold getitem. rewrite Hh, Hu, Hd.
  unfold bind at 1 2 3 4. cbn [ret].
  unfold bind at 1. rewrite Hpw.
  unfold bind, ret, assign, modify, io_, zoom, log, call_, call, try_finally. cbn.
  rewrite Hconn. cbn. rewrite Hping. cbn. rewrite Hcur. cbn. rewrite Hexec. cbn.
  rewrite Hclose. cbn. rewrite Hver. cbn.
  eexists. repeat split. cbn. rewrite <- !app_assoc. reflexivity.
Qed.

Lemma X5_connect_handshake_witness :
  exists st',
    connect demo_driver literal_config fresh_state = (inr true, st')
    /\ _connection (self st') = Some 1%nat
    /\ _is_connected (self st') = true
    /\ config (self st') = literal_config
    /\ _mysql_version (self st') = VStr "8.0.33"
    /\ world (io st') = 0
    /\ calls (io st')
       = calls (io fresh_state)
         ++ [CConnect (conn_params literal_config (VStr "localhost") (VStr "u")
                         (VStr "pw") (VStr "d"));
             CPing 1%nat true; CCursor 1%nat;
             CExecute 1%nat "SELECT VERSION() as version" None;
             CCursorClose 1%nat].
Proof.
  apply (X5_connect_handshake_protocol Z demo_driver literal_config fresh_state
           (VStr "localhost") (VStr "u") (VStr "d") (VStr "pw") (VStr "8.0.33")
           1%nat (demo_answer RowDict "SELECT VERSION() as version") 0 0 0 0 0);
    reflexivity.
Defined.

(** ** Query execution revisited (mysql.py, [execute_query] and
       [async_execute_query]) *)

(** X6: without a blocking session [execute_query] raises
    [DatabaseConnectionError] before it touches the driver, and so does
    [async_execute_query] without a pool; neither writes to the log nor
    changes the connection object. *)
Theorem X6_query_without_session_raises :
  forall (World : Type) (drv : Driver World) (query : string)
         (params : option Params) (max_rows timeout : Z) (st : @MState World),
    (_connection (self st) = None ->
     exists st',
       execute_query drv query params max_rows timeout st
       = (inl (DatabaseConnectionError "Not connected to database"), st')
       /\ self st' = self st /\ calls (io st') = calls (io st)
       /\ logs (io st') = logs (io st))
    /\ (_async_pool (self st) = None ->
        exists st',
          async_execute_query drv query params max_rows timeout st
          = (inl (DatabaseConnectionError
                    "Not connected to database (async pool not initialized)"), st')
          /\ self st' = self st /\ calls (io st') = calls (io st)
          /\ logs (io st') = logs (io st)).
Proof.
  intros World drv query params max_rows timeout [i o]. cbn. split; intros H.
  - unfold execute_query. unfold_monad. cbn.
    destruct (time_time drv (world i)) as [t w]. cbn. rewrite H.
    eexists. repeat split.
  - unfold async_execute_query. unfold_monad. cbn.
    destruct (time_time drv (world i)) as [t w]. cbn. rewrite H.
    eexists. repeat split.
Qed.

Lemma X6_query_without_session_witness :
  exists st',
    execute_query demo_driver "SELECT 1" None 1000 30 fresh_state
    = (inl (DatabaseConnectionError "Not connected to database"), st')
    /\ self st' = self fresh_state /\ calls (io st') = calls (io fresh_state)
    /\ logs (io st') = logs (io fresh_state).
Proof.
  apply (proj1 (X6_query_without_session_raises Z demo_driver "SELECT 1" None 1000 30
                  fresh_state)).
  reflexivity.
Defined.

Section ResultFacts.

Context {World : Type} (drv : Driver World).

(** What [async_execute_query] can return: the result of a read, the
    result of a write, or the failure record of its handler. *)
Lemma async_execute_query_inr query params max_rows timeout
    (st st' : @MState World) r :
  async_execute_query drv query params max_rows timeout st = (inr r, st') ->
  (success r = true /\ error_message r = None /\ sql_query r = Some query)
  \/ (exists e t,
        r = mkQueryResult false [] [] 0 t
              (Some ("Query execution failed: " +:+ exn_str e)) (Some query)).
Proof.
  intros H. unfold async_execute_query in H.
  apply bind_inr in H as (start & sa & _ & H).
  apply bind_inr in H as (pool & sb & _ & H).
  destruct pool as [p|]; [|discriminate H].
  apply bind_inr in H as (conn & sc & _ & H).
  apply try_finally_inr in H as (sy & H & _).
  apply bind_inr in H as (u0 & sd & _ & H).
  apply try_finally_inr in H as (sx & H & _).
  apply try_except_inr in H as [H | (e & se & _ & Hh)].
  - left. apply bind_inr in H as (cs & se & _ & H).
    destruct (PyStr.startswith_any _ _).
    + apply async_read_result_inr in H as [[t ->] _]. now cbn.
    + apply bind_inr in H as (now & sf & _ & H). inversion H; subst. now cbn.
  - right. destruct (is_asyncio_timeout e).
    + apply bind_inr in Hh as (now & sf & _ & Hh).
      apply bind_inr in Hh as (u1 & sg & _ & Hh). discriminate Hh.
    + apply bind_inr in Hh as (now & sf & _ & Hh).
      apply bind_inr in Hh as (u1 & sg & _ & Hh). inversion Hh; subst.
      now do 2 eexists.
Qed.

End ResultFacts.

(** X7: every result [execute_query] returns is a success without error
    message that echoes the statement; a failure of the blocking path is
    always an exception.  A result [async_execute_query] returns echoes
    the statement too, and is either such a success or the failure
    record: [success] false, no data, no columns, a row count of zero
    and the message of the error behind [Query execution failed: ]. *)
Theorem X7_returned_results :
  forall (World : Type) (drv : Driver World) (query : string)
         (params : option Params) (max_rows timeout : Z)
         (st st' : @MState World) (r : QueryResult),
    (execute_query drv query params max_rows timeout st = (inr r, st') ->
     success r = true /\ error_message r = None /\ sql_query r = Some query)
    /\ (async_execute_query drv query params max_rows timeout st = (inr r, st') ->
        sql_query r = Some query
        /\ ((success r = true /\ error_message r = None)
            \/ (success r = false /\ data r = [] /\ columns r = []
                /\ row_count r = 0
                /\ exists e, error_message r
                             = Some ("Query execution failed: " +:+ exn_str e)))).
Proof.
  intros World drv query params max_rows timeout st st' r. split; intros H.
  - apply execute_query_inr in H
      as (c & cs & t & s1 & s2 & _ & _ & (s3 & s4 & Hres & _)).
    destruct (is_read_query query).
    + apply read_result_inr in Hres as [-> _]. now cbn.
    + subst r. now cbn.
  - apply async_execute_query_inr in H as [(Hs & He & Hq) | (e & t & ->)].
    + split; [exact Hq|]. now left.
    + cbn. split; [reflexivity|]. right. repeat split. now exists e.
Qed.

Lemma X7_returned_results_witness :
  success demo_read_two = true /\ error_message demo_read_two = None
  /\ sql_query demo_read_two = Some "SELECT id FROM t".
Proof.
  apply (proj1 (X7_returned_results Z demo_driver "SELECT id FROM t" None 2 30
                  open_state
                  (snd (execute_query demo_driver "SELECT id FROM t" None 2 30
                          open_state))
                  demo_read_two)).
  vm_compute. reflexivity.
Defined.

Lemma translated_is_query_error timeout e :
  is_query_error (translate_query_error timeout e) = true.
Proof.
  destruct e; cbn; try reflexivity.
  destruct (PyStr.contains _ _); reflexivity.
Qed.

(** X8: on a driver whose cursors close without raising, every
    exception of [execute_query] is either the
    [DatabaseConnectionError] of a missing session or a
    [DatabaseQueryError] (possibly its subclass for timeouts): no error
    of the driver escapes untranslated. *)
Theorem X8_execute_query_error_kinds :
  forall (World : Type) (drv : Driver World) (query : string)
         (params : option Params) (max_rows timeout : Z)
         (st st' : @MState World) (e : Exn),
    (forall c w, fst (cursor_close drv c w) = None) ->
    execute_query drv query params max_rows timeout st = (inl e, st') ->
    (e = DatabaseConnectionError "Not connected to database"
     /\ _connection (self st) = None)
    \/ is_query_error e = true.
Proof.
  intros World drv query params max_rows timeout st st' e Hclose H.
  unfold execute_query in H. unfold bind at 1 in H.
  destruct (clock drv st) as [[e0|start] s0] eqn:Hclock.
  { unfold clock, io_, zoom, observe in Hclock.
    destruct (time_time drv _) in Hclock. discriminate Hclock. }
  pose proof (grows_clock drv (fun _ => True) _ _ _ Hclock) as (Hself & _).
  unfold bind at 1 in H. cbn [attr gets] in H. rewrite Hself in H.
  destruct (_connection (self st)) as [c|].
  - right. unfold bind at 1 in H. unfold try_except at 1 in H.
    destruct (io_ (call_ (CCursor c) (connection_cursor drv c)) s0)
      as [[e1|u] s1].
    + unfold query_handlers, raise in H. inversion H; subst.
      apply translated_is_query_error.
    + unfold try_finally in H.
      match type of H with
      | context [let '(_, _) := ?body s1 in _] =>
          destruct (body s1) as [r s2] eqn:Hbody
      end.
      destruct (io_ (call_ (CCursorClose c) (cursor_close drv c)) s2)
        as [[e2|u2] s3] eqn:Hc.
      * exfalso. destruct s2 as [i2 o2].
        unfold io_, zoom, call_, call in Hc. cbn in Hc.
        specialize (Hclose c (world i2)).
        destruct (cursor_close drv c (world i2)) as [[x|] w]; cbn in Hclose;
          [discriminate Hclose | discriminate Hc].
      * inversion H; subst. unfold try_except in Hbody.
        match type of Hbody with
        | context [match ?b s1 with _ => _ end] => destruct (b s1) as [[e3|a] s4]
        end.
        -- unfold query_handlers, raise in Hbody. inversion Hbody; subst.
           apply translated_is_query_error.
        -- discriminate Hbody.
  - left. inversion H; subst. now split.
Qed.

Lemma X8_execute_query_timeout_witness :
  (DatabaseTimeoutError "Query exceeded 30 second timeout"
   = DatabaseConnectionError "Not connected to database"
   /\ _connection (self open_state) = None)
  \/ is_query_error (DatabaseTimeoutError "Query exceeded 30 second timeout") = true.
Proof.
  apply (X8_execute_query_error_kinds Z slow_driver "SELECT SLEEP(60)" None 1000 30
           open_state
           (snd (execute_query slow_driver "SELECT SLEEP(60)" None 1000 30 open_state))).
  - intros c w. reflexivity.
  - vm_compute. reflexivity.
Defined.

(** ** The session timeout of [execute_query] (mysql.py, lines 271-286) *)

Section TimeoutFacts.

Context {World : Type} (drv : Driver World).

(** The components [execute_query] reads off a version string. *)
Lemma set_session_timeout_unparsed (c : Session) (timeout : Z) (version : string)
    (st : @MState World) :
  _mysql_version (self st) = VStr version ->
  version <> "" -> version <> "Unknown" ->
  set_session_timeout drv c timeout st
  = try_except_value_error
      (let version_parts := PyStr.split "." (hd "" (PyStr.split "-" version)) in
       if (3 <=? length version_parts)%nat then
         major <- py_int (nth 0 version_parts "") ;;
         minor <- py_int (nth 1 version_parts "") ;;
         patch <- py_int (nth 2 version_parts "") ;;
         if supports_max_execution_time major minor patch then
           io_ (call (CExecute c (timeout_directive timeout) None)
                  (cursor_execute drv c (timeout_directive timeout) None)) ;;
           ret tt
         else ret tt
       else ret tt)
      (io_ (log WARNING ("Could not parse MySQL version: " +:+ version))) st.
Proof.
  intros Hv Hne Hunk. unfold set_session_timeout, bind at 1, attr, gets.
  rewrite Hv. cbn [truthy eq_str].
  destruct (String.eqb version "") eqn:E1; [apply String.eqb_eq in E1; contradiction|].
  destruct (String.eqb version "Unknown") eqn:E2;
    [apply String.eqb_eq in E2; contradiction|].
  reflexivity.
Qed.

End TimeoutFacts.

(** X9: [execute_query] skips the session timeout, without failing and
    without a call to the driver, when the server version is not known
    ([None], empty or [Unknown]) or has fewer than three components; when
    one of the first three components is not an integer it skips the
    timeout too and logs a warning. *)
Theorem X9_timeout_skipped_for_unusable_version :
  forall (World : Type) (drv : Driver World) (c : Session) (timeout : Z)
         (st : @MState World),
    (truthy (_mysql_version (self st)) = false
     \/ _mysql_version (self st) = VStr "Unknown" ->
     set_session_timeout drv c timeout st = (inr tt, st))
    /\ (forall version,
          _mysql_version (self st) = VStr version ->
          version <> "" -> version <> "Unknown" ->
          (length (PyStr.split "." (hd "" (PyStr.split "-" version))) < 3)%nat ->
          set_session_timeout drv c timeout st = (inr tt, st))
    /\ (forall version,
          _mysql_version (self st) = VStr version ->
          version <> "" -> version <> "Unknown" ->
          (3 <= length (PyStr.split "." (hd "" (PyStr.split "-" version))))%nat ->
          (exists k, (k < 3)%nat /\
                     PyStr.to_int (nth k (PyStr.split "." (hd "" (PyStr.split "-" version)))
                                       "") = None) ->
          exists st',
            set_session_timeout drv c timeout st = (inr tt, st')
            /\ self st' = self st /\ calls (io st') = calls (io st)
            /\ logs (io st')
               = logs (io st)
                 ++ [mkLog WARNING ("Could not parse MySQL version: " +:+ version)]).
Proof.
  intros World drv c timeout st. split; [|split].
  - intros H. unfold set_session_timeout, bind, attr, gets.
    destruct H as [H | H]; rewrite H; reflexivity.
  - intros version Hv Hne Hunk Hlen.
    rewrite (set_session_timeout_unparsed drv c timeout version st Hv Hne Hunk).
    cbv zeta. apply Nat.leb_gt in Hlen. rewrite Hlen. reflexivity.
  - intros version Hv Hne Hunk Hlen (k & Hk & Hbad).
    rewrite (set_session_timeout_unparsed drv c timeout version st Hv Hne Hunk).
    cbv zeta. apply Nat.leb_le in Hlen. rewrite Hlen.
    destruct st as [i o]. unfold try_except_value_error, try_except, py_int.
    set (parts := PyStr.split "." (hd "" (PyStr.split "-" version))) in *.
    assert (Hk' : k = 0%nat \/ k = 1%nat \/ k = 2%nat) by lia.
    destruct (PyStr.to_int (nth 0 parts "")) as [major|] eqn:E0.
    + destruct (PyStr.to_int (nth 1 parts "")) as [minor|] eqn:E1.
      * destruct (PyStr.to_int (nth 2 parts "")) as [patch|] eqn:E2.
        -- destruct Hk' as [-> | [-> | ->]]; congruence.
        -- unfold bind, ret, raise. cbn. eexists. repeat split.
      * unfold bind, ret, raise. cbn. eexists. repeat split.
    + unfold bind, ret, raise. cbn. eexists. repeat split.
Qed.

Lemma X9_timeout_skipped_witness :
  exists st',
    set_session_timeout demo_driver 1%nat 30 (state_with_version (VStr "8.0.x"))
    = (inr tt, st')
    /\ self st' = self (state_with_version (VStr "8.0.x"))
    /\ calls (io st') = calls (io (state_with_version (VStr "8.0.x")))
    /\ logs (io st')
       = logs (io (state_with_version (VStr "8.0.x")))
         ++ [mkLog WARNING ("Could not parse MySQL version: " +:+ "8.0.x")].
Proof.
  apply (proj2 (proj2 (X9_timeout_skipped_for_unusable_version Z demo_driver 1%nat 30
                         (state_with_version (VStr "8.0.x")))) "8.0.x").
  - reflexivity.
  - discriminate.
  - discriminate.
  - cbn. lia.
  - exists 2%nat. split; [lia | reflexivity].
Defined.

(** X10: when the server version reads [major.minor.patch] (a suffix
    after a dash is ignored), [execute_query] sends the directive [SET
    SESSION max_execution_time] with the timeout in milliseconds exactly
    when the version is 5.7.4 or later, as its only call of that step;
    an error of the driver on the directive ends the query. *)
Theorem X10_timeout_directive_by_version :
  forall (World : Type) (drv : Driver World) (c : Session) (timeout : Z)
         (st : @MState World) (version : string) (major minor patch : Z),
    _mysql_version (self st) = VStr version ->
    version <> "" -> version <> "Unknown" ->
    (3 <= length (PyStr.split "." (hd "" (PyStr.split "-" version))))%nat ->
    PyStr.to_int (nth 0 (PyStr.split "." (hd "" (PyStr.split "-" version))) "")
    = Some major ->
    PyStr.to_int (nth 1 (PyStr.split "." (hd "" (PyStr.split "-" version))) "")
    = Some minor ->
    PyStr.to_int (nth 2 (PyStr.split "." (hd "" (PyStr.split "-" version))) "")
    = Some patch ->
    (supports_max_execution_time major minor patch = false ->
     set_session_timeout drv c timeout st = (inr tt, st))
    /\ (supports_max_execution_time major minor patch = true ->
        forall answer w',
          cursor_execute drv c (timeout_directive timeout) None (world (io st))
          = (answer, w') ->
          exists st',
            self st' = self st /\ world (io st') = w'
            /\ calls (io st')
               = calls (io st) ++ [CExecute c (timeout_directive timeout) None]
            /\ (forall cs, answer = inr cs ->
                           set_session_timeout drv c timeout st = (inr tt, st'))
            /\ (forall e, answer = inl e -> is_value_or_index_error e = false ->
                          set_session_timeout drv c timeout st = (inl e, st'))).
Proof.
  intros World drv c timeout [i o] version major minor patch
         Hv Hne Hunk Hlen H0 H1 H2.
  rewrite (set_session_timeout_unparsed drv c timeout version _ Hv Hne Hunk).
  cbv zeta. apply Nat.leb_le in Hlen. rewrite Hlen.
  unfold try_except_value_error, try_except, py_int. rewrite H0, H1, H2.
  cbv beta iota delta [bind ret].
  split; intros Hs; rewrite Hs.
  - reflexivity.
  - intros answer w' Hans. cbn in Hans.
    unfold io_, zoom, call. cbn. rewrite Hans.
    eexists. split; [|split; [|split; [|split]]].
    4:{ intros cs ->. reflexivity. }
    4:{ intros e -> He. rewrite He. reflexivity. }
    all: reflexivity.
Qed.

Lemma X10_timeout_directive_witness :
  exists st',
    set_session_timeout demo_driver 1%nat 30
      (state_with_version (VStr "10.4.28-MariaDB")) = (inr tt, st')
    /\ calls (io st')
       = calls (io (state_with_version (VStr "10.4.28-MariaDB")))
         ++ [CExecute 1%nat (timeout_directive 30) None].
Proof.
  destruct (proj2 (X10_timeout_directive_by_version Z demo_driver 1%nat 30
                     (state_with_version (VStr "10.4.28-MariaDB")) "10.4.28-MariaDB"
                     10 4 28 eq_refl ltac:(discriminate) ltac:(discriminate)
                     ltac:(cbn; lia) eq_refl eq_refl eq_refl) eq_refl
                  (inr (demo_answer RowDict (timeout_directive 30))) 0 eq_refl)
    as (st' & _ & _ & Hcalls & Hok & _).
  exists st'. split; [apply (Hok _ eq_refl) | exact Hcalls].
Defined.

Example timeout_directive_text :
  timeout_directive 30 = "SET SESSION max_execution_time = 30000".
Proof. reflexivity. Qed.

(** ** Statements that are not recognised as reads *)

Lemma prefix_cons_neq :
  forall (a b : ascii) (p s : string),
    a <> b -> String.prefix (String a p) (String b s) = false.
Proof.
  intros a b p s H. cbn [String.prefix].
  destruct (ascii_dec a b); [contradiction | reflexivity].
Qed.

(** X11: a statement that is empty after trimming, or whose first
    character after trimming is none of s, d, e in either case, is
    classified as a write: so is a query that opens with [WITH], with
    a parenthesis or with a comment, which therefore gets the one-row
    [affected_rows] result of C6 instead of its rows. *)
Theorem X11_other_first_character_is_write :
  forall (query : string),
    (PyStr.strip query = "" -> is_read_query query = false)
    /\ (forall c rest,
          PyStr.strip query = String c rest ->
          PyStr.lower_char c <> "s"%char -> PyStr.lower_char c <> "d"%char ->
          PyStr.lower_char c <> "e"%char ->
          is_read_query query = false).
Proof.
  intros query. unfold is_read_query. split.
  - intros ->. reflexivity.
  - intros c rest -> Hs Hd He.
    change (PyStr.lower (String c rest))
      with (String (PyStr.lower_char c) (PyStr.lower rest)).
    unfold PyStr.startswith_any, read_keywords, PyStr.startswith.
    cbn [existsb].
    rewrite !prefix_cons_neq by congruence. reflexivity.
Qed.

Lemma X11_with_query_witness :
  is_read_query "  WITH t AS (SELECT 1 AS id) SELECT id FROM t" = false.
Proof.
  apply (proj2 (X11_other_first_character_is_write
                  "  WITH t AS (SELECT 1 AS id) SELECT id FROM t")
           "W"%char "ITH t AS (SELECT 1 AS id) SELECT id FROM t");
    [reflexivity | discriminate | discriminate | discriminate].
Defined.

Example with_query_reports_affected_rows :
  exists r,
    fst (execute_query demo_driver "WITH t AS (SELECT 1 AS id) SELECT id FROM t"
           None 1000 30 open_state) = inr r
    /\ data r = [ {[ "affected_rows" := VInt 3 ]} ].
Proof. eexists. split; vm_compute; reflexivity. Qed.

(** ** Liveness tests (mysql.py, [test_connection] and
       [async_test_connection]) *)

(** X12: the liveness test of either execution model probes the
    blocking session first: on an object without blocking session both
    report [(False, "Not connected to database")] and touch nothing, the
    non-blocking test even when the pool is open. *)
Theorem X12_test_needs_blocking_session :
  forall (World : Type) (drv : Driver World) (st : @MState World),
    _connection (self st) = None ->
    test_connection drv st = (inr (false, "Not connected to database"), st)
    /\ async_test_connection drv st = (inr (false, "Not connected to database"), st).
Proof.
  intros World drv st H.
  unfold test_connection, async_test_connection, try_except, bind.
  rewrite !is_connected_released by assumption.
  split; reflexivity.
Qed.

Lemma X12_test_needs_blocking_session_witness :
  test_connection demo_driver pool_only_state
  = (inr (false, "Not connected to database"), pool_only_state)
  /\ async_test_connection demo_driver pool_only_state
     = (inr (false, "Not connected to database"), pool_only_state).
Proof.
  apply (X12_test_needs_blocking_session Z demo_driver pool_only_state).
  reflexivity.
Defined.

(** X13: [test_connection] never raises, whatever the driver does, and
    a positive verdict means what it says: the ping was answered, the
    statement [SELECT 1 as test] ran on the blocking session and its
    first row holds [test = 1]; the message then names the stored
    server version. *)
Theorem X13_test_connection_verdict :
  forall (World : Type) (drv : Driver World) (st : @MState World),
    (exists verdict st', test_connection drv st = (inr verdict, st'))
    /\ (forall message st',
          test_connection drv st = (inr (true, message), st') ->
          exists s1 r,
            is_connected drv st = (inr true, s1)
            /\ execute_query drv "SELECT 1 as test" None 1 30 s1 = (inr r, st')
            /\ test_row_ok r = true
            /\ message = "Connection successful (MySQL "
                         +:+ py_str (_mysql_version (self st')) +:+ ")").
Proof.
  intros World drv st. split.
  - apply try_except_returns. intros e s. now do 2 eexists.
  - intros message st' H. unfold test_connection in H.
    apply try_except_inr in H as [H | (e & s1 & _ & H)]; [|discriminate H].
    apply bind_inr in H as (alive & s1 & Halive & H).
    destruct alive; cbn [negb] in H; [|discriminate H].
    apply bind_inr in H as (r & s2 & Hrun & H).
    destruct (test_row_ok r) eqn:Hok; [|discriminate H].
    apply bind_inr in H as (version & s3 & Hattr & H).
    inversion Hattr; subst. inversion H; subst.
    exists s1, r. repeat split; assumption.
Qed.

Lemma X13_test_connection_witness :
  exists s1 r,
    is_connected demo_driver open_state = (inr true, s1)
    /\ execute_query demo_driver "SELECT 1 as test" None 1 30 s1
       = (inr r, snd (test_connection demo_driver open_state))
    /\ test_row_ok r = true
    /\ "Connection successful (MySQL 8.0.33)"
       = "Connection successful (MySQL "
         +:+ py_str (_mysql_version (self (snd (test_connection demo_driver open_state))))
         +:+ ")".
Proof.
  apply (proj2 (X13_test_connection_verdict Z demo_driver open_state)).
  vm_compute. reflexivity.
Defined.

(** ** Teardown of one execution model leaves the other alone *)

Ltac solve_new_calls :=
  first [ exists []; split; [now rewrite app_nil_r | reflexivity]
        | eexists; split; [rewrite <- ?app_assoc; reflexivity | reflexivity] ].

(** X14: [disconnect] never touches the pool: the pool handle, the
    stored configuration and the version stay as they are, and its only
    calls close the cursor and the blocking session.  [async_disconnect]
    in turn closes the pool only: the blocking session and its handle
    stay in place, open. *)
Theorem X14_teardown_is_per_model :
  forall (World : Type) (drv : Driver World) (st st' : @MState World)
         (r : Exn + unit),
    (disconnect drv st = (r, st') ->
     _async_pool (self st') = _async_pool (self st)
     /\ config (self st') = config (self st)
     /\ _mysql_version (self st') = _mysql_version (self st)
     /\ exists cl, calls (io st') = calls (io st) ++ cl
                   /\ forallb is_session_teardown cl = true)
    /\ (async_disconnect drv st = (r, st') ->
        _connection (self st') = _connection (self st)
        /\ _cursor (self st') = _cursor (self st)
        /\ config (self st') = config (self st)
        /\ exists cl, calls (io st') = calls (io st) ++ cl
                      /\ forallb is_pool_teardown cl = true).
Proof.
  intros World drv [i [name cfg conn flag cur ver pool]] st' r. split.
  - unfold disconnect. unfold_monad. cbn.
    repeat step; cbn; intros H; inversion H; subst; cbn;
      (repeat split; try reflexivity); solve_new_calls.
  - unfold async_disconnect. unfold_monad. cbn.
    repeat step; cbn; intros H; inversion H; subst; cbn;
      (repeat split; try reflexivity); solve_new_calls.
Qed.

Lemma X14_teardown_witness :
  _connection (self (snd (async_disconnect demo_driver open_state)))
  = _connection (self open_state)
  /\ _cursor (self (snd (async_disconnect demo_driver open_state)))
     = _cursor (self open_state)
  /\ config (self (snd (async_disconnect demo_driver open_state)))
     = config (self open_state)
  /\ exists cl,
       calls (io (snd (async_disconnect demo_driver open_state)))
       = calls (io open_state) ++ cl
       /\ forallb is_pool_teardown cl = true.
Proof.
  apply (proj2 (X14_teardown_is_per_model Z demo_driver open_state
                  (snd (async_disconnect demo_driver open_state))
                  (fst (async_disconnect demo_driver open_state)))).
  vm_compute. reflexivity.
Defined.

(** ** The registry of active connections (connection_tools.py) *)

Section DictFacts.

Context {V : Type}.

Lemma get_none_keys (k : string) (d : PyDict.t V) :
  PyDict.get k d = None <-> ~ In k (PyDict.keys d).
Proof.
  induction d as [|[k' v'] d IH]; cbn.
  - tauto.
  - destruct (String.eqb k k') eqn:E.
    + apply String.eqb_eq in E. subst. split; [discriminate | tauto].
    + apply String.eqb_neq in E. rewrite IH. split.
      * intros H [H1 | H1]; [congruence | tauto].
      * tauto.
Qed.

Lemma get_del_same (k : string) (d : PyDict.t V) :
  registry_ok d -> PyDict.get k (PyDict.del k d) = None.
Proof.
  unfold registry_ok. induction d as [|[k' v'] d IH]; cbn; intros Hd.
  - reflexivity.
  - apply NoDup_cons in Hd as [Hnot Hd]. rewrite list_elem_of_In in Hnot.
    destruct (String.eqb k k') eqn:E.
    + apply String.eqb_eq in E. subst. now apply get_none_keys.
    + cbn. rewrite E. auto.
Qed.

Lemma get_del_other (k k' : string) (d : PyDict.t V) :
  k' <> k -> PyDict.get k' (PyDict.del k d) = PyDict.get k' d.
Proof.
  intros Hne. induction d as [|[k0 v0] d IH]; cbn.
  - reflexivity.
  - destruct (String.eqb k k0) eqn:E.
    + apply String.eqb_eq in E. subst.
      apply String.eqb_neq in Hne. now rewrite Hne.
    + cbn. now rewrite IH.
Qed.

Lemma get_set_other (k k' : string) (v : V) (d : PyDict.t V) :
  k' <> k -> PyDict.get k' (PyDict.set k v d) = PyDict.get k' d.
Proof.
  intros Hne. induction d as [|[k0 v0] d IH]; cbn.
  - apply String.eqb_neq in Hne. now rewrite Hne.
  - destruct (String.eqb k k0) eqn:E; cbn.
    + apply String.eqb_eq in E. subst.
      apply String.eqb_neq in Hne. now rewrite Hne.
    + now rewrite IH.
Qed.

Lemma keys_del_subset (k k' : string) (d : PyDict.t V) :
  In k' (PyDict.keys (PyDict.del k d)) -> In k' (PyDict.keys d).
Proof.
  induction d as [|[k0 v0] d IH]; cbn; [tauto|].
  destruct (String.eqb k k0); cbn; tauto.
Qed.

Lemma registry_ok_del (k : string) (d : PyDict.t V) :
  registry_ok d -> registry_ok (PyDict.del k d).
Proof.
  unfold registry_ok. induction d as [|[k0 v0] d IH]; cbn; intros Hd; [assumption|].
  apply NoDup_cons in Hd as [Hnot Hd]. rewrite list_elem_of_In in Hnot.
  destruct (String.eqb k k0); [assumption|].
  cbn. apply NoDup_cons. split; [|auto].
  rewrite list_elem_of_In. intros H. apply Hnot. eapply keys_del_subset, H.
Qed.

Lemma keys_set_subset (k k' : string) (v : V) (d : PyDict.t V) :
  In k' (PyDict.keys (PyDict.set k v d)) -> k' = k \/ In k' (PyDict.keys d).
Proof.
  induction d as [|[k0 v0] d IH]; cbn.
  - intros [H | []]. now left.
  - destruct (String.eqb k k0) eqn:E; cbn.
    + apply String.eqb_eq in E. subst. tauto.
    + tauto.
Qed.

Lemma registry_ok_set (k : string) (v : V) (d : PyDict.t V) :
  registry_ok d -> registry_ok (PyDict.set k v d).
Proof.
  unfold registry_ok. induction d as [|[k0 v0] d IH]; cbn; intros Hd.
  - apply NoDup_cons. split; [|constructor]. rewrite list_elem_of_In. now intros [].
  - apply NoDup_cons in Hd as [Hnot Hd]. rewrite list_elem_of_In in Hnot.
    destruct (String.eqb k k0) eqn:E; cbn.
    + apply String.eqb_eq in E. subst. apply NoDup_cons.
      rewrite list_elem_of_In. now split.
    + apply String.eqb_neq in E. apply NoDup_cons. split; [|auto].
      rewrite list_elem_of_In. intros H. apply keys_set_subset in H as [H | H]; [congruence | tauto].
Qed.

End DictFacts.

(** X15: [disconnect] of an active name always reports success, also
    when the driver failed to close the session (the connection
    swallows that): the name leaves the registry, every other name keeps
    its connection, the registry of the other execution model is not
    touched, and the object once behind the name is marked as not
    connected. *)
Theorem X15_disconnect_removes_the_name :
  forall (World : Type) (drv : Driver World) (name : string)
         (st : @RState World) (db : nat) (o : MySQLConnection),
    registry_ok (_active_connections st) ->
    PyDict.get name (_active_connections st) = Some db ->
    heap st !! db = Some o ->
    exists st',
      ConnectionTools.disconnect drv name st
      = (inr (status
                [ ("success", s_bool true);
                  ("message", s_str ("Disconnected from '" +:+ name +:+ "'"));
                  ("active_connections",
                   SNames (PyDict.keys (PyDict.del name (_active_connections st)))) ]),
         st')
      /\ PyDict.mem name (_active_connections st') = false
      /\ (forall other, other <> name ->
            PyDict.get other (_active_connections st')
            = PyDict.get other (_active_connections st))
      /\ registry_ok (_active_connections st')
      /\ _async_active_connections st' = _async_active_connections st
      /\ exists o', heap st' !! db = Some o' /\ _is_connected o' = false.
Proof.
  intros World drv name [i h n a b] db o Hok Hget Hheap. cbn in *.
  destruct (disconnect_never_raises drv (mkMState i o)) as (ms & Hrun & Hflag).
  eexists. split; [|split; [|split; [|split; [|split]]]].
  - unfold ConnectionTools.disconnect, try_except.
    unfold bind at 1. cbn [gets _active_connections]. rewrite Hget.
    unfold bind at 1. unfold on_object at 1. cbn [heap r_io]. rewrite Hheap, Hrun.
    reflexivity.
  - cbn. unfold PyDict.mem. now rewrite get_del_same.
  - intros other Hne. cbn. now apply get_del_other.
  - cbn. now apply registry_ok_del.
  - reflexivity.
  - cbn. exists (self ms). split; [apply lookup_insert_eq | assumption].
Qed.

Lemma X15_disconnect_witness :
  exists st',
    ConnectionTools.disconnect demo_driver "main" two_registry
    = (inr (status
              [ ("success", s_bool true);
                ("message", s_str ("Disconnected from '" +:+ "main" +:+ "'"));
                ("active_connections",
                 SNames (PyDict.keys
                           (PyDict.del "main" (_active_connections two_registry)))) ]),
       st')
    /\ PyDict.mem "main" (_active_connections st') = false
    /\ (forall other, other <> "main" ->
          PyDict.get other (_active_connections st')
          = PyDict.get other (_active_connections two_registry))
    /\ registry_ok (_active_connections st')
    /\ _async_active_connections st' = _async_active_connections two_registry
    /\ exists o', heap st' !! 0%nat = Some o' /\ _is_connected o' = false.
Proof.
  apply (X15_disconnect_removes_the_name Z demo_driver "main" two_registry
           0%nat open_connection).
  - unfold registry_ok. cbn. apply (bool_decide_unpack _). vm_compute. exact I.
  - reflexivity.
  - vm_compute. reflexivity.
Defined.

(** X16: [disconnect] of a name that is not active changes nothing and
    issues no driver call; the status has [success] false and lists the
    names that are active. *)
Theorem X16_disconnect_unknown_name :
  forall (World : Type) (drv : Driver World) (name : string) (st : @RState World),
    PyDict.mem name (_active_connections st) = false ->
    ConnectionTools.disconnect drv name st
    = (inr (status
              [ ("success", s_bool false);
                ("error", s_str ("No active connection named '" +:+ name +:+ "'"));
                ("active_connections",
                 SNames (PyDict.keys (_active_connections st))) ]),
       st).
Proof.
  intros World drv name st H. unfold PyDict.mem in H.
  unfold ConnectionTools.disconnect, try_except, bind, gets.
  destruct (PyDict.get name (_active_connections st)); [discriminate H | reflexivity].
Qed.

Lemma X16_disconnect_unknown_witness :
  ConnectionTools.disconnect demo_driver "main" fresh_registry
  = (inr (status
            [ ("success", s_bool false);
              ("error", s_str ("No active connection named '" +:+ "main" +:+ "'"));
              ("active_connections",
               SNames (PyDict.keys (_active_connections fresh_registry))) ]),
     fresh_registry).
Proof.
  apply (X16_disconnect_unknown_name Z demo_driver "main" fresh_registry).
  reflexivity.
Defined.

Section StoreFacts.

Context {World : Type} (drv : Driver World).

Lemma rio_store {A : Type} (m : M (IO World) A) (s s' : @RState World) r :
  rio m s = (r, s') ->
  heap s' = heap s /\ next_ref s' = next_ref s
  /\ _active_connections s' = _active_connections s
  /\ _async_active_connections s' = _async_active_connections s.
Proof.
  unfold rio, zoom. destruct (m (r_io s)) as [r0 i]. intros H.
  inversion H; subst. cbn. auto.
Qed.

Lemma on_object_store {A : Type} (db : nat) (m : @Meth World A)
    (s s' : @RState World) r :
  on_object db m s = (r, s') ->
  next_ref s' = next_ref s
  /\ (forall ref, ref <> db -> heap s' !! ref = heap s !! ref).
Proof.
  unfold on_object. destruct (heap s !! db) as [o|].
  - destruct (m _) as [r0 ms]. intros H. inversion H; subst. cbn.
    split; [reflexivity|]. intros ref Hne. now apply lookup_insert_ne.
  - intros H. inversion H; subst. auto.
Qed.

Lemma create_store (name : string) (cfg : gmap string PyVal)
    (s s' : @RState World) r :
  create_mysql_connection drv name cfg s = (r, s') ->
  next_ref s' = S (next_ref s)
  /\ _active_connections s' = _active_connections s
  /\ _async_active_connections s' = _async_active_connections s
  /\ (forall ref, ref <> next_ref s -> heap s' !! ref = heap s !! ref)
  /\ (forall db, r = inr db -> db = next_ref s).
Proof.
  unfold create_mysql_connection, bind, new_object, on_object. cbn.
  rewrite lookup_insert_eq.
  destruct (connect drv cfg _) as [[e|b] ms]; intros H; inversion H; subst; cbn;
    (repeat split; try reflexivity;
     [ intros ref Hne; now rewrite !lookup_insert_ne by congruence
     | intros db Hdb; congruence ]).
Qed.

Lemma load_config_store (name : string) (config : option (gmap string PyVal))
    (s s' : @RState World) r :
  ConnectionTools.load_config drv name config s = (r, s') ->
  heap s' = heap s /\ next_ref s' = next_ref s
  /\ _active_connections s' = _active_connections s
  /\ _async_active_connections s' = _async_active_connections s.
Proof.
  unfold ConnectionTools.load_config. destruct config as [cfg|].
  - intros H. inversion H; subst. auto.
  - unfold bind. destruct (rio _ s) as [[e|file] s1] eqn:E; intros H.
    + inversion H; subst. eapply rio_store, E.
    + apply rio_store in E.
      destruct file as [[e|cfg]|]; inversion H; subst; exact E.
Qed.

Lemma db_type_of_store (cfg : gmap string PyVal) (s s' : @RState World) r :
  ConnectionTools.db_type_of cfg s = (r, s') -> s' = s.
Proof.
  unfold ConnectionTools.db_type_of.
  destruct (dict_get_default cfg "type" (VStr "mysql")); intros H;
    inversion H; reflexivity.
Qed.

End StoreFacts.

(** X17: [connect] works on its own name only.  Whatever the outcome,
    the registry of the non-blocking connections is as before, every
    other name is bound as before, the registry stays a dictionary, and
    no object that existed before the call is modified. *)
Theorem X17_connect_leaves_other_connections :
  forall (World : Type) (drv : Driver World) (name : string)
         (config : option (gmap string PyVal)) (st st' : @RState World)
         (r : Exn + gmap string StatusVal),
    ConnectionTools.connect drv name config st = (r, st') ->
    _async_active_connections st' = _async_active_connections st
    /\ (forall other, other <> name ->
          PyDict.get other (_active_connections st')
          = PyDict.get other (_active_connections st))
    /\ (registry_ok (_active_connections st) ->
        registry_ok (_active_connections st'))
    /\ (forall ref, (ref < next_ref st)%nat -> heap st' !! ref = heap st !! ref).
Proof.
  intros World drv name config st st' r H.
  assert (Hframe :
    _async_active_connections st' = _async_active_connections st
    /\ (_active_connections st' = _active_connections st
        \/ _active_connections st'
           = PyDict.set name (next_ref st) (_active_connections st))
    /\ (forall ref, ref <> next_ref st -> heap st' !! ref = heap st !! ref)).
  { unfold ConnectionTools.connect, try_except in H.
    destruct (bind _ _ st) as [[e|a] s1] eqn:Hbody.
    2:{ inversion H; subst; clear H. revert Hbody.
        unfold bind at 1. cbn [gets].
        destruct (PyDict.mem name (_active_connections st)).
        { intros H. inversion H; subst. auto. }
        unfold bind at 1.
        destruct (ConnectionTools.load_config drv name config st)
          as [[e|loaded] s0] eqn:Hload; [discriminate|].
        apply load_config_store in Hload as (Hh0 & Hn0 & Ha0 & Hb0).
        destruct loaded as [cfg|].
        2:{ intros H. inversion H; subst. rewrite Hh0, Ha0, Hb0. auto. }
        unfold bind at 1.
        destruct (ConnectionTools.db_type_of cfg s0) as [[e|db_type] s0'] eqn:Htype;
          [discriminate|].
        apply db_type_of_store in Htype. subst s0'.
        destruct (String.eqb db_type "mysql").
        2:{ intros H. inversion H; subst. rewrite Hh0, Ha0, Hb0. auto. }
        unfold bind at 1.
        destruct (create_mysql_connection drv name cfg s0) as [[e|db] s2] eqn:Hcreate;
          [discriminate|].
        apply create_store in Hcreate as (Hn2 & Ha2 & Hb2 & Hh2 & Hdb).
        specialize (Hdb db eq_refl). subst db.
        unfold bind at 1. unfold set_active at 1, modify at 1.
        unfold bind at 1.
        destruct (on_object (next_ref s0) (test_connection drv) _)
          as [[e|[success message]] s3] eqn:Htest; [discriminate|].
        pose proof (on_object_registries _ _ _ _ _ Htest) as [Ha3 Hb3].
        apply on_object_store in Htest as [Hn3 Hh3]. cbn in Ha3, Hb3, Hn3, Hh3.
        unfold bind at 1.
        destruct (on_object (next_ref s0) (attr mysql_version) s3)
          as [[e|version] s4] eqn:Hattr; [discriminate|].
        pose proof (on_object_registries _ _ _ _ _ Hattr) as [Ha4 Hb4].
        apply on_object_store in Hattr as [Hn4 Hh4].
        unfold bind at 1. cbn [gets]. intros H. inversion H; subst.
        rewrite Hb4, Hb3, Hb2, Hb0, Ha4, Ha3, Ha2, Ha0, <- Hn0.
        split; [reflexivity|]. split; [now right|].
        intros ref Hne. rewrite Hh4, Hh3, Hh2, Hh0 by congruence. reflexivity. }
    assert (Hs1 :
      _async_active_connections s1 = _async_active_connections st
      /\ (_active_connections s1 = _active_connections st
          \/ _active_connections s1
             = PyDict.set name (next_ref st) (_active_connections st))
      /\ (forall ref, ref <> next_ref st -> heap s1 !! ref = heap st !! ref)).
    { revert Hbody. unfold bind at 1. cbn [gets].
      destruct (PyDict.mem name (_active_connections st)); [discriminate|].
      unfold bind at 1.
      destruct (ConnectionTools.load_config drv name config st)
        as [[e0|loaded] s0] eqn:Hload.
      { apply load_config_store in Hload as (Hh0 & Hn0 & Ha0 & Hb0).
        intros H0. inversion H0; subst. rewrite Hh0, Ha0, Hb0. auto. }
      apply load_config_store in Hload as (Hh0 & Hn0 & Ha0 & Hb0).
      destruct loaded as [cfg|]; [|discriminate].
      unfold bind at 1.
      destruct (ConnectionTools.db_type_of cfg s0) as [[e0|db_type] s0'] eqn:Htype.
      { apply db_type_of_store in Htype. subst s0'.
        intros H0. inversion H0; subst. rewrite Hh0, Ha0, Hb0. auto. }
      apply db_type_of_store in Htype. subst s0'.
      destruct (String.eqb db_type "mysql"); [|discriminate].
      unfold bind at 1.
      destruct (create_mysql_connection drv name cfg s0) as [[e0|db] s2] eqn:Hcreate.
      { apply create_store in Hcreate as (Hn2 & Ha2 & Hb2 & Hh2 & _).
        intros H0. inversion H0; subst. rewrite Ha2, Hb2, Ha0, Hb0, <- Hn0.
        split; [reflexivity|]. split; [now left|].
        intros ref Hne. rewrite Hh2, Hh0 by congruence. reflexivity. }
      apply create_store in Hcreate as (Hn2 & Ha2 & Hb2 & Hh2 & Hdb).
      specialize (Hdb db eq_refl). subst db.
      unfold bind at 1. unfold set_active at 1, modify at 1.
      unfold bind at 1.
      destruct (on_object (next_ref s0) (test_connection drv) _)
        as [[e0|[success message]] s3] eqn:Htest.
      { pose proof (on_object_registries _ _ _ _ _ Htest) as [Ha3 Hb3].
        apply on_object_store in Htest as [Hn3 Hh3]. cbn in Ha3, Hb3, Hn3, Hh3.
        intros H0. inversion H0; subst.
        rewrite Hb3, Hb2, Hb0, Ha3, Ha2, Ha0, <- Hn0.
        split; [reflexivity|]. split; [now right|].
        intros ref Hne. rewrite Hh3, Hh2, Hh0 by congruence. reflexivity. }
      pose proof (on_object_registries _ _ _ _ _ Htest) as [Ha3 Hb3].
      apply on_object_store in Htest as [Hn3 Hh3]. cbn in Ha3, Hb3, Hn3, Hh3.
      unfold bind at 1.
      destruct (on_object (next_ref s0) (attr mysql_version) s3)
        as [[e0|version] s4] eqn:Hattr; [|discriminate].
      pose proof (on_object_registries _ _ _ _ _ Hattr) as [Ha4 Hb4].
      apply on_object_store in Hattr as [Hn4 Hh4].
      intros H0. inversion H0; subst.
      rewrite Hb4, Hb3, Hb2, Hb0, Ha4, Ha3, Ha2, Ha0, <- Hn0.
      split; [reflexivity|]. split; [now right|].
      intros ref Hne. rewrite Hh4, Hh3, Hh2, Hh0 by congruence. reflexivity. }
    unfold bind in H.
    destruct (rio _ s1) as [[e1|u] s2] eqn:Hlog.
    - apply rio_store in Hlog as (Hh & Hn & Ha & Hb).
      inversion H; subst. rewrite Hh, Ha, Hb. exact Hs1.
    - apply rio_store in Hlog as (Hh & Hn & Ha & Hb).
      inversion H; subst. rewrite Hh, Ha, Hb. exact Hs1. }
  destruct Hframe as (Hasync & Hactive & Hheap).
  split; [exact Hasync|]. split; [|split].
  - intros other Hne. destruct Hactive as [-> | ->]; [reflexivity|].
    now apply get_set_other.
  - intros Hok. destruct Hactive as [-> | ->]; [exact Hok|].
    now apply registry_ok_set.
  - intros ref Hlt. apply Hheap. lia.
Qed.

Lemma X17_connect_witness :
  _async_active_connections
    (snd (ConnectionTools.connect demo_driver "replica" (Some literal_config)
            demo_registry))
  = _async_active_connections demo_registry
  /\ (forall other, other <> "replica" ->
        PyDict.get other
          (_active_connections
             (snd (ConnectionTools.connect demo_driver "replica" (Some literal_config)
                     demo_registry)))
        = PyDict.get other (_active_connections demo_registry))
  /\ (registry_ok (_active_connections demo_registry) ->
      registry_ok
        (_active_connections
           (snd (ConnectionTools.connect demo_driver "replica" (Some literal_config)
                   demo_registry))))
  /\ (forall ref, (ref < next_ref demo_registry)%nat ->
        heap (snd (ConnectionTools.connect demo_driver "replica" (Some literal_config)
                     demo_registry)) !! ref
        = heap demo_registry !! ref).
Proof.
  apply (X17_connect_leaves_other_connections Z demo_driver "replica"
           (Some literal_config) demo_registry
           (snd (ConnectionTools.connect demo_driver "replica" (Some literal_config)
                   demo_registry))
           (fst (ConnectionTools.connect demo_driver "replica" (Some literal_config)
                   demo_registry))).
  vm_compute. reflexivity.
Defined.

Example connect_second_name :
  PyDict.keys
    (_active_connections
       (snd (ConnectionTools.connect demo_driver "replica" (Some literal_config)
               demo_registry)))
  = ["main"; "replica"].
Proof. vm_compute. reflexivity. Qed.

(** X18: a failed handshake registers nothing.  When the connection
    cannot be created, [connect] reports the failure with the text of
    the error and the name stays free, so that the call can be
    repeated. *)
Theorem X18_failed_handshake_registers_nothing :
  forall (World : Type) (drv : Driver World) (name : string)
         (config : option (gmap string PyVal)) (cfg : gmap string PyVal)
         (st st0 st1 : @RState World) (e : Exn),
    PyDict.mem name (_active_connections st) = false ->
    ConnectionTools.load_config drv name config st = (inr (Some cfg), st0) ->
    ConnectionTools.db_type_of cfg st0 = (inr "mysql", st0) ->
    create_mysql_connection drv name cfg st0 = (inl e, st1) ->
    exists st',
      ConnectionTools.connect drv name config st
      = (inr (status [ ("success", s_bool false);
                       ("error", s_str ("Connection failed: " +:+ exn_str e));
                       ("connection_name", s_str name) ]),
         st')
      /\ _active_connections st' = _active_connections st
      /\ PyDict.mem name (_active_connections st') = false
      /\ In (mkLog ERROR ("Connection failed: " +:+ exn_str e))
            (logs (r_io st')).
Proof.
  intros World drv name config cfg st st0 st1 e Hfree Hload Htype Hcreate.
  pose proof (load_config_store drv _ _ _ _ _ Hload) as (_ & _ & Ha0 & _).
  pose proof (create_store drv _ _ _ _ _ Hcreate) as (_ & Ha1 & _).
  eexists. split; [|split; [|split]].
  - unfold ConnectionTools.connect, try_except.
    unfold bind at 1. cbn [gets]. rewrite Hfree.
    unfold bind at 1. rewrite Hload.
    unfold bind at 1. rewrite Htype. cbn [String.eqb Ascii.eqb Bool.eqb].
    unfold bind at 1. rewrite Hcreate.
    unfold bind, rio, zoom, log, modify, ret. cbn. reflexivity.
  - cbn. now rewrite Ha1, Ha0.
  - cbn. now rewrite Ha1, Ha0.
  - cbn. apply in_or_app. right. now left.
Qed.

Lemma X18_failed_handshake_witness :
  exists st',
    ConnectionTools.connect refusing_driver "db1" (Some literal_config) fresh_registry
    = (inr (status
              [ ("success", s_bool false);
                ("error",
                 s_str ("Connection failed: "
                        +:+ exn_str
                              (DatabaseConnectionError
                                 "MySQL connection failed: (1045, Access denied)")));
                ("connection_name", s_str "db1") ]),
       st')
    /\ _active_connections st' = _active_connections fresh_registry
    /\ PyDict.mem "db1" (_active_connections st') = false
    /\ In (mkLog ERROR
             ("Connection failed: "
              +:+ exn_str
                    (DatabaseConnectionError
                       "MySQL connection failed: (1045, Access denied)")))
          (logs (r_io st')).
Proof.
  apply (X18_failed_handshake_registers_nothing Z refusing_driver "db1"
           (Some literal_config) literal_config fresh_registry fresh_registry
           (snd (create_mysql_connection refusing_driver "db1" literal_config
                   fresh_registry))).
  - reflexivity.
  - reflexivity.
  - reflexivity.
  - vm_compute. reflexivity.
Defined.

(** ** The details of a table (mysql.py, [_get_table_details]) *)

Section DetailFacts.

Lemma truthy_get (d : gmap string PyVal) (k : string) (dflt : PyVal) :
  truthy (dict_get d k) = true ->
  d !! k = Some (dict_get d k) /\ dict_get_default d k dflt = dict_get d k.
Proof.
  unfold dict_get, dict_get_default. destruct (d !! k); cbn; [auto | discriminate].
Qed.

Lemma eq_str_get (d : gmap string PyVal) (k s : string) (dflt : PyVal) :
  eq_str (dict_get d k) s = true -> dict_get_default d k dflt = VStr s.
Proof.
  unfold dict_get, dict_get_default. destruct (d !! k) as [[]|]; cbn; try discriminate.
  intros H. apply String.eqb_eq in H. now subst.
Qed.

Lemma primary_key_column (col : gmap string PyVal) (pk : PyVal) :
  primary_key_of col = Some pk ->
  truthy pk = true
  /\ column_info col !! "name" = Some pk
  /\ column_info col !! "key" = Some (VStr "PRI").
Proof.
  unfold primary_key_of.
  destruct (eq_str (dict_get col "COLUMN_KEY") "PRI") eqn:Hkey; [|discriminate].
  destruct (truthy (dict_get col "COLUMN_NAME")) eqn:Hname; [|discriminate].
  intros H. inversion H; subst. split; [exact Hname|].
  apply (truthy_get _ _ (VStr "")) in Hname as [_ Hname].
  apply (eq_str_get _ _ _ (VStr "")) in Hkey.
  unfold column_info, dict_of_pairs. cbn [foldl fst snd].
  rewrite Hname, Hkey. split.
  - repeat (rewrite lookup_insert_ne by discriminate). apply lookup_insert_eq.
  - repeat (rewrite lookup_insert_ne by discriminate). apply lookup_insert_eq.
Qed.

Lemma primary_keys_name_columns (rows : list (gmap string PyVal)) :
  Forall (names_primary_column (map column_info rows)) (omap primary_key_of rows).
Proof.
  apply Forall_forall. intros pk Hpk.
  apply list_elem_of_omap in Hpk as (row & Hrow & Hpk).
  apply primary_key_column in Hpk as (Ht & Hn & Hk).
  split; [exact Ht|]. exists (column_info row). split; [|auto].
  apply in_map. now apply list_elem_of_In.
Qed.

Lemma fk_info_complete (row fk : gmap string PyVal) :
  fk_info row = Some fk -> complete_foreign_key fk.
Proof.
  unfold fk_info.
  destruct (truthy (dict_get row "COLUMN_NAME")) eqn:H1; [|discriminate].
  destruct (truthy (dict_get row "REFERENCED_TABLE_NAME")) eqn:H2; [|discriminate].
  destruct (truthy (dict_get row "REFERENCED_COLUMN_NAME")) eqn:H3; [|discriminate].
  destruct (truthy (dict_get row "CONSTRAINT_NAME")) eqn:H4; [|discriminate].
  cbn [andb]. intros H. inversion H; subst. clear H.
  intros k Hk. unfold dict_of_pairs. cbn [foldl fst snd].
  cbn in Hk. destruct Hk as [<- | [<- | [<- | [<- | []]]]];
    (eexists; split;
     [ repeat (rewrite lookup_insert_ne by discriminate); apply lookup_insert_eq
     | assumption ]).
Qed.

Lemma foreign_keys_complete (rows : list (gmap string PyVal)) :
  Forall complete_foreign_key (omap fk_info rows).
Proof.
  apply Forall_forall. intros fk Hfk.
  apply list_elem_of_omap in Hfk as (row & _ & Hfk).
  eapply fk_info_complete, Hfk.
Qed.

Lemma append_to_last_app (column : PyVal) (indexes : list IndexInfo) (ix : IndexInfo) :
  append_to_last column (indexes ++ [ix])
  = indexes ++ [mkIndexInfo (ix_name ix) (ix_unique ix) (ix_type ix)
                            (ix_columns ix ++ [column])].
Proof.
  induction indexes as [|ix0 rest IH]; [reflexivity|].
  cbn [app]. rewrite <- IH. cbn [append_to_last].
  destruct (rest ++ [ix]) eqn:E; [|reflexivity].
  now destruct rest.
Qed.

Lemma append_to_last_named (column : PyVal) (indexes : list IndexInfo) :
  Forall named_index indexes -> Forall named_index (append_to_last column indexes).
Proof.
  induction indexes as [|ix rest IH]; intros H; [constructor|].
  apply Forall_cons in H as [[Hn Hc] Hrest]. cbn [append_to_last].
  destruct rest as [|ix' rest'].
  - constructor; [|constructor]. split; [exact Hn|]. cbn. now destruct (ix_columns ix).
  - constructor; [now split | now apply IH].
Qed.

Lemma index_step_named (acc : PyVal * list IndexInfo) (idx : gmap string PyVal) :
  Forall named_index (snd acc) -> Forall named_index (snd (index_step acc idx)).
Proof.
  destruct acc as [current indexes]. cbn [snd]. intros H. unfold index_step.
  destruct (truthy (dict_get idx "INDEX_NAME")) eqn:Hname; cbn [andb].
  - destruct (negb (py_eq (dict_get idx "INDEX_NAME") current)).
    + cbn [snd]. apply Forall_app. split; [exact H|].
      constructor; [|constructor]. split; [exact Hname | discriminate].
    + destruct (truthy current && truthy (dict_get idx "COLUMN_NAME"));
        cbn [snd]; [now apply append_to_last_named | exact H].
  - destruct (truthy current && truthy (dict_get idx "COLUMN_NAME"));
      cbn [snd]; [now apply append_to_last_named | exact H].
Qed.

Lemma indexes_named (rows : list (gmap string PyVal)) (acc : PyVal * list IndexInfo) :
  Forall named_index (snd acc) -> Forall named_index (snd (foldl index_step acc rows)).
Proof.
  revert acc. induction rows as [|row rows IH]; intros acc H; [exact H|].
  cbn [foldl]. apply IH. now apply index_step_named.
Qed.

Lemma py_eq_refl (v : PyVal) : py_eq v v = true.
Proof.
  destruct v as [|b|n|s]; cbn;
    [reflexivity | now destruct b | apply Z.eqb_refl | apply String.eqb_refl].
Qed.

Lemma index_run (name : PyVal) (rows : list (gmap string PyVal)) :
  truthy name = true ->
  Forall (fun row => dict_get row "INDEX_NAME" = name
                     /\ truthy (dict_get row "COLUMN_NAME") = true) rows ->
  forall (indexes : list IndexInfo) (ix : IndexInfo),
    foldl index_step (name, indexes ++ [ix]) rows
    = (name,
       indexes ++ [mkIndexInfo (ix_name ix) (ix_unique ix) (ix_type ix)
                               (ix_columns ix ++ map index_column rows)]).
Proof.
  intros Hname Hrows.
  induction Hrows as [|row rows [Hrow Hcol] _ IH]; intros indexes ix.
  - cbn. rewrite app_nil_r. now destruct ix.
  - cbn [foldl map]. unfold index_step at 2.
    rewrite Hrow, Hname, py_eq_refl, Hcol. cbn [andb negb].
    rewrite append_to_last_app, IH. cbn [ix_name ix_unique ix_type ix_columns].
    fold (index_column row). now rewrite <- app_assoc.
Qed.

End DetailFacts.

Lemma details_well_formed {World : Type} (drv : Driver World) (table_name : string)
    (st st' : @MState World) (td : TableDetails) :
  _get_table_details drv table_name st = (inr td, st') ->
  td_name td = table_name
  /\ Forall (names_primary_column (td_columns td)) (td_primary_keys td)
  /\ (length (td_primary_keys td) <= length (td_columns td))%nat
  /\ Forall complete_foreign_key (td_foreign_keys td)
  /\ Forall named_index (td_indexes td).
Proof.
  intros H. unfold _get_table_details in H.
  repeat (let a := fresh "a" in let s := fresh "s" in let F := fresh "F" in
          apply bind_inr in H as (a & s & F & H)).
  inversion H; subst. cbn. split; [reflexivity|]. split; [|split; [|split]].
  - apply primary_keys_name_columns.
  - rewrite length_map. apply length_omap_le.
  - apply foreign_keys_complete.
  - apply indexes_named. constructor.
Qed.

(** X19: the details [_get_table_details] returns are well formed,
    whatever rows the catalog delivers: every primary key is a
    non-empty name and is the [name] of a column marked [PRI], so there
    are no more primary keys than columns; every foreign key has its
    four values, none of them empty; every index has a name and at
    least one column. *)
Theorem X19_table_details_well_formed :
  forall (World : Type) (drv : Driver World) (table_name : string)
         (st st' : @MState World) (td : TableDetails),
    _get_table_details drv table_name st = (inr td, st') ->
    td_name td = table_name
    /\ Forall (names_primary_column (td_columns td)) (td_primary_keys td)
    /\ (length (td_primary_keys td) <= length (td_columns td))%nat
    /\ Forall complete_foreign_key (td_foreign_keys td)
    /\ Forall named_index (td_indexes td).
Proof.
  intros World drv table_name st st' td H.
  now apply (details_well_formed drv table_name st st' td).
Qed.

Lemma X19_table_details_witness :
  td_name orders_details = "orders"
  /\ Forall (names_primary_column (td_columns orders_details))
            (td_primary_keys orders_details)
  /\ (length (td_primary_keys orders_details) <= length (td_columns orders_details))%nat
  /\ Forall complete_foreign_key (td_foreign_keys orders_details)
  /\ Forall named_index (td_indexes orders_details).
Proof.
  apply (X19_table_details_well_formed Z catalog_driver "orders" open_state
           (snd (_get_table_details catalog_driver "orders" open_state))
           orders_details).
  vm_compute. reflexivity.
Defined.

Example orders_details_value :
  td_primary_keys orders_details = [VStr "id"]
  /\ length (td_columns orders_details) = 2%nat
  /\ length (td_foreign_keys orders_details) = 1%nat
  /\ td_indexes orders_details
     = [mkIndexInfo (VStr "ix_owner") false (VStr "BTREE") [VStr "owner"; VStr "id"]].
Proof. repeat split; vm_compute; reflexivity. Qed.

(** X20: the loop over the index rows groups consecutive rows of one
    index name: a run of rows that carry the same name, other than the
    name seen last, adds exactly one index; it takes uniqueness and type
    from the first row of the run and lists the columns of all rows in
    their order. *)
Theorem X20_index_rows_are_grouped :
  forall (name current : PyVal) (first : gmap string PyVal)
         (rows : list (gmap string PyVal)) (indexes : list IndexInfo),
    truthy name = true ->
    py_eq name current = false ->
    Forall (fun row => dict_get row "INDEX_NAME" = name
                       /\ truthy (dict_get row "COLUMN_NAME") = true)
           (first :: rows) ->
    foldl index_step (current, indexes) (first :: rows)
    = (name,
       indexes
       ++ [mkIndexInfo name
             (py_eq (dict_get_default first "NON_UNIQUE" (VInt 1)) (VInt 0))
             (dict_get_default first "INDEX_TYPE" (VStr ""))
             (map index_column (first :: rows))]).
Proof.
  intros name current first rows indexes Hname Hnew Hrows.
  apply Forall_cons in Hrows as [[Hfirst _] Hrows].
  cbn [foldl]. unfold index_step at 2. rewrite Hfirst, Hname, Hnew. cbn [andb negb].
  rewrite (index_run name rows Hname Hrows). reflexivity.
Qed.

Lemma X20_index_rows_witness :
  foldl index_step (VNone, []) orders_index_rows
  = (VStr "ix_owner",
     [] ++ [mkIndexInfo (VStr "ix_owner")
              (py_eq (dict_get_default
                        (dict_of_pairs
                           [ ("INDEX_NAME", VStr "ix_owner");
                             ("COLUMN_NAME", VStr "owner");
                             ("NON_UNIQUE", VInt 1); ("INDEX_TYPE", VStr "BTREE") ])
                        "NON_UNIQUE" (VInt 1)) (VInt 0))
              (dict_get_default
                 (dict_of_pairs
                    [ ("INDEX_NAME", VStr "ix_owner"); ("COLUMN_NAME", VStr "owner");
                      ("NON_UNIQUE", VInt 1); ("INDEX_TYPE", VStr "BTREE") ])
                 "INDEX_TYPE" (VStr ""))
              (map index_column orders_index_rows)]).
Proof.
  apply (X20_index_rows_are_grouped (VStr "ix_owner") VNone
           (dict_of_pairs
              [ ("INDEX_NAME", VStr "ix_owner"); ("COLUMN_NAME", VStr "owner");
                ("NON_UNIQUE", VInt 1); ("INDEX_TYPE", VStr "BTREE") ])
           [ dict_of_pairs
               [ ("INDEX_NAME", VStr "ix_owner"); ("COLUMN_NAME", VStr "id");
                 ("NON_UNIQUE", VInt 1); ("INDEX_TYPE", VStr "BTREE") ] ]
           []).
  - reflexivity.
  - reflexivity.
  - repeat constructor.
Defined.

(** ** Errors of the schema methods (mysql.py, [get_table_schema] and
       [async_get_table_schema]) *)

(** X21: whatever goes wrong inside [get_table_schema] or
    [async_get_table_schema], the caller sees a plain
    [DatabaseQueryError] whose message embeds the text of the cause, and
    the failure is logged.  The kind of the cause is lost: a catalog
    query that timed out is not reported as a [DatabaseTimeoutError]. *)
Theorem X21_schema_errors_are_query_errors :
  forall (World : Type) (drv : Driver World) (table_name : string)
         (st st' : @MState World) (e : Exn),
    (get_table_schema drv table_name st = (inl e, st') ->
     exists cause,
       e = DatabaseQueryError ("Failed to get table schema: " +:+ exn_str cause)
       /\ is_query_error e = true /\ is_timeout_error e = false
       /\ In (mkLog ERROR ("Error getting table schema for " +:+ table_name +:+ ": "
                           +:+ exn_str cause))
             (logs (io st')))
    /\ (async_get_table_schema drv table_name st = (inl e, st') ->
        exists cause,
          e = DatabaseQueryError ("Failed to async get table schema: "
                                  +:+ exn_str cause)
          /\ is_query_error e = true /\ is_timeout_error e = false
          /\ In (mkLog ERROR ("Error async getting table schema: " +:+ exn_str cause))
                (logs (io st'))).
Proof.
  intros World drv table_name st st' e. split; intros H.
  - unfold get_table_schema, try_except in H.
    match type of H with
    | context [match ?body st with _ => _ end] =>
        destruct (body st) as [[cause|r] [i o]]
    end; [|discriminate H].
    unfold bind, io_, zoom, log, modify, raise in H. cbn in H.
    inversion H; subst. exists cause. repeat split.
    cbn. apply in_or_app. right. now left.
  - unfold async_get_table_schema, try_except in H.
    match type of H with
    | context [match ?body st with _ => _ end] =>
        destruct (body st) as [[cause|r] [i o]]
    end; [|discriminate H].
    unfold bind, io_, zoom, log, modify, raise in H. cbn in H.
    inversion H; subst. exists cause. repeat split.
    cbn. apply in_or_app. right. now left.
Qed.

Lemma X21_schema_timeout_witness :
  exists cause,
    DatabaseQueryError "Failed to get table schema: Query exceeded 30 second timeout"
    = DatabaseQueryError ("Failed to get table schema: " +:+ exn_str cause)
    /\ is_query_error
         (DatabaseQueryError "Failed to get table schema: Query exceeded 30 second timeout")
       = true
    /\ is_timeout_error
         (DatabaseQueryError "Failed to get table schema: Query exceeded 30 second timeout")
       = false
    /\ In (mkLog ERROR ("Error getting table schema for " +:+ "orders" +:+ ": "
                        +:+ exn_str cause))
          (logs (io (snd (get_table_schema slow_driver "orders" open_state)))).
Proof.
  apply (proj1 (X21_schema_errors_are_query_errors Z slow_driver "orders" open_state
                  (snd (get_table_schema slow_driver "orders" open_state))
                  (DatabaseQueryError
                     "Failed to get table schema: Query exceeded 30 second timeout"))).
  vm_compute. reflexivity.
Defined.

Example timeout_kind_is_lost :
  (exists e, fst (execute_query slow_driver check_query None 1000 30 open_state) = inl e
             /\ is_timeout_error e = true)
  /\ (exists e, fst (get_table_schema slow_driver "orders" open_state) = inl e
                /\ is_timeout_error e = false).
Proof. split; eexists; split; vm_compute; reflexivity. Qed.

Lemma async_failure_result {World : Type} (drv : Driver World) (st : @MState World)
    (query : string) (params : option Params) (max_rows timeout : Z)
    (p : Pool) (t0 : Z) (w1 : World) (conn : Session) (w2 w3 w4 : World) (e : Exn) :
  _async_pool (self st) = Some p ->
  time_time drv (world (io st)) = (t0, w1) ->
  pool_acquire drv p w1 = (inr conn, w2) ->
  aconn_cursor drv conn w2 = (None, w3) ->
  acursor_execute drv conn query (async_args params) timeout w3 = (Failed e, w4) ->
  is_asyncio_timeout e = false ->
  exists r st',
    async_execute_query drv query params max_rows timeout st = (inr r, st')
    /\ data r = []
    /\ self st' = self st
    /\ In (mkLog ERROR ("Async query error: " +:+ "Query execution failed: "
                        +:+ exn_str e +:+ newline
                        +:+ "Query: " +:+ PyStr.take 200 query))
          (logs (io st')).
Proof.
  destruct st as [i o]. cbn. intros Hpool Hclock Hacq Hcur Hexec Hnot.
  unfold async_execute_query. unfold_monad. cbn.
  rewrite Hclock. cbn. rewrite Hpool. cbn. rewrite Hacq. cbn. rewrite Hcur. cbn.
  rewrite Hexec. cbn. rewrite Hnot. cbn. destruct (time_time drv w4) as [t4 w5].
  do 2 eexists. split; [reflexivity|]. split; [reflexivity|]. split; [reflexivity|].
  cbn. apply in_or_app. right. now left.
Qed.

(** X22: in the non-blocking path a failed catalog check reads as an
    absent table.  When the check statement fails with an error other
    than a timeout, [async_execute_query] returns a result without rows,
    and [async_get_table_schema] returns [None] as it does for a table
    that does not exist; the error shows in the log only. *)
Theorem X22_failed_async_check_reads_as_absent :
  forall (World : Type) (drv : Driver World) (table_name : string)
         (database : PyVal) (st : @MState World)
         (p : Pool) (t0 : Z) (w1 : World) (conn : Session) (w2 w3 w4 : World)
         (e : Exn),
    config (self st) !! "database" = Some database ->
    _async_pool (self st) = Some p ->
    time_time drv (world (io st)) = (t0, w1) ->
    pool_acquire drv p w1 = (inr conn, w2) ->
    aconn_cursor drv conn w2 = (None, w3) ->
    acursor_execute drv conn check_query
      (async_args (check_params database table_name)) 30 w3 = (Failed e, w4) ->
    is_asyncio_timeout e = false ->
    exists st',
      async_get_table_schema drv table_name st = (inr None, st')
      /\ self st' = self st
      /\ In (mkLog ERROR ("Async query error: " +:+ "Query execution failed: "
                          +:+ exn_str e +:+ newline
                          +:+ "Query: " +:+ PyStr.take 200 check_query))
            (logs (io st')).
Proof.
  intros World drv table_name database st p t0 w1 conn w2 w3 w4 e
         Hdb Hpool Hclock Hacq Hcur Hexec Hnot.
  destruct (async_failure_result drv st check_query (check_params database table_name)
              1000 30 p t0 w1 conn w2 w3 w4 e Hpool Hclock Hacq Hcur Hexec Hnot)
    as (r & st' & Hrun & Hdata & Hself & Hlog).
  exists st'. split; [|split; assumption].
  unfold async_get_table_schema, try_except.
  unfold bind at 1. rewrite (table_params_ok table_name database st Hdb).
  unfold bind at 1. rewrite Hrun, Hdata. reflexivity.
Qed.

Lemma X22_failed_async_check_witness :
  exists st',
    async_get_table_schema denying_driver "orders" open_state = (inr None, st')
    /\ self st' = self open_state
    /\ In (mkLog ERROR ("Async query error: " +:+ "Query execution failed: "
                        +:+ exn_str (PyMySQLOperationalError
                                       "(1142, SELECT command denied)")
                        +:+ newline
                        +:+ "Query: " +:+ PyStr.take 200 check_query))
          (logs (io st')).
Proof.
  apply (X22_failed_async_check_reads_as_absent Z denying_driver "orders" (VStr "d")
           open_state 2%nat 0 1 3%nat 1 1 1
           (PyMySQLOperationalError "(1142, SELECT command denied)")).
  - reflexivity.
  - reflexivity.
  - reflexivity.
  - reflexivity.
  - reflexivity.
  - vm_compute. reflexivity.
  - reflexivity.
Defined.

Section AsyncSchemaFacts.

Context {World : Type} (drv : Driver World).

Lemma table_params_state (table_name : string) (st st' : @MState World) r :
  table_params table_name st = (r, st') -> st' = st.
Proof.
  destruct st as [i o]. unfold table_params, bind, attr, gets, getitem. cbn.
  destruct (config o !! "database"); cbn; intros H; inversion H; reflexivity.
Qed.

Lemma execute_query_needs_session (query : string) (params : option Params)
    (max_rows timeout : Z) (st st' : @MState World) (r : QueryResult) :
  execute_query drv query params max_rows timeout st = (inr r, st') ->
  _connection (self st) <> None.
Proof.
  intros H Hnone. destruct st as [i o]. cbn in Hnone.
  unfold execute_query in H. unfold_monad. cbn in H.
  destruct (time_time drv (world i)) as [t w]. cbn in H. rewrite Hnone in H.
  discriminate H.
Qed.

End AsyncSchemaFacts.

(** X23: the schema of the non-blocking path is read over the blocking
    session.  When [async_get_table_schema] returns a schema, the
    object holds a blocking session, over which the details were read;
    the schema carries the requested name, a row count of [0] and no
    [CREATE] statement, whatever the table holds, and its details are
    well formed. *)
Theorem X23_async_schema_uses_blocking_session :
  forall (World : Type) (drv : Driver World) (table_name : string)
         (st st' : @MState World) (ts : TableSchema),
    async_get_table_schema drv table_name st = (inr (Some ts), st') ->
    _connection (self st) <> None
    /\ ts_name ts = table_name
    /\ ts_row_count ts = VInt 0
    /\ ts_create_statement ts = VNone
    /\ Forall (names_primary_column (ts_columns ts)) (ts_primary_keys ts)
    /\ Forall complete_foreign_key (ts_foreign_keys ts)
    /\ Forall named_index (ts_indexes ts).
Proof.
  intros World drv table_name st st' ts H.
  unfold async_get_table_schema in H.
  apply try_except_inr in H as [H | (e & s1 & _ & H)].
  2:{ unfold bind, io_, zoom, log, modify, raise in H. destruct s1. discriminate H. }
  apply bind_inr in H as (params & s0 & Hparams & H).
  apply table_params_state in Hparams. subst s0.
  apply bind_inr in H as (check_result & s1 & Hcheck & H).
  apply async_execute_query_grows in Hcheck as (Hself & _).
  destruct (data check_result); [discriminate H|].
  apply bind_inr in H as (td & s2 & Hdetails & H).
  inversion H; subst. clear H. cbn.
  pose proof Hdetails as Hrun. unfold _get_table_details in Hrun.
  apply bind_inr in Hrun as (params1 & s3 & Hparams1 & Hrun).
  apply table_params_state in Hparams1. subst s3.
  apply bind_inr in Hrun as (columns_result & s4 & Hcolumns & _).
  apply execute_query_needs_session in Hcolumns. rewrite Hself in Hcolumns.
  destruct (details_well_formed drv table_name s1 st' td Hdetails)
    as (Hname & Hpk & _ & Hfk & Hix).
  repeat split; assumption.
Qed.

Lemma X23_async_schema_witness :
  exists ts,
    fst (async_get_table_schema catalog_driver "orders" open_state) = inr (Some ts)
    /\ _connection (self open_state) <> None
    /\ ts_name ts = "orders"
    /\ ts_row_count ts = VInt 0
    /\ ts_create_statement ts = VNone
    /\ Forall (names_primary_column (ts_columns ts)) (ts_primary_keys ts)
    /\ Forall complete_foreign_key (ts_foreign_keys ts)
    /\ Forall named_index (ts_indexes ts).
Proof.
  exists (mkTableSchema "orders" (td_columns orders_details)
            (td_primary_keys orders_details) (td_foreign_keys orders_details)
            (td_indexes orders_details) (VInt 0) VNone).
  split; [vm_compute; reflexivity|].
  apply (X23_async_schema_uses_blocking_session Z catalog_driver "orders" open_state
           (snd (async_get_table_schema catalog_driver "orders" open_state))).
  vm_compute. reflexivity.
Defined.

Example async_schema_without_session_fails :
  exists msg,
    fst (async_get_table_schema catalog_driver "orders" pool_only_state)
    = inl (DatabaseQueryError msg).
Proof. eexists. vm_compute. reflexivity. Qed.

(** ** Running a statement by connection name (query_tools.py,
       [execute_sql_query]) *)

Section ShapeFacts.

Context {World : Type} (drv : Driver World).

Lemma execute_query_shape (query : string) (params : option Params)
    (max_rows timeout : Z) (st st' : @MState World) (r : QueryResult) :
  execute_query drv query params max_rows timeout st = (inr r, st') ->
  success r = true /\ row_count r = Z.of_nat (length (data r))
  /\ sql_query r = Some query.
Proof.
  intros H. apply execute_query_inr in H
    as (c & cs & t & s1 & s2 & _ & _ & (s3 & s4 & Hres & _)).
  destruct (is_read_query query).
  - apply read_result_inr in Hres as [-> _]. now cbn.
  - subst r. now cbn.
Qed.

Lemma on_object_inr {A : Type} (db : nat) (m : @Meth World A)
    (s s' : @RState World) (a : A) :
  on_object db m s = (inr a, s') ->
  exists o ms, heap s !! db = Some o /\ m (mkMState (r_io s) o) = (inr a, ms).
Proof.
  unfold on_object. destruct (heap s !! db) as [o|]; [|discriminate].
  destruct (m _) as [r ms] eqn:E. intros H. inversion H; subst.
  now exists o, ms.
Qed.

End ShapeFacts.

(** X24: [execute_sql_query] never raises and never changes a registry.
    Its reply is one of two: a success that carries the rows, the
    statement and a note in which both numbers are the number of rows
    returned, so that the note never tells a truncated result from a
    complete one; or a failure with an error text and no data.  A name
    that is active in the non-blocking registry only is not found. *)
Theorem X24_execute_sql_query_reply :
  forall (World : Type) (drv : Driver World) (name sql : string)
         (max_rows timeout : Z) (st : @RState World),
    exists answer st',
      QueryTools.execute_sql_query drv name sql max_rows timeout st = (inr answer, st')
      /\ _active_connections st' = _active_connections st
      /\ _async_active_connections st' = _async_active_connections st
      /\ ((exists rows,
             answer !! "success" = Some (r_bool true)
             /\ answer !! "data" = Some (RRows rows)
             /\ answer !! "row_count" = Some (RVal (VInt (Z.of_nat (length rows))))
             /\ answer !! "sql_query" = Some (r_str sql)
             /\ answer !! "note"
                = Some (r_str ("Returned " +:+ PyStr.of_Z (Z.of_nat (length rows))
                               +:+ " of " +:+ PyStr.of_Z (Z.of_nat (length rows))
                               +:+ " rows"))
             /\ PyDict.mem name (_active_connections st) = true)
          \/ (exists msg,
                answer !! "success" = Some (r_bool false)
                /\ answer !! "error" = Some (r_str msg)
                /\ answer !! "data" = None)).
Proof.
  intros World drv name sql max_rows timeout st.
  unfold QueryTools.execute_sql_query, try_except.
  unfold bind at 1. unfold QueryTools.get_connection at 1. cbn [gets].
  unfold PyDict.mem.
  destruct (PyDict.get name (_active_connections st)) as [db|].
  - unfold bind at 1.
    destruct (on_object db _ st) as [[e|result] s1] eqn:Hrun.
    + pose proof (on_object_registries _ _ _ _ _ Hrun) as [Ha Hb].
      destruct s1 as [i h n a b]. cbn in Ha, Hb. subst.
      do 2 eexists. split; [reflexivity|]. split; [reflexivity|].
      split; [reflexivity|]. right. eexists. repeat split; reflexivity.
    + pose proof (on_object_registries _ _ _ _ _ Hrun) as [Ha Hb].
      apply on_object_inr in Hrun as (o & ms & _ & Hrun).
      apply execute_query_shape in Hrun as (Hok & Hcount & Hecho).
      do 2 eexists. split; [reflexivity|]. split; [exact Ha|]. split; [exact Hb|].
      left. exists (data result). unfold returned_note, echoed_query.
      rewrite Hok, Hcount, Hecho. repeat split; reflexivity.
  - do 2 eexists. split; [reflexivity|]. split; [reflexivity|].
    split; [reflexivity|]. right. eexists. repeat split; reflexivity.
Qed.

Example sql_query_by_name :
  exists answer,
    fst (QueryTools.execute_sql_query demo_driver "main" "SELECT id FROM t" 2 30
           demo_registry) = inr answer
    /\ answer !! "data" = Some (RRows [ {[ "id" := VInt 1 ]}; {[ "id" := VInt 2 ]} ])
    /\ answer !! "note" = Some (r_str "Returned 2 of 2 rows").
Proof. eexists. repeat split; vm_compute; reflexivity. Qed.

Example sql_query_async_only_name :
  exists answer,
    fst (QueryTools.execute_sql_query demo_driver "main" "SELECT id FROM t" 2 30
           async_only_registry) = inr answer
    /\ answer !! "error" = Some (r_str "No active connection named 'main'").
Proof. eexists. repeat split; vm_compute; reflexivity. Qed.

(** ** Teardown of a non-blocking connection (connection_tools.py,
       [async_disconnect]) *)

Section PoolTeardownFacts.

Context {World : Type} (drv : Driver World).

Lemma async_disconnect_keeps_session (st st' : @MState World) (r : Exn + unit) :
  async_disconnect drv st = (r, st') ->
  _connection (self st') = _connection (self st)
  /\ exists cl, calls (io st') = calls (io st) ++ cl
                /\ forallb is_pool_teardown cl = true.
Proof.
  destruct st as [i [name cfg conn flag cur ver pool]].
  unfold async_disconnect. unfold_monad. cbn.
  repeat step; cbn; intros H; inversion H; subst; cbn;
    (split; [reflexivity|]); solve_new_calls.
Qed.

End PoolTeardownFacts.

(** X25: [async_disconnect] of an active name reports success and
    removes the name from the non-blocking registry, but it tears down
    the pool only: its calls close the pool and nothing else, the
    object keeps the handle of its blocking session, and the blocking
    registry is as before. *)
Theorem X25_async_disconnect_keeps_blocking_session :
  forall (World : Type) (drv : Driver World) (name : string)
         (st : @RState World) (db : nat) (o : MySQLConnection),
    registry_ok (_async_active_connections st) ->
    PyDict.get name (_async_active_connections st) = Some db ->
    heap st !! db = Some o ->
    exists answer st' o',
      AsyncConnectionTools.async_disconnect drv name st = (inr answer, st')
      /\ answer !! "success" = Some (s_bool true)
      /\ PyDict.mem name (_async_active_connections st') = false
      /\ _active_connections st' = _active_connections st
      /\ heap st' !! db = Some o'
      /\ _connection o' = _connection o
      /\ exists cl, calls (r_io st') = calls (r_io st) ++ cl
                    /\ forallb is_pool_teardown cl = true.
Proof.
  intros World drv name [i h n a b] db o Hok Hget Hheap. cbn in *.
  destruct (async_disconnect_never_raises drv (mkMState i o)) as (ms & Hrun & _).
  pose proof (async_disconnect_keeps_session drv _ _ _ Hrun) as (Hconn & Hcalls).
  do 3 eexists. split; [|split; [|split; [|split; [|split; [|split]]]]].
  - unfold AsyncConnectionTools.async_disconnect, try_except.
    unfold bind at 1. cbn [gets _async_active_connections]. rewrite Hget.
    unfold bind at 1. unfold on_object at 1. cbn [heap r_io]. rewrite Hheap, Hrun.
    reflexivity.
  - reflexivity.
  - cbn. unfold PyDict.mem. now rewrite get_del_same.
  - reflexivity.
  - cbn. apply lookup_insert_eq.
  - exact Hconn.
  - exact Hcalls.
Qed.

Lemma X25_async_disconnect_witness :
  exists answer st' o',
    AsyncConnectionTools.async_disconnect demo_driver "main" demo_registry
    = (inr answer, st')
    /\ answer !! "success" = Some (s_bool true)
    /\ PyDict.mem "main" (_async_active_connections st') = false
    /\ _active_connections st' = _active_connections demo_registry
    /\ heap st' !! 0%nat = Some o'
    /\ _connection o' = _connection open_connection
    /\ exists cl, calls (r_io st') = calls (r_io demo_registry) ++ cl
                  /\ forallb is_pool_teardown cl = true.
Proof.
  apply (X25_async_disconnect_keeps_blocking_session Z demo_driver "main"
           demo_registry 0%nat open_connection).
  - apply (bool_decide_unpack _). vm_compute. exact I.
  - reflexivity.
  - vm_compute. reflexivity.
Defined.

(** ** A non-blocking connect that fails (connection_tools.py,
       [async_connect]) *)

Section HandshakeFacts.

Context {World : Type} (drv : Driver World).

Local Abbreviation kept := (@session_kept World).

Lemma kept_refl (s : @MState World) : kept s s.
Proof. reflexivity. Qed.

Lemma kept_trans (s1 s2 s3 : @MState World) : kept s1 s2 -> kept s2 s3 -> kept s1 s3.
Proof. unfold session_kept. congruence. Qed.

Lemma kept_io {A : Type} (m : M (IO World) A) : preserves kept (io_ m).
Proof.
  intros s r s'. unfold io_, zoom. destruct (m (io s)) as [r0 i].
  intros H. inversion H; subst. reflexivity.
Qed.

Lemma kept_assign (f : MySQLConnection -> MySQLConnection) :
  (forall o, _connection (f o) = _connection o) -> preserves kept (assign f).
Proof.
  intros Hf s r s' H. inversion H; subst. unfold session_kept. cbn. apply Hf.
Qed.

Lemma kept_getitem (d : gmap string PyVal) (k : string) :
  preserves kept (@getitem World d k).
Proof.
  unfold getitem. destruct (d !! k);
    [apply (preserves_ret _ kept_refl) | apply (preserves_raise _ kept_refl)].
Qed.

Ltac kept_step :=
  first
    [ apply (preserves_ret _ kept_refl) | apply (preserves_raise _ kept_refl)
    | apply kept_io | apply kept_getitem
    | apply kept_assign; intros []; reflexivity
    | apply (preserves_bind _ kept_trans); [|intros ?]
    | apply (preserves_try_except _ kept_trans); [|intros ?]
    | match goal with
      | |- preserves _ (match ?x with _ => _ end) => destruct x
      | |- preserves _ (if ?x then _ else _) => destruct x
      end ].

Lemma async_connect_keeps_session (cfg : gmap string PyVal) :
  preserves kept (async_connect drv cfg).
Proof.
  unfold async_connect, _get_password, required_keys. cbn [for_each].
  repeat kept_step.
Qed.

Ltac self_kept H :=
  let P := fresh "P" in
  match type of H with
  | ?m ?s = (_, ?s') =>
      assert (P : grows (fun _ => True) s s')
        by (apply (fun pf : preserves (grows (fun _ => True)) m => pf _ _ _ H);
            repeat frame_step; exact I);
      destruct P as (P & _)
  end.

Lemma connect_inr_session (cfg : gmap string PyVal) (st st' : @MState World)
    (b : bool) :
  connect drv cfg st = (inr b, st') -> exists c, _connection (self st') = Some c.
Proof.
  intros H. unfold connect in H.
  apply try_except_inr in H as [H | (e & s1 & _ & H)].
  2:{ unfold bind, io_, zoom, log, modify, assign, raise in H. discriminate H. }
  repeat (let a := fresh "a" in let s := fresh "s" in let F := fresh "F" in
          apply bind_inr in H as (a & s & F & H)).
  inversion H; subst. clear H.
  repeat match goal with
         | Ha : assign _ _ = (_, _) |- _ => inversion Ha; subst; clear Ha
         | Hl : io_ (log _ _) _ = (_, _) |- _ => inversion Hl; subst; clear Hl
         end.
  cbn. unfold version_of_row in F11.
  self_kept F8. self_kept F9. self_kept F10. self_kept F11.
  exists a6. rewrite P2, P1, P0, P. reflexivity.
Qed.

Lemma create_inr_session (name : string) (cfg : gmap string PyVal)
    (s s' : @RState World) (db : nat) :
  create_mysql_connection drv name cfg s = (inr db, s') ->
  exists o c, heap s' !! db = Some o /\ _connection o = Some c.
Proof.
  unfold create_mysql_connection, bind, new_object, on_object. cbn.
  rewrite lookup_insert_eq.
  destruct (connect drv cfg _) as [[e|b] ms] eqn:E; [discriminate|].
  intros H. inversion H; subst. cbn.
  apply connect_inr_session in E as [c Hc].
  exists (self ms), c. split; [apply lookup_insert_eq | exact Hc].
Qed.

End HandshakeFacts.

(** X26: a non-blocking connect whose pool cannot be created leaves an
    open blocking session behind.  [async_connect] first creates the
    connection, which opens a blocking session, and only then the pool;
    when the pool fails the call reports the failure, both registries
    are as they were, and the object still holds the session it
    opened. *)
Theorem X26_failed_pool_leaves_blocking_session :
  forall (World : Type) (drv : Driver World) (name : string)
         (config : option (gmap string PyVal)) (cfg : gmap string PyVal)
         (st st0 st1 st2 : @RState World) (db : nat) (e : Exn),
    PyDict.mem name (_async_active_connections st) = false ->
    ConnectionTools.load_config drv name config st = (inr (Some cfg), st0) ->
    ConnectionTools.db_type_of cfg st0 = (inr "mysql", st0) ->
    create_mysql_connection drv name cfg st0 = (inr db, st1) ->
    on_object db (async_connect drv cfg) st1 = (inl e, st2) ->
    exists st' o c,
      ConnectionTools.async_connect drv name config st
      = (inr (status [ ("success", s_bool false);
                       ("error", s_str ("Async connection failed: " +:+ exn_str e)) ]),
         st')
      /\ _async_active_connections st' = _async_active_connections st
      /\ _active_connections st' = _active_connections st
      /\ heap st' !! db = Some o
      /\ _connection o = Some c.
Proof.
  intros World drv name config cfg st st0 st1 st2 db e
         Hfree Hload Htype Hcreate Hpool.
  pose proof (load_config_store drv _ _ _ _ _ Hload) as (_ & _ & Ha0 & Hb0).
  pose proof (create_store drv _ _ _ _ _ Hcreate) as (_ & Ha1 & Hb1 & _).
  pose proof (on_object_registries _ _ _ _ _ Hpool) as [Ha2 Hb2].
  destruct (create_inr_session drv _ _ _ _ _ Hcreate) as (o1 & c & Ho1 & Hc).
  assert (Hsession : exists o, heap st2 !! db = Some o /\ _connection o = Some c).
  { revert Hpool. unfold on_object. rewrite Ho1.
    destruct (async_connect drv cfg _) as [r ms] eqn:E. intros H.
    inversion H; subst. cbn. exists (self ms).
    split; [apply lookup_insert_eq|].
    apply async_connect_keeps_session in E. unfold session_kept in E. cbn in E.
    congruence. }
  destruct Hsession as (o & Ho & Hoc).
  exists (mkRState (add_log (mkLog ERROR ("Async connection failed: " +:+ exn_str e))
                      (r_io st2))
            (heap st2) (next_ref st2) (_active_connections st2)
            (_async_active_connections st2)), o, c.
  split; [|split; [|split; [|split]]].
  - unfold ConnectionTools.async_connect, try_except.
    unfold bind at 1. cbn [gets]. rewrite Hfree.
    unfold bind at 1. rewrite Hload.
    unfold bind at 1. rewrite Htype. cbn [String.eqb Ascii.eqb Bool.eqb].
    unfold bind at 1. rewrite Hcreate.
    unfold bind at 1. rewrite Hpool.
    unfold bind, rio, zoom, log, modify, ret. cbn. reflexivity.
  - cbn. congruence.
  - cbn. congruence.
  - exact Ho.
  - exact Hoc.
Qed.

Lemma X26_failed_pool_witness :
  exists st' o c,
    ConnectionTools.async_connect poolless_driver "db1" (Some literal_config)
                                  fresh_registry
    = (inr (status
              [ ("success", s_bool false);
                ("error",
                 s_str ("Async connection failed: "
                        +:+ exn_str
                              (DatabaseConnectionError
                                 "Async MySQL connection failed: (2003, Cannot connect to server)"))) ]),
       st')
    /\ _async_active_connections st' = _async_active_connections fresh_registry
    /\ _active_connections st' = _active_connections fresh_registry
    /\ heap st' !! 0%nat = Some o
    /\ _connection o = Some c.
Proof.
  apply (X26_failed_pool_leaves_blocking_session Z poolless_driver "db1"
           (Some literal_config) literal_config fresh_registry fresh_registry
           after_blocking_handshake after_failed_pool 0%nat).
  - reflexivity.
  - reflexivity.
  - reflexivity.
  - vm_compute. reflexivity.
  - vm_compute. reflexivity.
Defined.

(** ** Describing a table by connection name (schema_tools.py,
       [get_table_info]) *)

Section TableInfoFacts.

Context {World : Type} (drv : Driver World).

Lemma column_info_name (row : gmap string PyVal) :
  column_info row !! "name" = Some (dict_get_default row "COLUMN_NAME" (VStr ""))
  /\ column_info row !! "type" = Some (dict_get_default row "DATA_TYPE" (VStr "")).
Proof.
  unfold column_info, dict_of_pairs. cbn [foldl fst snd]. split.
  - repeat (rewrite lookup_insert_ne by discriminate). apply lookup_insert_eq.
  - repeat (rewrite lookup_insert_ne by discriminate). apply lookup_insert_eq.
Qed.

Lemma format_column_ok (pks : list PyVal) (col : gmap string PyVal)
    (n t : PyVal) (s : @RState World) :
  col !! "name" = Some n -> col !! "type" = Some t ->
  SchemaTools.format_column pks col s = (inr (formatted_column pks col), s).
Proof.
  intros Hn Ht. unfold SchemaTools.format_column, formatted_column, bind, dict_item,
                       dict_get.
  rewrite Hn, Ht. reflexivity.
Qed.

Lemma format_columns_ok (pks : list PyVal) (rows : list (gmap string PyVal))
    (s : @RState World) :
  map_m (SchemaTools.format_column pks) (map column_info rows) s
  = (inr (map (formatted_column pks) (map column_info rows)), s).
Proof.
  induction rows as [|row rows IH]; [reflexivity|].
  cbn [map map_m]. unfold bind at 1.
  destruct (column_info_name row) as [Hn Ht].
  rewrite (format_column_ok pks _ _ _ s Hn Ht).
  unfold bind at 1. rewrite IH. reflexivity.
Qed.

Lemma get_table_schema_some (table_name : string) (st st' : @MState World)
    (ts : TableSchema) :
  get_table_schema drv table_name st = (inr (Some ts), st') ->
  ts_name ts = table_name
  /\ exists rows, ts_columns ts = map column_info rows
                  /\ ts_primary_keys ts = omap primary_key_of rows.
Proof.
  intros H. unfold get_table_schema in H.
  apply try_except_inr in H as [H | (e & s1 & _ & H)].
  2:{ unfold bind, io_, zoom, log, modify, raise in H. destruct s1. discriminate H. }
  apply bind_inr in H as (params & s0 & _ & H).
  apply bind_inr in H as (check_result & s1 & _ & H).
  destruct (data check_result); [discriminate H|].
  apply bind_inr in H as (td & s2 & Hdetails & H).
  apply bind_inr in H as (count_result & s3 & _ & H).
  apply bind_inr in H as (create_result & s4 & _ & H).
  inversion H; subst. clear H. cbn. split; [reflexivity|].
  unfold _get_table_details in Hdetails.
  repeat (let a := fresh "a" in let s := fresh "s" in let F := fresh "F" in
          apply bind_inr in Hdetails as (a & s & F & Hdetails)).
  inversion Hdetails; subst. cbn. eexists. split; reflexivity.
Qed.

Lemma primary_keys_flagged (rows : list (gmap string PyVal)) :
  Forall (flagged_primary
            (map (formatted_column (omap primary_key_of rows)) (map column_info rows)))
         (omap primary_key_of rows).
Proof.
  apply Forall_forall. intros pk Hpk.
  pose proof Hpk as Hin. apply list_elem_of_omap in Hin as (row & Hrow & Hkey).
  apply primary_key_column in Hkey as (_ & Hname & _).
  exists (formatted_column (omap primary_key_of rows) (column_info row)).
  split; [|split].
  - apply in_map, in_map. now apply list_elem_of_In.
  - unfold formatted_column, dict_of_pairs, dict_get. cbn [foldl fst snd].
    rewrite Hname. cbn [default from_option id].
    repeat (rewrite lookup_insert_ne by discriminate). apply lookup_insert_eq.
  - unfold formatted_column, dict_of_pairs, dict_get. cbn [foldl fst snd].
    rewrite Hname. cbn [default from_option id].
    repeat (rewrite lookup_insert_ne by discriminate). rewrite lookup_insert_eq.
    do 2 f_equal. unfold py_in. apply existsb_exists. exists pk.
    split; [now apply list_elem_of_In | apply py_eq_refl].
Qed.

End TableInfoFacts.

(** X27: [get_table_info] never raises and never changes the registry.
    Its reply is either a failure with an error text and no columns, or
    the description of the table asked for, in which the flags agree
    with the list of primary keys: every primary key is the name of a
    column that is flagged [is_primary], and there are no more primary
    keys than columns. *)
Theorem X27_table_info_flags_primary_keys :
  forall (World : Type) (drv : Driver World) (name table_name : string)
         (st : @RState World),
    exists answer st',
      SchemaTools.get_table_info drv name table_name st = (inr answer, st')
      /\ _active_connections st' = _active_connections st
      /\ ((answer !! "success" = Some (r_bool true)
           /\ answer !! "table_name" = Some (r_str table_name)
           /\ exists cols pks,
                answer !! "columns" = Some (RRows cols)
                /\ answer !! "primary_keys" = Some (RList pks)
                /\ Forall (flagged_primary cols) pks
                /\ (length pks <= length cols)%nat)
          \/ (answer !! "success" = Some (r_bool false)
              /\ answer !! "columns" = None
              /\ exists msg, answer !! "error" = Some (r_str msg))).
Proof.
  intros World drv name table_name st.
  unfold SchemaTools.get_table_info, try_except.
  unfold bind at 1. unfold SchemaTools.get_connection at 1. cbn [gets].
  destruct (PyDict.get name (_active_connections st)) as [db|].
  2:{ do 2 eexists. split; [reflexivity|]. split; [reflexivity|].
      right. repeat split. now eexists. }
  unfold bind at 1.
  destruct (on_object db _ st) as [[e|[ts|]] s1] eqn:Hrun.
  - pose proof (on_object_registries _ _ _ _ _ Hrun) as [Ha _].
    destruct s1 as [i h n a b]. cbn in Ha. subst.
    do 2 eexists. split; [reflexivity|]. split; [reflexivity|].
    right. repeat split. now eexists.
  - pose proof (on_object_registries _ _ _ _ _ Hrun) as [Ha _].
    apply on_object_inr in Hrun as (o & ms & _ & Hrun).
    apply get_table_schema_some in Hrun as (Hname & rows & Hcols & Hpks).
    unfold bind at 1. rewrite Hcols, Hpks, format_columns_ok.
    do 2 eexists. split; [reflexivity|]. split; [exact Ha|].
    left. split; [reflexivity|]. split; [now rewrite Hname|].
    do 2 eexists. split; [reflexivity|]. split; [reflexivity|]. split.
    + apply primary_keys_flagged.
    + rewrite !length_map. apply length_omap_le.
  - pose proof (on_object_registries _ _ _ _ _ Hrun) as [Ha _].
    do 2 eexists. split; [reflexivity|]. split; [exact Ha|].
    right. repeat split. now eexists.
Qed.

Example orders_table_info :
  reply_field (SchemaTools.get_table_info catalog_driver "main" "orders"
                 catalog_registry) "primary_keys"
  = Some (RList [VStr "id"])
  /\ reply_field (SchemaTools.get_table_info catalog_driver "main" "orders"
                    catalog_registry) "has_create_statement"
     = Some (r_bool false).
Proof. split; vm_compute; reflexivity. Qed.

Example ghost_table_info :
  reply_field (SchemaTools.get_table_info empty_driver "main" "ghost" catalog_registry)
              "error"
  = Some (r_str "Table 'ghost' not found").
Proof. vm_compute. reflexivity. Qed.

(** ** The schema of a database (mysql.py, [get_schema]) *)

Section SchemaFacts.

Context {World : Type} (drv : Driver World).

Lemma is_connected_true (st s1 : @MState World) :
  is_connected drv st = (inr true, s1) ->
  self s1 = self st /\ _connection (self st) <> None.
Proof.
  destruct st as [i o]. unfold is_connected, bind, attr, gets. cbn.
  destruct (_connection o) as [c|]; [|discriminate].
  unfold try_except, bind, io_, zoom, call_, call, assign, modify, ret. cbn.
  destruct (connection_ping drv c false (world i)) as [[e|] w]; cbn;
    intros H; inversion H; subst. now split.
Qed.

Lemma table_params_of_state (table_name : PyVal) (st st' : @MState World) r :
  table_params_of table_name st = (r, st') -> st' = st.
Proof.
  destruct st as [i o]. unfold table_params_of, bind, attr, gets, getitem. cbn.
  destruct (config o !! "database"); cbn; intros H; inversion H; reflexivity.
Qed.

Lemma table_details_of_well_formed (table_name : PyVal) (st st' : @MState World)
    (t : SchemaTable) :
  truthy table_name = true ->
  table_details_of drv table_name st = (inr t, st') ->
  well_formed_table t.
Proof.
  intros Hname H. unfold table_details_of in H.
  repeat (let a := fresh "a" in let s := fresh "s" in let F := fresh "F" in
          apply bind_inr in H as (a & s & F & H)).
  inversion H; subst. unfold well_formed_table. cbn.
  split; [exact Hname|]. split; [|split; [|split]].
  - eexists. split; reflexivity.
  - apply primary_keys_name_columns.
  - apply foreign_keys_complete.
  - apply indexes_named. constructor.
Qed.

Lemma collect_tables_well_formed (rows : list (gmap string PyVal)) :
  forall (st st' : @MState World) (tables : list SchemaTable),
    collect_tables drv rows st = (inr tables, st') ->
    Forall well_formed_table tables /\ (length tables <= length rows)%nat.
Proof.
  induction rows as [|row rows IH]; intros st st' tables H.
  - inversion H; subst. split; [constructor | reflexivity].
  - cbn [collect_tables] in H.
    destruct (truthy (dict_get row "TABLE_NAME")) eqn:Hname.
    + apply bind_inr in H as (t & s1 & Ht & H).
      apply bind_inr in H as (ts & s2 & Hts & H).
      inversion H; subst. apply IH in Hts as [Hts Hlen]. split.
      * constructor; [|exact Hts].
        eapply table_details_of_well_formed; [exact Hname | exact Ht].
      * cbn. lia.
    + apply IH in H as [Hts Hlen]. split; [exact Hts | cbn; lia].
Qed.

Lemma get_schema_inr (table_name : option string) (st st' : @MState World)
    (info : SchemaInfo) :
  get_schema drv table_name st = (inr info, st') ->
  si_db_type info = "mysql"
  /\ si_mysql_version info = _mysql_version (self st)
  /\ Forall well_formed_table (si_tables info)
  /\ _connection (self st) <> None.
Proof.
  intros H. unfold get_schema in H.
  apply try_except_inr in H as [H | (e & s1 & _ & H)].
  2:{ unfold bind, io_, zoom, log, modify, raise in H. destruct s1. discriminate H. }
  apply bind_inr in H as (alive & s1 & Halive & H).
  destruct alive; cbn [negb] in H; [|discriminate H].
  apply is_connected_true in Halive as [Hself Hconn].
  apply bind_inr in H as (cfg & s2 & Hcfg & H). inversion Hcfg; subst. clear Hcfg.
  apply bind_inr in H as (version & s3 & Hver & H). inversion Hver; subst. clear Hver.
  apply bind_inr in H as ([query params] & s4 & _ & H).
  apply bind_inr in H as (tables_result & s5 & _ & H).
  apply bind_inr in H as (tables & s6 & Htables & H).
  inversion H; subst. cbn. apply collect_tables_well_formed in Htables as [Hwf _].
  rewrite Hself. repeat split; assumption.
Qed.

End SchemaFacts.

(** X28: [get_schema] answers only over a live blocking session.  A
    schema it returns is of type [mysql], carries the version stored in
    the object, and every table in it has a non-empty name and well
    formed details.  Every failure is a plain [DatabaseQueryError], also
    the missing connection: without a blocking session the call fails
    with [Failed to get schema: Not connected to database] before any
    driver call. *)
Theorem X28_schema_needs_session_and_is_well_formed :
  forall (World : Type) (drv : Driver World) (table_name : option string)
         (st st' : @MState World),
    (forall info,
       get_schema drv table_name st = (inr info, st') ->
       si_db_type info = "mysql"
       /\ si_mysql_version info = _mysql_version (self st)
       /\ Forall well_formed_table (si_tables info)
       /\ _connection (self st) <> None)
    /\ (forall e,
          get_schema drv table_name st = (inl e, st') ->
          exists cause,
            e = DatabaseQueryError ("Failed to get schema: " +:+ exn_str cause)
            /\ is_timeout_error e = false)
    /\ (_connection (self st) = None ->
        get_schema drv table_name st
        = (inl (DatabaseQueryError
                  ("Failed to get schema: " +:+ "Not connected to database")),
           mkMState (add_log (mkLog ERROR ("Error getting schema: "
                                           +:+ "Not connected to database"))
                             (io st))
                    (self st))).
Proof.
  intros World drv table_name st st'. split; [|split].
  - intros info H. now apply (get_schema_inr drv table_name st st').
  - intros e H. unfold get_schema, try_except in H.
    match type of H with
    | context [match ?body st with _ => _ end] =>
        destruct (body st) as [[cause|r] [i o]]
    end; [|discriminate H].
    unfold bind, io_, zoom, log, modify, raise in H. cbn in H.
    inversion H; subst. exists cause. split; reflexivity.
  - intros Hnone. unfold get_schema, try_except. unfold bind at 1.
    rewrite (is_connected_released drv st Hnone). cbn [negb].
    destruct st as [i o]. reflexivity.
Qed.

Lemma X28_schema_witness :
  (si_db_type orders_schema_info = "mysql"
   /\ si_mysql_version orders_schema_info = _mysql_version (self open_state)
   /\ Forall well_formed_table (si_tables orders_schema_info)
   /\ _connection (self open_state) <> None)
  /\ get_schema catalog_driver None pool_only_state
     = (inl (DatabaseQueryError
               ("Failed to get schema: " +:+ "Not connected to database")),
        mkMState (add_log (mkLog ERROR ("Error getting schema: "
                                        +:+ "Not connected to database"))
                          (io pool_only_state))
                 (self pool_only_state)).
Proof.
  split.
  - apply (proj1 (X28_schema_needs_session_and_is_well_formed Z catalog_driver
                    (Some "orders") open_state
                    (snd (get_schema catalog_driver (Some "orders") open_state)))).
    vm_compute. reflexivity.
  - apply (proj2 (proj2 (X28_schema_needs_session_and_is_well_formed Z catalog_driver
                           None pool_only_state pool_only_state))).
    reflexivity.
Defined.

Example orders_schema :
  map tbl_name (si_tables orders_schema_info) = [VStr "orders"].
Proof. vm_compute. reflexivity. Qed.

(** ** The schema by connection name (schema_tools.py, [get_schema]) *)

Section OverviewFacts.

Context {World : Type} (drv : Driver World).

Lemma map_m_ok {A B : Type} (f : A -> @Reg World B) (P : B -> Prop)
    (l : list A) (s : @RState World) :
  Forall (fun x => exists y, f x s = (inr y, s) /\ P y) l ->
  exists ys, map_m f l s = (inr ys, s) /\ Forall P ys /\ length ys = length l.
Proof.
  induction 1 as [|x l (y & Hy & Py) _ (ys & Hys & Pys & Hlen)].
  - exists []. repeat split. constructor.
  - exists (y :: ys). cbn [map_m]. unfold bind at 1. rewrite Hy.
    unfold bind at 1. rewrite Hys. split; [reflexivity|].
    split; [now constructor | cbn; now rewrite Hlen].
Qed.

Lemma sample_column_ok (row : gmap string PyVal) (s : @RState World) :
  exists y, SchemaOverview.sample_column (column_info row) s = (inr y, s)
            /\ exists n ty, y = dict_of_pairs [ ("name", n); ("type", ty) ].
Proof.
  destruct (column_info_name row) as [Hn Ht].
  unfold SchemaOverview.sample_column, bind, dict_item. rewrite Hn, Ht.
  eexists. split; [reflexivity|]. now do 2 eexists.
Qed.

Lemma format_table_ok (t : SchemaTable) (s : @RState World) :
  well_formed_table t ->
  exists ft, SchemaOverview.format_table t s = (inr ft, s) /\ sample_of_five ft.
Proof.
  intros (_ & (rows & Hcols & _) & _).
  unfold SchemaOverview.format_table. rewrite Hcols.
  destruct (map_m_ok SchemaOverview.sample_column
              (fun col => exists n ty, col = dict_of_pairs [ ("name", n); ("type", ty) ])
              (take 5 (map column_info rows)) s)
    as (sample & Hrun & Hshape & Hlen).
  { apply Forall_take, Forall_forall. intros col Hcol.
    apply list_elem_of_In, in_map_iff in Hcol as (row & <- & _).
    apply sample_column_ok. }
  unfold bind at 1. rewrite Hrun. eexists. split; [reflexivity|].
  unfold sample_of_five. cbn. rewrite Hlen, length_take.
  split; [lia|]. split; [|split; [|exact Hshape]].
  - intros Hle. destruct (5 <? _) eqn:E; [|reflexivity].
    apply Z.ltb_lt in E. lia.
  - intros Hlt. apply Z.ltb_lt in Hlt. now rewrite Hlt.
Qed.

End OverviewFacts.

(** X29: the schema tool never raises and never changes the registry.
    A successful reply counts the tables it lists, and every table in it
    shows a sample of its columns: five of them or all if there are
    fewer, each with its name and type only, and a note that counts the
    remaining columns exactly when there are more than five. *)
Theorem X29_schema_overview_samples_five_columns :
  forall (World : Type) (drv : Driver World) (name : string)
         (table_name : option string) (st : @RState World),
    exists answer st',
      SchemaOverview.get_schema drv name table_name st = (inr answer, st')
      /\ _active_connections st' = _active_connections st
      /\ ((answer !! "success" = Some (r_bool true)
           /\ exists tables,
                answer !! "tables" = Some (RTables tables)
                /\ answer !! "table_count"
                   = Some (RVal (VInt (Z.of_nat (length tables))))
                /\ Forall sample_of_five tables)
          \/ (answer !! "success" = Some (r_bool false)
              /\ answer !! "tables" = None
              /\ exists msg, answer !! "error" = Some (r_str msg))).
Proof.
  intros World drv name table_name st.
  unfold SchemaOverview.get_schema, try_except.
  unfold bind at 1. unfold SchemaTools.get_connection at 1. cbn [gets].
  destruct (PyDict.get name (_active_connections st)) as [db|].
  2:{ do 2 eexists. split; [reflexivity|]. split; [reflexivity|].
      right. repeat split. now eexists. }
  unfold bind at 1.
  destruct (on_object db _ st) as [[e|schema] s1] eqn:Hrun.
  - pose proof (on_object_registries _ _ _ _ _ Hrun) as [Ha _].
    destruct s1 as [i h n a b]. cbn in Ha. subst.
    do 2 eexists. split; [reflexivity|]. split; [reflexivity|].
    right. repeat split. now eexists.
  - pose proof (on_object_registries _ _ _ _ _ Hrun) as [Ha _].
    apply on_object_inr in Hrun as (o & ms & _ & Hrun).
    apply get_schema_inr in Hrun as (_ & _ & Hwf & _).
    destruct (map_m_ok SchemaOverview.format_table sample_of_five
                (si_tables schema) s1) as (tables & Hfmt & Hsample & _).
    { eapply Forall_impl; [exact Hwf|]. intros t Ht. now apply format_table_ok. }
    unfold bind at 1. rewrite Hfmt.
    do 2 eexists. split; [reflexivity|]. split; [exact Ha|].
    left. split; [reflexivity|]. exists tables. repeat split. exact Hsample.
Qed.

Example orders_overview :
  reply_field (SchemaOverview.get_schema catalog_driver "main" (Some "orders")
                 catalog_registry) "tables"
  = Some (RTables
            [mkFormattedTable (VStr "orders") 2 [VStr "id"]
               [ dict_of_pairs [ ("name", VStr "id"); ("type", VStr "int") ];
                 dict_of_pairs [ ("name", VStr "owner"); ("type", VStr "int") ] ]
               None])
  /\ reply_field (SchemaOverview.get_schema catalog_driver "main" (Some "orders")
                    catalog_registry) "note"
     = Some (r_str "Showing schema for orders").
Proof. split; vm_compute; reflexivity. Qed.
